(** * Assinador de Documentos: a shallow embedding of [app.py] and [auth.py]

    The development follows the two Python modules of the repository:

    - [PyStr], [SHA256], [PyFloat] and [PosixPath] model the parts of the
      Python runtime the handlers call ([str] methods, [hashlib.sha256],
      binary64 arithmetic, [os.path]);
    - [App] embeds the hashing helper, the coordinate transformer, the three
      verification/download handlers and the signing handler of [app.py];
    - [Auth] embeds the login rate limiter and the login handler of [auth.py].

    Python [str] values are modelled as [string] (sequences of 8-bit
    characters): the model covers ASCII text. Python [bytes] are [list byte],
    Python [int] is [Z], Python [float] is IEEE-754 binary64 as specified by
    [SpecFloat]. *)

From Stdlib Require Import ZArith List Bool Ascii String Lia SpecFloat.
From Stdlib.Strings Require Import Byte.
From stdpp Require Import base option list gmap strings pretty.

Open Scope Z_scope.

(* ===================================================================== *)
(** * Python [str] operations used by the handlers *)
(* ===================================================================== *)

Module PyStr.

(** [c.lower()] on one ASCII character. *)
Definition lower_ascii (c : ascii) : ascii :=
  let n := nat_of_ascii c in
  if ((65 <=? n)%nat && (n <=? 90)%nat)%bool then ascii_of_nat (n + 32) else c.

(** [s.lower()]. *)
Fixpoint lower (s : string) : string :=
  match s with
  | EmptyString => EmptyString
  | String c r => String (lower_ascii c) (lower r)
  end.

(** [c.isspace()] for the ASCII range: TAB, LF, VT, FF, CR, FS, GS, RS, US
    and the blank. *)
Definition is_space (c : ascii) : bool :=
  let n := nat_of_ascii c in
  ((9 <=? n)%nat && (n <=? 13)%nat) || ((28 <=? n)%nat && (n <=? 32)%nat).

(** [s.lstrip()]. *)
Fixpoint lstrip (s : string) : string :=
  match s with
  | EmptyString => EmptyString
  | String c r => if is_space c then lstrip r else s
  end.

(** [s[::-1]], used to strip on the right. *)
Fixpoint rev_onto (s acc : string) : string :=
  match s with
  | EmptyString => acc
  | String c r => rev_onto r (String c acc)
  end.

Definition rev (s : string) : string := rev_onto s EmptyString.

(** [s.strip()]. *)
Definition strip (s : string) : string := rev (lstrip (rev (lstrip s))).

(** [s.startswith(p)]. *)
Fixpoint startswith (p s : string) : bool :=
  match p, s with
  | EmptyString, _ => true
  | String a p', String b s' => if Ascii.eqb a b then startswith p' s' else false
  | String _ _, EmptyString => false
  end.

(** [needle in s]. *)
Fixpoint contains (needle s : string) : bool :=
  startswith needle s ||
  match s with
  | EmptyString => false
  | String _ r => contains needle r
  end.

(** [s[:n]]. *)
Fixpoint slice_to (n : nat) (s : string) : string :=
  match n, s with
  | S k, String c r => String c (slice_to k r)
  | _, _ => EmptyString
  end.

(** [s[n:]]. *)
Fixpoint slice_from (n : nat) (s : string) : string :=
  match n, s with
  | S k, String _ r => slice_from k r
  | _, _ => s
  end.

(** [s.split(sep)] for a one-character separator: the pieces between the
    separators, empty pieces kept. *)
Fixpoint split_on (sep : ascii) (s : string) : list string :=
  match s with
  | EmptyString => [EmptyString]
  | String c r =>
      if Ascii.eqb c sep then EmptyString :: split_on sep r
      else match split_on sep r with
           | [] => [String c EmptyString]
           | p :: ps => String c p :: ps
           end
  end.

(** [sep.join(parts)]. *)
Fixpoint join (sep : string) (parts : list string) : string :=
  match parts with
  | [] => EmptyString
  | [p] => p
  | p :: ps => p +:+ sep +:+ join sep ps
  end.

(** [s.rstrip('/')]: drop every trailing occurrence of one character. *)
Definition rstrip_char (c : ascii) (s : string) : string :=
  let fix go (t : string) : string :=
    match t with
    | EmptyString => EmptyString
    | String a r => if Ascii.eqb a c then go r else t
    end in
  rev (go (rev s)).

(** [s.rfind(c)] for one character: index of the last occurrence, [-1]
    when there is none. *)
Fixpoint rfind_from (c : ascii) (s : string) (i : Z) (found : Z) : Z :=
  match s with
  | EmptyString => found
  | String a r => rfind_from c r (i + 1) (if Ascii.eqb a c then i else found)
  end.

Definition rfind (c : ascii) (s : string) : Z := rfind_from c s 0 (-1).

(** Truthiness of a [str]. *)
Definition nonempty (s : string) : bool :=
  match s with EmptyString => false | _ => true end.

(** One character of [[0-9a-f]]. *)
Definition is_lower_hex (c : ascii) : bool :=
  let n := nat_of_ascii c in
  ((48 <=? n)%nat && (n <=? 57)%nat) || ((97 <=? n)%nat && (n <=? 102)%nat).

Fixpoint all_chars (p : ascii -> bool) (s : string) : bool :=
  match s with
  | EmptyString => true
  | String c r => p c && all_chars p r
  end.

End PyStr.

(* ===================================================================== *)
(** * [hashlib.sha256] (FIPS 180-4), with the streaming interface *)
(* ===================================================================== *)

Module SHA256.

Definition mask32 : Z := 0xffffffff.

Definition add32 (a b : Z) : Z := Z.land (a + b) mask32.

Definition rotr (n x : Z) : Z :=
  Z.lor (Z.shiftr x n) (Z.land (Z.shiftl x (32 - n)) mask32).

Definition not32 (x : Z) : Z := Z.lxor x mask32.

Definition Ch (x y z : Z) : Z := Z.lxor (Z.land x y) (Z.land (not32 x) z).
Definition Maj (x y z : Z) : Z :=
  Z.lxor (Z.lxor (Z.land x y) (Z.land x z)) (Z.land y z).
Definition Sigma0 (x : Z) : Z := Z.lxor (Z.lxor (rotr 2 x) (rotr 13 x)) (rotr 22 x).
Definition Sigma1 (x : Z) : Z := Z.lxor (Z.lxor (rotr 6 x) (rotr 11 x)) (rotr 25 x).
Definition sigma0 (x : Z) : Z := Z.lxor (Z.lxor (rotr 7 x) (rotr 18 x)) (Z.shiftr x 3).
Definition sigma1 (x : Z) : Z := Z.lxor (Z.lxor (rotr 17 x) (rotr 19 x)) (Z.shiftr x 10).

(** The constants are the fractional bits of roots of the first primes
    (FIPS 180-4, sections 4.2.2 and 5.3.3): they are computed, not copied. *)
Definition is_prime (n : Z) : bool :=
  (2 <=? n) && forallb (fun k => negb (n mod k =? 0) || (n <=? k))
                       (map Z.of_nat (seq 2 (Z.to_nat (Z.sqrt n)))).

Fixpoint primes_from (fuel : nat) (count : nat) (n : Z) : list Z :=
  match fuel, count with
  | S f, S c =>
      if is_prime n then n :: primes_from f c (n + 1) else primes_from f count (n + 1)
  | _, _ => []
  end.

Definition first_primes (count : nat) : list Z := primes_from 400 count 2.

(** Integer cube root by bisection on the bits of the root. *)
Fixpoint icbrt_bits (bit : nat) (n r : Z) : Z :=
  let try_ b := let c := r + Z.shiftl 1 (Z.of_nat b) in if c * c * c <=? n then c else r in
  match bit with
  | O => try_ O
  | S b => icbrt_bits b n (try_ bit)
  end.

Definition icbrt (n : Z) : Z := icbrt_bits 40 n 0.

Definition K : list Z :=
  Eval vm_compute in
    map (fun p => Z.land (icbrt (Z.shiftl p 96)) mask32) (first_primes 64).

(** The eight working variables / chaining values. *)
Record regs := Regs { ra : Z; rb : Z; rc : Z; rd : Z; re : Z; rf : Z; rg : Z; rh : Z }.

Definition regs_of (l : list Z) : regs :=
  let n i := List.nth i l 0 in
  Regs (n 0%nat) (n 1%nat) (n 2%nat) (n 3%nat) (n 4%nat) (n 5%nat) (n 6%nat) (n 7%nat).

Definition H0 : regs :=
  Eval vm_compute in
    regs_of (map (fun p => Z.land (Z.sqrt (Z.shiftl p 64)) mask32) (first_primes 8)).

(** Big-endian 32-bit words of a block of bytes. *)
Fixpoint words_of (bs : list Z) : list Z :=
  match bs with
  | b0 :: b1 :: b2 :: b3 :: r =>
      (Z.shiftl b0 24 + Z.shiftl b1 16 + Z.shiftl b2 8 + b3) :: words_of r
  | _ => []
  end.

(** Message schedule: [w] holds the words so far, newest first. *)
Fixpoint schedule (n : nat) (w : list Z) : list Z :=
  match n with
  | O => w
  | S k =>
      let nth i := List.nth i w 0 in
      schedule k (add32 (add32 (sigma1 (nth 1%nat)) (nth 6%nat))
                        (add32 (sigma0 (nth 14%nat)) (nth 15%nat)) :: w)
  end.

Definition round (r : regs) (kw : Z * Z) : regs :=
  let '(k, w) := kw in
  let t1 := add32 (add32 (add32 (rh r) (Sigma1 (re r))) (add32 (Ch (re r) (rf r) (rg r)) k)) w in
  let t2 := add32 (Sigma0 (ra r)) (Maj (ra r) (rb r) (rc r)) in
  Regs (add32 t1 t2) (ra r) (rb r) (rc r) (add32 (rd r) t1) (re r) (rf r) (rg r).

(** One 64-byte block folded into the chaining value. *)
Definition compress (h : regs) (block : list Z) : regs :=
  let w := List.rev (schedule 48 (List.rev (words_of block))) in
  let r := fold_left round (combine K w) h in
  Regs (add32 (ra h) (ra r)) (add32 (rb h) (rb r)) (add32 (rc h) (rc r))
       (add32 (rd h) (rd r)) (add32 (re h) (re r)) (add32 (rf h) (rf r))
       (add32 (rg h) (rg r)) (add32 (rh h) (rh r)).

(** A hash object: chaining value, the pending bytes of the current block
    (newest first, fewer than 64) and the number of bytes fed so far. *)
Record hasher := Hasher { chain : regs; pending : list Z; fed : Z }.

(** [hashlib.sha256()]. *)
Definition new : hasher := Hasher H0 [] 0.

(** One byte into the block buffer; a full buffer is compressed. *)
Definition absorb (cp : regs * list Z) (b : Z) : regs * list Z :=
  let '(c, p) := cp in
  let p' := b :: p in
  if (length p' =? 64)%nat then (compress c (List.rev p'), []) else (c, p').

Definition update1 (h : hasher) (b : byte) : hasher :=
  let '(c, p) := absorb (chain h, pending h) (Z.of_N (Byte.to_N b)) in
  Hasher c p (fed h + 1).

(** [h.update(data)]. *)
Definition update (h : hasher) (data : list byte) : hasher :=
  fold_left update1 data h.

(** The padding of a message of [n] bytes: [0x80], zeros up to 56 mod 64,
    then the bit length as a big-endian 64-bit integer. *)
Definition padding (n : Z) : list Z :=
  let zeros := Z.to_nat ((55 - n) mod 64) in
  let bits := 8 * n in
  0x80 :: repeat 0 zeros ++
    map (fun i => Z.land (Z.shiftr bits (8 * i)) 0xff) [7; 6; 5; 4; 3; 2; 1; 0].

(** [h.digest()] as the eight final words. *)
Definition final (h : hasher) : regs :=
  fst (fold_left absorb (padding (fed h)) (chain h, pending h)).

Definition hex_digit (n : Z) : ascii :=
  ascii_of_nat (Z.to_nat (if n <? 10 then 48 + n else 87 + n)).

Definition hex32 (w : Z) (rest : string) : string :=
  let d i := hex_digit (Z.land (Z.shiftr w (4 * i)) 0xf) in
  String (d 7) (String (d 6) (String (d 5) (String (d 4)
    (String (d 3) (String (d 2) (String (d 1) (String (d 0) rest))))))).

(** [h.hexdigest()]: 64 lowercase hexadecimal characters. *)
Definition hexdigest (h : hasher) : string :=
  let r := final h in
  hex32 (ra r) (hex32 (rb r) (hex32 (rc r) (hex32 (rd r)
    (hex32 (re r) (hex32 (rf r) (hex32 (rg r) (hex32 (rh r) EmptyString))))))).

(** [hashlib.sha256(data)]: a fresh object fed [data] at once. *)
Definition sha256 (data : list byte) : hasher := update new data.

Definition sha256_hex (data : list byte) : string := hexdigest (sha256 data).

End SHA256.

(* ===================================================================== *)
(** * Python exceptions and the error monad of the handlers *)
(* ===================================================================== *)

Module Py.

(** Exceptions the model distinguishes. [OutOfFuel] is not a Python
    exception: it marks a loop of the model that was cut short, and
    [sha256_of_file_total] shows the hasher never produces it. *)
Inductive exn :=
| FileNotFoundError
| ValueError
| OverflowError
| ZeroDivisionError
| LibraryError (msg : string)
| OutOfFuel.

(** [str(e)]. *)
Definition exn_str (e : exn) : string :=
  match e with
  | FileNotFoundError => "[Errno 2] No such file or directory"
  | ValueError => "cannot convert float NaN to integer"
  | OverflowError => "cannot convert float infinity to integer"
  | ZeroDivisionError => "float division by zero"
  | LibraryError msg => msg
  | OutOfFuel => "out of fuel"
  end.

(** A computation that returns or raises. *)
Definition bind {A B : Type} (m : exn + A) (k : A -> exn + B) : exn + B :=
  match m with
  | inl e => inl e
  | inr a => k a
  end.

End Py.

Notation "'let*' x ':=' m 'in' k" := (Py.bind m (fun x => k))
  (at level 10, x pattern, m at level 100, k at level 200).

(* ===================================================================== *)
(** * Python [float]: IEEE-754 binary64 *)
(* ===================================================================== *)

Module PyFloat.
Import Py.

Definition prec : Z := 53.
Definition emax : Z := 1024.

Abbreviation float := spec_float.

Definition mul : float -> float -> float := SFmul prec emax.
Definition div : float -> float -> float := SFdiv prec emax.
Definition add : float -> float -> float := SFadd prec emax.
Definition sub : float -> float -> float := SFsub prec emax.
Definition ltb : float -> float -> bool := SFltb.
Definition leb : float -> float -> bool := SFleb.

(** The nearest binary64 to an integer (ties to even). *)
Definition of_Z (z : Z) : float := binary_normalize prec emax z 0 false.

(** The conversion [int -> float] of mixed arithmetic: an integer beyond
    the binary64 range raises [OverflowError]. *)
Definition float_of_int (z : Z) : exn + float :=
  match of_Z z with
  | S754_infinity _ => inl OverflowError
  | f => inr f
  end.

Definition is_zero (f : float) : bool :=
  match f with S754_zero _ => true | _ => false end.


(** [a / b] on floats: a zero divisor raises [ZeroDivisionError]. *)
Definition truediv (a b : float) : exn + float :=
  if is_zero b then inl ZeroDivisionError else inr (div a b).

(** [int(f)]: truncation toward zero; NaN and the infinities raise. *)
Definition py_int (f : float) : exn + Z :=
  match f with
  | S754_zero _ => inr 0
  | S754_nan => inl ValueError
  | S754_infinity _ => inl OverflowError
  | S754_finite s m e =>
      let mag := if 0 <=? e then Zpos m * 2 ^ e else Zpos m / 2 ^ (- e) in
      inr (if s then - mag else mag)
  end.

(** [round(f)]: the nearest integer, ties to the even one. *)
Definition py_round (f : float) : exn + Z :=
  match f with
  | S754_zero _ => inr 0
  | S754_nan => inl ValueError
  | S754_infinity _ => inl OverflowError
  | S754_finite s m e =>
      let mag :=
        if 0 <=? e then Zpos m * 2 ^ e
        else
          let d := 2 ^ (- e) in
          let q := Zpos m / d in
          let r2 := 2 * (Zpos m mod d) in
          if r2 <? d then q
          else if d <? r2 then q + 1
          else if Z.even q then q else q + 1 in
      inr (if s then - mag else mag)
  end.

(** [max(a, b)] and [min(a, b)] of the builtins: the first argument is kept
    unless the second compares strictly beyond it. *)
Definition py_max (a b : float) : float := if ltb a b then b else a.
Definition py_min (a b : float) : float := if ltb b a then b else a.

Definition zero : float := S754_zero false.

(** The literal [0.6]: 5404319552844595 / 2^53. *)
Definition f0_6 : float := S754_finite false 5404319552844595 (-53).

(** The literals [4.0], [190.0], [180.0] and [2]. *)
Definition f4_0 : float := Eval vm_compute in of_Z 4.
Definition f190 : float := Eval vm_compute in of_Z 190.
Definition f180 : float := Eval vm_compute in of_Z 180.
Definition f2_0 : float := Eval vm_compute in of_Z 2.

End PyFloat.

(* ===================================================================== *)
(** * [os.path] (posixpath) *)
(* ===================================================================== *)

Module PosixPath.
Import PyStr.

Definition endswith_slash (s : string) : bool :=
  match rev s with
  | String c _ => Ascii.eqb c "/"
  | EmptyString => false
  end.

(** One step of [os.path.join]: an absolute component restarts the path. *)
Definition join2 (path b : string) : string :=
  if startswith "/" b then b
  else if negb (nonempty path) || endswith_slash path then path +:+ b
  else path +:+ "/" +:+ b.

(** [os.path.join(a, *p)]. *)
Definition join (a : string) (p : list string) : string := fold_left join2 p a.

(** The loop body of [normpath]; [stack] is [new_comps], last one first. *)
Definition norm_step (initial_slashes : nat) (stack : list string) (comp : string)
  : list string :=
  if String.eqb comp "" || String.eqb comp "." then stack
  else if negb (String.eqb comp "..")
          || ((initial_slashes =? 0)%nat && match stack with [] => true | _ => false end)
          || match stack with top :: _ => String.eqb top ".." | [] => false end
  then comp :: stack
  else match stack with _ :: below => below | [] => [] end.

(** [os.path.normpath(path)]. *)
Definition normpath (path : string) : string :=
  if negb (nonempty path) then "."
  else
    let initial_slashes : nat :=
      if startswith "/" path
      then (if startswith "//" path && negb (startswith "///" path) then 2 else 1)%nat
      else 0%nat in
    let comps := split_on "/" path in
    let new_comps := List.rev (fold_left (norm_step initial_slashes) comps []) in
    let p := PyStr.join "/" new_comps in
    let p := PyStr.join "" (repeat "/" initial_slashes) +:+ p in
    if nonempty p then p else ".".

(** [os.path.basename(p)]. *)
Definition basename (p : string) : string := slice_from (Z.to_nat (rfind "/" p + 1)) p.

(** The scan of [genericpath._splitext] over the leading dots of the name. *)
Fixpoint only_dots (s : string) (n : nat) : bool :=
  match n, s with
  | O, _ => true
  | S k, String c r => if Ascii.eqb c "." then only_dots r k else false
  | S _, EmptyString => false
  end.

(** [os.path.splitext(p)]: the extension starts at the last dot of the last
    component, unless that component is made of leading dots up to it. *)
Definition splitext (p : string) : string * string :=
  let sepIndex := rfind "/" p in
  let dotIndex := rfind "." p in
  if (sepIndex <? dotIndex)
     && negb (only_dots (slice_from (Z.to_nat (sepIndex + 1)) p)
                        (Z.to_nat (dotIndex - (sepIndex + 1))))
  then (slice_to (Z.to_nat dotIndex) p, slice_from (Z.to_nat dotIndex) p)
  else (p, "").

End PosixPath.

(* ===================================================================== *)
(** * The Flask request and session, as far as the handlers read them *)
(* ===================================================================== *)

Module Flask.

Inductive http_method := GET | POST.

(** An uploaded file ([werkzeug.FileStorage]); it is truthy when its
    filename is not empty. *)
Record file_storage := FileStorage { filename : string; stream : list byte }.

(** The dictionary stored under [session["user"]] by [auth.login]. *)
Record session_user := SessionUser {
  su_email : string;
  su_nome : string;
  su_cpf : string;
  su_is_admin : bool;
  su_login_at : string;
  su_orgao : option string;
  su_cargo : option string;
  su_matricula : option string
}.

Record session := Session {
  csrf_token : option string;
  permanent : bool;
  user : option session_user
}.

Record request := Request {
  method : http_method;
  args : gmap string string;
  form : gmap string string;
  files : gmap string file_storage;
  headers : gmap string string;
  remote_addr : option string;
  sess : session
}.

(** [request.values.get(k)]: the query string first, then the form. *)
Definition values_get (r : request) (k : string) : option string :=
  match args r !! k with
  | Some v => Some v
  | None => form r !! k
  end.

(** [x or str()] for an optional string: [None] reads as the empty string. *)
Definition or_empty (x : option string) : string := default "" x.

(** [request.files.get(k)] followed by the truth test [if not up]. *)
Definition files_get_truthy (r : request) (k : string) : option file_storage :=
  match files r !! k with
  | Some up => if PyStr.nonempty (filename up) then Some up else None
  | None => None
  end.

End Flask.

(* ===================================================================== *)
(** * [auth.py] *)
(* ===================================================================== *)

Module Auth.
Import PyStr Flask.

(** A row of the [users] table ([models.User]), as far as [login] reads it. *)
Record db_user := DbUser {
  u_email : string;
  u_nome : string;
  u_cpf_hash : string;
  u_cpf_masked : string;
  u_orgao : option string;
  u_cargo : option string;
  u_matricula : option string;
  u_is_admin : bool
}.

(** What [login] takes from its environment: the password checker of
    werkzeug, the application's configuration, the successive readings of
    [_now()] (the lock test, the remaining time, the lock start), the token
    [secrets.token_urlsafe] would return and the formatted login time. *)
Record login_env := LoginEnv {
  check_password_hash : string -> string -> bool;
  config : gmap string Z;
  now_check : Z;
  now_remaining : Z;
  now_fail : Z;
  fresh_token : string;
  utcnow_iso : string
}.

(** [bool(_email_re.match(email.strip().lower()))] for the pattern
    [^[^@\s]+@[^@\s]+\.[^@\s]+$]: one [@], no white space, and a dot of
    the domain that is neither its first nor its last character. *)
Definition no_space (s : string) : bool := all_chars (fun c => negb (is_space c)) s.

Fixpoint has_inner_dot (s : string) : bool :=
  match s with
  | String _ (String c r as tl) =>
      (Ascii.eqb c "." && nonempty r) || has_inner_dot tl
  | _ => false
  end.

Definition is_valid_email (email : string) : bool :=
  match split_on "@" (lower (strip email)) with
  | [loc; dom] => nonempty loc && no_space loc && no_space dom && has_inner_dot dom
  | _ => false
  end.

Definition is_digit (c : ascii) : bool :=
  let n := nat_of_ascii c in (48 <=? n)%nat && (n <=? 57)%nat.

(** [normalize_cpf(cpf)]: every character that is not a digit is removed. *)
Fixpoint normalize_cpf (cpf : string) : string :=
  match cpf with
  | EmptyString => EmptyString
  | String c r => if is_digit c then String c (normalize_cpf r) else normalize_cpf r
  end.

(** [is_valid_cpf_digits(cpf)]: [^\d{11}$] under [re.match], where [$] also
    matches before one final newline. *)
Definition is_valid_cpf_digits (cpf : string) : bool :=
  let body := slice_to 11 cpf in
  let tail := slice_from 11 cpf in
  (String.length body =? 11)%nat && all_chars is_digit body
  && (String.eqb tail "" || String.eqb tail (String "010" EmptyString)).

(** [_check_hash(hashval, texto)]. *)
Definition _check_hash (E : login_env) (hashval texto : string) : bool :=
  check_password_hash E hashval texto.

(** [_cfg(key)]: the application's value, else the default. *)
Definition _cfg (E : login_env) (key : string) : Z :=
  let defaults : gmap string Z :=
    {[ "MAX_LOGIN_ATTEMPTS" := 5; "LOCKOUT_SECONDS" := 150 ]} in
  default (default 0 (defaults !! key)) (config E !! key).

(** [validate_csrf_from_form()]. *)
Definition validate_csrf_from_form (r : request) : bool :=
  let sess_tok := or_empty (csrf_token (sess r)) in
  let form_tok := strip (or_empty (form r !! "csrf_token")) in
  nonempty sess_tok && nonempty form_tok && String.eqb sess_tok form_tok.

(** [ensure_csrf()]: the session keeps its token or gets a fresh one. *)
Definition ensure_csrf (E : login_env) (s : session) : session :=
  if nonempty (or_empty (csrf_token s)) then s
  else Session (Some (fresh_token E)) (permanent s) (user s).

(** ** Rate limit of login *)

(** One value of [_login_attempts]. *)
Record attempt := Attempt { count : Z; lock_until : Z }.

(** [_key_for_login(email)]. *)
Definition _key_for_login (r : request) (email : string) : string :=
  let source :=
    match headers r !! "X-Forwarded-For" with
    | Some v => v
    | None => match remote_addr r with
              | Some a => if nonempty a then a else "0.0.0.0"
              | None => "0.0.0.0"
              end
    end in
  let ip := strip (List.hd "" (split_on "," source)) in
  lower email +:+ "|" +:+ ip.

(** [_is_locked(email)], with the two readings of the clock it makes. *)
Definition _is_locked (E : login_env) (attempts : gmap string attempt) (key : string) : Z :=
  match attempts !! key with
  | None => 0
  | Some entry =>
      if now_check E <? lock_until entry
      then Z.max 0 (lock_until entry - now_remaining E)
      else 0
  end.

(** [_register_fail(email)]. *)
Definition _register_fail (E : login_env) (attempts : gmap string attempt) (key : string)
  : gmap string attempt :=
  let e := default (Attempt 0 0) (attempts !! key) in
  let e := Attempt (count e + 1) (lock_until e) in
  let e :=
    if _cfg E "MAX_LOGIN_ATTEMPTS" <=? count e
    then Attempt 0 (now_fail E + _cfg E "LOCKOUT_SECONDS")
    else e in
  <[ key := e ]> attempts.

(** [_clear_attempts(email)]. *)
Definition _clear_attempts (attempts : gmap string attempt) (key : string)
  : gmap string attempt :=
  delete key attempts.

(** ** The login route *)

Inductive auth_event :=
| EvUserQuery (email : string)
| EvCheckHash (email : string).

Inductive login_response :=
| RenderLogin
| Redirect (target : string).

Record login_result := LoginResult {
  l_resp : login_response;
  l_flashes : list (string * string);
  l_session : session;
  l_attempts : gmap string attempt;
  l_log : list auth_event
}.

(** [User.query.filter_by(email=email).first()] on a case-insensitive
    column. *)
Definition query_user (db : list db_user) (email : string) : option db_user :=
  List.find (fun u => String.eqb (lower (u_email u)) (lower email)) db.

Definition MSG_CSRF : string :=
  "Sessão expirada ou solicitação inválida (CSRF). Tente novamente.".
Definition MSG_FORMATO : string := "E-mail ou CPF incorreto.".
Definition MSG_CREDENCIAIS : string := "Usuário ou senha inválidos.".
Definition MSG_BLOQUEADO (mins : Z) : string :=
  "Tentativas excedidas. Aguarde " +:+ pretty mins +:+ " min para tentar novamente.".

(** [login()]. *)
Definition login (E : login_env) (db : list db_user) (attempts : gmap string attempt)
    (r : request) : login_result :=
  match method r with
  | GET => LoginResult RenderLogin [] (ensure_csrf E (sess r)) attempts []
  | POST =>
      if negb (validate_csrf_from_form r)
      then LoginResult (Redirect "auth.login") [(MSG_CSRF, "danger")] (sess r) attempts []
      else
        let email := lower (strip (or_empty (form r !! "email"))) in
        let cpf_digits := normalize_cpf (or_empty (form r !! "cpf")) in
        if negb (is_valid_email email) || negb (is_valid_cpf_digits cpf_digits)
        then LoginResult (Redirect "auth.login") [(MSG_FORMATO, "danger")] (sess r) attempts []
        else
          let key := _key_for_login r email in
          let locked := _is_locked E attempts key in
          if 0 <? locked
          then
            let mins := (locked + 59) / 60 in
            LoginResult (Redirect "auth.login") [(MSG_BLOQUEADO mins, "danger")]
                        (sess r) attempts []
          else
            let failed (log : list auth_event) :=
              LoginResult (Redirect "auth.login") [(MSG_CREDENCIAIS, "danger")]
                          (sess r) (_register_fail E attempts key) log in
            match query_user db email with
            | None => failed [EvUserQuery email]
            | Some u =>
                if negb (_check_hash E (u_cpf_hash u) cpf_digits)
                then failed [EvUserQuery email; EvCheckHash email]
                else
                  let s := ensure_csrf E (Session None false None) in
                  let s := Session (csrf_token s) true
                             (Some (SessionUser (u_email u) (u_nome u) (u_cpf_masked u)
                                      (u_is_admin u) (utcnow_iso E +:+ "Z")
                                      (u_orgao u) (u_cargo u) (u_matricula u))) in
                  let target :=
                    match args r !! "next" with
                    | Some next_url =>
                        if negb (u_is_admin u) && nonempty next_url then next_url
                        else if u_is_admin u then "cadastro" else "assinar"
                    | None => if u_is_admin u then "cadastro" else "assinar"
                    end in
                  LoginResult (Redirect target) [] s (_clear_attempts attempts key)
                              [EvUserQuery email; EvCheckHash email]
            end
  end.

End Auth.

(* ===================================================================== *)
(** * [app.py] *)
(* ===================================================================== *)

Module App.
Import PyStr Flask Py.

(** The files and directories the handlers touch: [files] is what
    [open(path, 'rb')] reads, [dirs] is what [os.listdir(path)] returns. *)
Record disk := Disk {
  files : gmap string (list byte);
  dirs : gmap string (list string)
}.

(** ** The content hasher *)

(** An open binary file: its bytes and the read position. *)
Record file := File { content : list byte; position : nat }.

(** [f.read(n)]: at most [n] bytes from the position, which advances. *)
Definition read (n : nat) (f : file) : list byte * file :=
  let chunk := take n (drop (position f) (content f)) in
  (chunk, File (content f) (position f + length chunk)).

(** [for chunk in iter(lambda: f.read(n), b''): h.update(chunk)]. *)
Fixpoint feed_chunks (fuel n : nat) (f : file) (h : SHA256.hasher)
  : option SHA256.hasher :=
  match fuel with
  | O => None
  | S k =>
      let '(chunk, f') := read n f in
      match chunk with
      | [] => Some h
      | _ :: _ => feed_chunks k n f' (SHA256.update h chunk)
      end
  end.

Definition CHUNK : nat := Z.to_nat 8192.

(** The body of [sha256_of_file] once the file is open. *)
Definition hash_open_file (data : list byte) : exn + string :=
  match feed_chunks (S (length data)) CHUNK (File data 0) SHA256.new with
  | Some h => inr (SHA256.hexdigest h)
  | None => inl OutOfFuel
  end.

(** [sha256_of_file(path)] (defined twice in [app.py], with the same body). *)
Definition sha256_of_file (d : disk) (path : string) : exn + string :=
  match files d !! path with
  | None => inl FileNotFoundError
  | Some data => hash_open_file data
  end.

(** ** The coordinate transformer of [assinar] *)

(** The page actually loaded: [page_num] after the two guards. *)
Definition clamp_page (page_num total : Z) : Z :=
  let page_num := if page_num <? 1 then 1 else page_num in
  if total <? page_num then total else page_num.

(** The safeguard on a reported canvas dimension:
    [if canvas_w <= 0: canvas_w = pdf_w]. *)
Definition guard_canvas (canvas native : PyFloat.float) : PyFloat.float :=
  if PyFloat.leb canvas PyFloat.zero then native else canvas.

(** The placement rectangle in native units. *)
Record rect := Rect { ponto_x : Z; ponto_y : Z; ponto_w : Z; ponto_h : Z }.

(** The two scales, canvas to native. *)
Definition escalas (canvas_w canvas_h native_w native_h : PyFloat.float)
  : exn + (PyFloat.float * PyFloat.float) :=
  let canvas_w := guard_canvas canvas_w native_w in
  let canvas_h := guard_canvas canvas_h native_h in
  let* escala_x := PyFloat.truediv native_w canvas_w in
  let* escala_y := PyFloat.truediv native_h canvas_h in
  inr (escala_x, escala_y).

(** Lines 391-402 (and 494-513 for images): canvas rectangle to native
    rectangle. *)
Definition to_native (x y w h canvas_w canvas_h native_w native_h : PyFloat.float)
  : exn + rect :=
  let* esc := escalas canvas_w canvas_h native_w native_h in
  let escala_x := fst esc in
  let escala_y := snd esc in
  let* px := PyFloat.py_int (PyFloat.mul x escala_x) in
  let* py := PyFloat.py_int (PyFloat.mul y escala_y) in
  let* pw := PyFloat.py_int (PyFloat.mul w escala_x) in
  let* ph := PyFloat.py_int (PyFloat.mul h escala_y) in
  inr (Rect px py (Z.max 1 pw) (Z.max 1 ph)).

Definition BASE_W : PyFloat.float := PyFloat.f190.
Definition BASE_H : PyFloat.float := PyFloat.f180.

(** [s = max(0.6, min(4.0, min(s_w, s_h)))]. *)
Definition clamp_scale (s_w s_h : PyFloat.float) : PyFloat.float :=
  PyFloat.py_max PyFloat.f0_6 (PyFloat.py_min PyFloat.f4_0 (PyFloat.py_min s_w s_h)).

(** Lines 405-411: the scale factor of the stamp from the rectangle. *)
Definition escala_s (ponto_w ponto_h : Z) : exn + PyFloat.float :=
  let* fw := PyFloat.float_of_int ponto_w in
  let s_w := PyFloat.div fw BASE_W in
  let* fh := PyFloat.float_of_int ponto_h in
  let s_h := PyFloat.div fh BASE_H in
  inr (clamp_scale s_w s_h).

(** [int(round(k * s))]. *)
Definition scaled (k : Z) (s : PyFloat.float) : exn + Z :=
  let* fk := PyFloat.float_of_int k in
  PyFloat.py_round (PyFloat.mul fk s).

(** The sizes derived from [s] (lines 413-422). *)
Record layout := Layout {
  qr_w : Z; qr_h : Z; brasao_w : Z; brasao_h : Z; gap_pt : Z;
  font_size_normal : Z; font_size_status : Z; espaco_entre_linhas : Z
}.

Definition pdf_layout (s : PyFloat.float) : exn + layout :=
  let* qw := scaled 35 s in
  let* qh := scaled 35 s in
  let* bw := scaled 25 s in
  let* bh := scaled 35 s in
  let* gap := scaled 6 s in
  let* fn := scaled 9 s in
  let* fs := scaled 13 s in
  let* esp := scaled 12 s in
  inr (Layout qw qh bw bh gap (Z.max 6 fn) (Z.max 8 fs) (Z.max 8 esp)).




(** ** Verification lookup *)

(** What a handler did to the disk, in order. *)
Inductive event :=
| EvListdir (path : string)
| EvOpen (path : string).

(** The template variables of [validar_crc.html] and [validar_upload.html]. *)
Record view := View {
  v_crc : string;
  caminho : option string;
  canonical_sha256 : option string;
  match_ : option bool;
  user_sha256 : option string;
  erro : option string
}.

Definition ASSINADOS_DIRNAME : string := PosixPath.join "static" ["arquivos"; "assinados"].

(** [_assinados_abs_dir()]. *)
Definition _assinados_abs_dir (root_path : string) : string :=
  PosixPath.join root_path [ASSINADOS_DIRNAME].

(** [_validate_csrf_safe()]. *)
Definition _validate_csrf_safe (r : request) : bool := Auth.validate_csrf_from_form r.

(** [url_for('static', filename=f)]. *)
Definition url_for_static (f : string) : string := "/static/" +:+ f.

(** [re.fullmatch(r"[0-9a-f]{8,64}", crc)]. *)
Definition crc_fullmatch (crc : string) : bool :=
  let n := String.length crc in
  (8 <=? n)%nat && (n <=? 64)%nat && all_chars is_lower_hex crc.

Definition MSG_CRC_INVALIDO : string := "CRC inválido. Use apenas caracteres hexadecimais.".
Definition MSG_NAO_ENCONTRADO : string := "Documento não encontrado para o CRC fornecido.".
Definition MSG_NENHUM_ASSINADO : string := "Nenhum documento assinado foi encontrado.".
Definition MSG_CSRF : string := "❌ CSRF inválido. Recarregue a página.".
Definition MSG_SEM_ARQUIVO_COMPARAR : string := "Nenhum arquivo enviado para comparar.".
Definition MSG_SEM_ARQUIVO : string := "Nenhum arquivo enviado.".

(** How a scan of the signed-document store ends. *)
Inductive scan_result :=
| Found (nome sha : string)
| NotFound
| Raised (nome : string) (e : exn).

(** The loop of [validar_crc]: the first name containing [_<crc>] is
    hashed and the loop breaks. *)
Fixpoint scan_crc (d : disk) (pasta crc : string) (names : list string)
  : scan_result * list event :=
  match names with
  | [] => (NotFound, [])
  | nome :: rest =>
      if contains ("_" +:+ crc) nome then
        let abs_path := PosixPath.join pasta [nome] in
        match sha256_of_file d abs_path with
        | inr sha => (Found nome sha, [EvOpen abs_path])
        | inl e => (Raised nome e, [EvOpen abs_path])
        end
      else scan_crc d pasta crc rest
  end.

(** The [try] block shared by the GET and POST branches of [validar_crc]:
    it sets [caminho], [canonical_sha256] and [erro]. *)
Definition lookup_crc (d : disk) (pasta crc : string)
  : (exn + (option string * option string * option string)) * list event :=
  match dirs d !! pasta with
  | None => (inr (None, None, Some MSG_NENHUM_ASSINADO), [EvListdir pasta])
  | Some names =>
      let '(res, log) := scan_crc d pasta crc names in
      let log := EvListdir pasta :: log in
      match res with
      | Found nome sha =>
          (inr (Some (url_for_static ("arquivos/assinados/" +:+ nome)), Some sha, None), log)
      | NotFound => (inr (None, None, Some MSG_NAO_ENCONTRADO), log)
      | Raised nome FileNotFoundError =>
          (inr (Some (url_for_static ("arquivos/assinados/" +:+ nome)), None,
                Some MSG_NENHUM_ASSINADO), log)
      | Raised _ e => (inl e, log)
      end
  end.

(** [validar_crc()]: the view rendered (or the uncaught exception) and
    the disk accesses made. *)
Definition validar_crc (d : disk) (root_path : string) (r : request)
  : (exn + view) * list event :=
  let pasta := _assinados_abs_dir root_path in
  let crc := lower (strip (or_empty (values_get r "crc"))) in
  match method r with
  | GET =>
      if nonempty crc then
        if negb (crc_fullmatch crc)
        then (inr (View crc None None None None (Some MSG_CRC_INVALIDO)), [])
        else
          match lookup_crc d pasta crc with
          | (inr (cam, canon, err), log) => (inr (View crc cam canon None None err), log)
          | (inl e, log) => (inl e, log)
          end
      else (inr (View crc None None None None None), [])
  | POST =>
      if negb (_validate_csrf_safe r)
      then (inr (View crc None None None None (Some MSG_CSRF)), [])
      else
        let '(looked, log) :=
          if negb (nonempty crc) || negb (crc_fullmatch crc)
          then (inr (None, None, Some MSG_CRC_INVALIDO), [])
          else lookup_crc d pasta crc in
        match looked with
        | inl e => (inl e, log)
        | inr (cam, canon, err) =>
            match err, canon with
            | None, Some canonical =>
                match files_get_truthy r "arquivo" with
                | None =>
                    (inr (View crc cam canon None None (Some MSG_SEM_ARQUIVO_COMPARAR)), log)
                | Some up =>
                    let user := SHA256.sha256_hex (stream up) in
                    (inr (View crc cam canon (Some (String.eqb user canonical))
                               (Some user) None), log)
                end
            | _, _ => (inr (View crc cam canon None None err), log)
            end
        end
  end.

(** The loop of [validar_upload]: every stored file is hashed until one
    digest equals the upload's. *)
Fixpoint scan_upload (d : disk) (pasta user_sha : string) (names : list string)
  : scan_result * list event :=
  match names with
  | [] => (NotFound, [])
  | nome :: rest =>
      let abs_path := PosixPath.join pasta [nome] in
      match sha256_of_file d abs_path with
      | inl e => (Raised nome e, [EvOpen abs_path])
      | inr sha =>
          if String.eqb sha user_sha then (Found nome sha, [EvOpen abs_path])
          else
            let '(res, log) := scan_upload d pasta user_sha rest in
            (res, EvOpen abs_path :: log)
      end
  end.

(** [validar_upload()]. *)
Definition validar_upload (d : disk) (root_path : string) (r : request)
  : (exn + view) * list event :=
  let pasta := _assinados_abs_dir root_path in
  match method r with
  | GET => (inr (View "" None None None None None), [])
  | POST =>
      if negb (_validate_csrf_safe r)
      then (inr (View "" None None None None (Some MSG_CSRF)), [])
      else
        match files_get_truthy r "arquivo" with
        | None => (inr (View "" None None None None (Some MSG_SEM_ARQUIVO)), [])
        | Some up =>
            let user := SHA256.sha256_hex (stream up) in
            match dirs d !! pasta with
            | None =>
                (inr (View "" None None None (Some user) (Some MSG_NENHUM_ASSINADO)),
                 [EvListdir pasta])
            | Some names =>
                let '(res, log) := scan_upload d pasta user names in
                let log := EvListdir pasta :: log in
                match res with
                | Found nome sha =>
                    (inr (View "" (Some (url_for_static ("arquivos/assinados/" +:+ nome)))
                               (Some sha) (Some true) (Some user) None), log)
                | NotFound => (inr (View "" None None (Some false) (Some user) None), log)
                | Raised _ FileNotFoundError =>
                    (inr (View "" None None None (Some user) (Some MSG_NENHUM_ASSINADO)), log)
                | Raised _ e => (inl e, log)
                end
            end
        end
  end.

(** ** Download *)

Inductive download_response :=
| Abort404
| RedirectLogin
| SendFile (file_path download_name : string).

(** [os.path.isfile(p)]. *)
Definition isfile (d : disk) (p : string) : bool :=
  match files d !! p with Some _ => true | None => false end.

(** [download(filename)], behind [login_required]. *)
Definition download (d : disk) (root_path : string) (r : request) (filename : string)
  : download_response :=
  match user (sess r) with
  | None => RedirectLogin
  | Some _ =>
      let base_dir := PosixPath.join root_path ["static"; "arquivos"; "assinados"] in
      let file_path := PosixPath.normpath (PosixPath.join base_dir [filename]) in
      if negb (startswith base_dir file_path) || negb (isfile d file_path)
      then Abort404
      else SendFile file_path (PosixPath.basename file_path)
  end.

(** A path lies strictly inside a directory when it continues the
    directory's path with a separator. *)
Definition strictly_inside (dir path : string) : bool :=
  startswith (dir +:+ "/") path && negb (String.eqb path (dir +:+ "/")).

(** ** The signing handler *)

(** What [assinar] takes from its environment. The rendering libraries
    (PyMuPDF, Pillow, qrcode, textwrap), [secure_filename] and the parsers
    of numbers are not part of the repository: each call is a field, and a
    call that can raise returns [exn + _]. [Doc] is an open PDF document,
    [Img] an image in memory. A failed save may leave bytes at its path. *)
Record sign_env (Doc Img : Type) := SignEnv {
  float_of_str : string -> option PyFloat.float;
  int_of_str : string -> option Z;
  secure_filename : string -> string;
  datahora : string;
  public_base_url : option string;
  host_url : string;
  make_qr_png : string -> list byte;
  wrap : string -> Z -> list string;
  fitz_open : list byte -> exn + Doc;
  page_count : Doc -> Z;
  load_page : Doc -> Z -> exn + (PyFloat.float * PyFloat.float);
  insert_image : Doc -> Z -> Z * Z * Z * Z -> list byte -> exn + Doc;
  get_text_length : string -> Z -> PyFloat.float;
  insert_text : Doc -> Z -> PyFloat.float * Z -> string -> Z -> exn + Doc;
  doc_save : Doc -> (exn * option (list byte)) + list byte;
  image_open : list byte -> exn + Img;
  image_size : Img -> Z * Z;
  resize : Img -> Z * Z -> Img;
  fonte_size : Z;
  getbbox : bool -> string -> Z * Z * Z * Z;
  draw_rectangle : Img -> Z * Z * Z * Z -> exn + Img;
  paste : Img -> Img -> Z * Z -> exn + Img;
  draw_text : Img -> Z * Z -> string -> bool -> exn + Img;
  image_save : Img -> string -> (exn * option (list byte)) + list byte
}.

Arguments float_of_str {Doc Img}.
Arguments int_of_str {Doc Img}.
Arguments secure_filename {Doc Img}.
Arguments datahora {Doc Img}.
Arguments public_base_url {Doc Img}.
Arguments host_url {Doc Img}.
Arguments make_qr_png {Doc Img}.
Arguments wrap {Doc Img}.
Arguments fitz_open {Doc Img}.
Arguments page_count {Doc Img}.
Arguments load_page {Doc Img}.
Arguments insert_image {Doc Img}.
Arguments get_text_length {Doc Img}.
Arguments insert_text {Doc Img}.
Arguments doc_save {Doc Img}.
Arguments image_open {Doc Img}.
Arguments image_size {Doc Img}.
Arguments resize {Doc Img}.
Arguments fonte_size {Doc Img}.
Arguments getbbox {Doc Img}.
Arguments draw_rectangle {Doc Img}.
Arguments paste {Doc Img}.
Arguments draw_text {Doc Img}.
Arguments image_save {Doc Img}.

(** Writing and removing files keep the directory listings in step. *)
Definition write_in (d : disk) (dir name : string) (data : list byte) : disk :=
  let listing := default [] (dirs d !! dir) in
  Disk (<[ PosixPath.join dir [name] := data ]> (files d))
       (<[ dir := if bool_decide (name ∈ listing) then listing else listing ++ [name] ]>
          (dirs d)).

(** [if os.path.exists(p): os.remove(p)]. *)
Definition remove_in (d : disk) (dir name : string) : disk :=
  Disk (delete (PosixPath.join dir [name]) (files d))
       (match dirs d !! dir with
        | Some listing => <[ dir := filter (fun n => n ≠ name) listing ]> (dirs d)
        | None => dirs d
        end).

(** [open(path, 'rb').read()] and the like. *)
Definition read_file (d : disk) (path : string) : exn + list byte :=
  match files d !! path with
  | Some data => inr data
  | None => inl FileNotFoundError
  end.

(** [build_verification_url(crc)]. *)
Definition url_for_verificar (crc : string) : string := "/verificar?crc=" +:+ crc.

Definition build_verification_url {Doc Img} (E : sign_env Doc Img) (crc : string) : string :=
  match public_base_url E with
  | Some base =>
      if nonempty base then rstrip_char "/" base +:+ url_for_verificar crc
      else host_url E +:+ url_for_verificar crc
  | None => host_url E +:+ url_for_verificar crc
  end.

(** [_float(val, default)] of [assinar]. *)
Definition _float {Doc Img} (E : sign_env Doc Img) (val : option string)
    (dflt : PyFloat.float) : PyFloat.float :=
  match val with
  | Some v => default dflt (float_of_str E v)
  | None => dflt
  end.

(** The page number: [int(request.form.get('page') or 1)], 1 on failure. *)
Definition parse_page {Doc Img} (E : sign_env Doc Img) (val : option string) : Z :=
  match val with
  | Some v => if nonempty v then default 1 (int_of_str E v) else 1
  | None => 1
  end.

(** [x or dflt] on an optional string. *)
Definition or_str (x : option string) (dflt : string) : string :=
  match x with
  | Some v => if nonempty v then v else dflt
  | None => dflt
  end.

(** The text of the stamp. *)
Definition stamp_lines (nome cpf_masked matricula orgao status processo datahora crc : string)
  : list string :=
  [ "Assinado digitalmente por"; nome; cpf_masked; "Matrícula: " +:+ matricula; orgao;
    status; "Processo nº: " +:+ processo; "em: " +:+ datahora; "CRC: " +:+ crc ].

(** Everything [assinar] fixes before its [try] block. *)
Record plan := Plan {
  p_upload : list byte;
  p_extensao : string;
  p_crc : string;
  p_nome_final : string;
  p_caminho_upload : string;
  p_caminho_assinado : string;
  p_qr_url : string;
  p_qr_name : string;
  p_status : string;
  p_linhas : list string;
  p_x : PyFloat.float; p_y : PyFloat.float; p_w : PyFloat.float; p_h : PyFloat.float;
  p_canvas_w : PyFloat.float; p_canvas_h : PyFloat.float;
  p_page_num : Z
}.

Definition UPLOADS : string := "static/arquivos/uploads".
Definition ASSINADOS : string := "static/arquivos/assinados".
Definition brasao_path : string := "static/brasao/brasao.png".
Definition qr_path (p : plan) : string := PosixPath.join "static" [p_qr_name p].

Inductive assinar_response :=
| ToLogin
| Form (erro : option string)
| BadRequest
| Uncaught (e : exn)
| Result (is_pdf : bool) (signed_url arquivo sha256_hex : string).

Definition ERRO_CSRF : string := "❌ CSRF inválido. Recarregue a página.".
Definition ERRO_SEM_ARQUIVO : string := "❌ Nenhum arquivo enviado.".
Definition ERRO_ARQUIVO_INVALIDO : string := "❌ Arquivo inválido.".
Definition ERRO_FORMATO : string := "❌ Formato não suportado. Envie PDF/JPG/PNG.".
Definition ERRO_ASSINAR (e : exn) : string := "❌ Erro ao assinar: " +:+ exn_str e.

Inductive prepared :=
| Early (resp : assinar_response) (d : disk)
| Ready (p : plan) (d : disk).

(** Lines 285-372: checks, upload, short code, QR file and stamp text. *)
Definition prepare {Doc Img} (E : sign_env Doc Img) (d : disk) (r : request) : prepared :=
  match user (sess r) with
  | None => Early ToLogin d
  | Some usr =>
      let nome := or_str (Some (su_nome usr)) "Desconhecido" in
      let cpf_masked := or_str (Some (su_cpf usr)) "***********" in
      let orgao := or_str (su_orgao usr) "" in
      let matricula := or_str (su_matricula usr) "" in
      match method r with
      | GET => Early (Form None) d
      | POST =>
          if negb (Auth.validate_csrf_from_form r) then Early (Form (Some ERRO_CSRF)) d
          else
            match Flask.files r !! "arquivo" with
            | None => Early (Form (Some ERRO_SEM_ARQUIVO)) d
            | Some arquivo =>
                if negb (nonempty (filename arquivo))
                   || String.eqb (strip (filename arquivo)) ""
                then Early (Form (Some ERRO_ARQUIVO_INVALIDO)) d
                else
                  let status := strip (or_empty (form r !! "status")) in
                  match form r !! "processo" with
                  | None => Early BadRequest d
                  | Some proc =>
                      let processo := strip proc in
                      let x := _float E (form r !! "x") PyFloat.zero in
                      let y := _float E (form r !! "y") PyFloat.zero in
                      let w := _float E (form r !! "w") PyFloat.zero in
                      let h := _float E (form r !! "h") PyFloat.zero in
                      let canvas_w := _float E (form r !! "canvas_w") (PyFloat.of_Z 1) in
                      let canvas_h := _float E (form r !! "canvas_h") (PyFloat.of_Z 1) in
                      let page_num := parse_page E (form r !! "page") in
                      let nome_arquivo := secure_filename E (filename arquivo) in
                      let extensao := lower (snd (PosixPath.splitext nome_arquivo)) in
                      let nome_base := fst (PosixPath.splitext nome_arquivo) in
                      if negb (nonempty nome_arquivo)
                      then Early (Uncaught (LibraryError "IsADirectoryError")) d
                      else
                        let caminho_upload := PosixPath.join UPLOADS [nome_arquivo] in
                        let d := write_in d UPLOADS nome_arquivo (stream arquivo) in
                        match read_file d caminho_upload with
                        | inl e => Early (Uncaught e) d
                        | inr conteudo =>
                            let crc := slice_to 10 (SHA256.sha256_hex conteudo) in
                            let nome_final :=
                              "assinado_" +:+ nome_base +:+ "_" +:+ crc +:+ extensao in
                            let caminho_assinado := PosixPath.join ASSINADOS [nome_final] in
                            let qr_url := build_verification_url E crc in
                            let qr_name := "temp_qr_" +:+ crc +:+ ".png" in
                            let d := write_in d "static" qr_name (make_qr_png E qr_url) in
                            let linhas :=
                              stamp_lines nome cpf_masked matricula orgao status processo
                                          (datahora E) crc in
                            Ready (Plan conteudo extensao crc nome_final caminho_upload
                                        caminho_assinado qr_url qr_name status linhas
                                        x y w h canvas_w canvas_h page_num) d
                        end
                  end
            end
      end
  end.

(** [int(a / 2)] on an integer. *)
Definition half_trunc (a : Z) : exn + Z :=
  let* fa := PyFloat.float_of_int a in
  PyFloat.py_int (PyFloat.div fa PyFloat.f2_0).

(** [ponto_x + (ponto_w - largura) / 2]. *)
Definition centered (px pw : Z) (largura : PyFloat.float) : exn + PyFloat.float :=
  let* fw := PyFloat.float_of_int pw in
  let* fx := PyFloat.float_of_int px in
  inr (PyFloat.add fx (PyFloat.div (PyFloat.sub fw largura) PyFloat.f2_0)).

(** [max(20, int((ponto_w - 16) / (font_size_normal * 0.6)))]. *)
Definition chars_por_linha (pw font : Z) : exn + Z :=
  let* ff := PyFloat.float_of_int font in
  let* fw := PyFloat.float_of_int (pw - 16) in
  let* q := PyFloat.truediv fw (PyFloat.mul ff PyFloat.f0_6) in
  let* n := PyFloat.py_int q in
  inr (Z.max 20 n).

Section Compose.
Context {Doc Img : Type} (E : sign_env Doc Img).

(** One wrapped piece of a line of the PDF stamp. *)
Definition pdf_sub_line (pno : Z) (r : rect) (L : layout)
    (acc : exn + Doc * Z) (sub : string) : exn + Doc * Z :=
  let* st := acc in
  let largura_sub := get_text_length E sub (font_size_normal L) in
  let* x_sub := centered (ponto_x r) (ponto_w r) largura_sub in
  let* doc := insert_text E (fst st) pno (x_sub, snd st) sub (font_size_normal L) in
  inr (doc, snd st + espaco_entre_linhas L).

(** One line of the stamp on a PDF page (the body of the loop at 447). *)
Definition pdf_line (pno : Z) (r : rect) (s : PyFloat.float) (L : layout) (status : string)
    (acc : exn + Doc * Z) (linha : string) : exn + Doc * Z :=
  let* st := acc in
  if negb (nonempty (strip linha)) then
    let* g := scaled 5 s in inr (fst st, snd st + g)
  else if nonempty status && String.eqb (strip linha) (strip status) then
    let largura_status := get_text_length E linha (font_size_status L) in
    let* x_central := centered (ponto_x r) (ponto_w r) largura_status in
    let* doc := insert_text E (fst st) pno (x_central, snd st) linha (font_size_status L) in
    let* g := scaled 4 s in
    inr (doc, snd st + (font_size_status L - g))
  else
    let* chars := chars_por_linha (ponto_w r) (font_size_normal L) in
    let* st := fold_left (pdf_sub_line pno r L) (wrap E linha chars) (inr st) in
    if startswith "Data/Hora:" linha || startswith "Matrícula:" linha
    then let* g := scaled 6 s in inr (fst st, snd st + g)
    else inr st.

(** Lines 377-470: everything drawn on the PDF page, in memory. *)
Definition compose_pdf (d : disk) (p : plan) : exn + Doc :=
  let* doc := fitz_open E (p_upload p) in
  let total := page_count E doc in
  let page_num := clamp_page (p_page_num p) total in
  let pno := page_num - 1 in
  let* size := load_page E doc pno in
  let* r := to_native (p_x p) (p_y p) (p_w p) (p_h p) (p_canvas_w p) (p_canvas_h p)
                      (fst size) (snd size) in
  let* s := escala_s (ponto_w r) (ponto_h r) in
  let* L := pdf_layout s in
  let total_icons_w := qr_w L + gap_pt L + brasao_w L in
  let* off := half_trunc (ponto_w r - total_icons_w) in
  let x_icones := ponto_x r + off in
  let* dy := scaled 10 s in
  let y_icones := ponto_y r + dy in
  let* qr := read_file d (qr_path p) in
  let* doc := insert_image E doc pno
                (x_icones, y_icones, x_icones + qr_w L, y_icones + qr_h L) qr in
  let* brasao := read_file d brasao_path in
  let* doc := insert_image E doc pno
                (x_icones + qr_w L + gap_pt L, y_icones,
                 x_icones + qr_w L + gap_pt L + brasao_w L, y_icones + brasao_h L) brasao in
  let* dy8 := scaled 8 s in
  let inicio_y_texto := y_icones + Z.max (qr_h L) (brasao_h L) + dy8 in
  let* st := fold_left (pdf_line pno r s L (p_status p)) (p_linhas p)
                       (inr (doc, inicio_y_texto)) in
  inr (fst st).

Definition bbox_width (b : Z * Z * Z * Z) : Z := snd (fst b) - fst (fst (fst b)).
Definition bbox_height (b : Z * Z * Z * Z) : Z := snd b - snd (fst (fst b)).

(** One wrapped piece of a line of the image stamp. *)
Definition image_sub_line (r : rect) (acc : exn + Img * Z) (sub : string) : exn + Img * Z :=
  let* st := acc in
  let bbox := getbbox E false sub in
  let x_render := ponto_x r + (ponto_w r - bbox_width bbox) / 2 in
  let* img := draw_text E (fst st) (x_render, snd st) sub false in
  inr (img, snd st + (bbox_height bbox + 2)).

(** One line of the stamp on an image (the body of the loop at 531). *)
Definition image_line (r : rect) (status : string)
    (acc : exn + Img * Z) (linha : string) : exn + Img * Z :=
  let* st := acc in
  if negb (nonempty (strip linha)) then inr (fst st, snd st + (fonte_size E + 6))
  else if nonempty status && String.eqb (strip linha) (strip status) then
    let bbox := getbbox E true linha in
    let x_render := ponto_x r + (ponto_w r - bbox_width bbox) / 2 in
    let* img := draw_text E (fst st) (x_render, snd st) linha true in
    inr (img, snd st + (bbox_height bbox + 8))
  else fold_left (image_sub_line r) (wrap E linha 40) (inr st).

(** Lines 491-547: everything drawn on the image, in memory. *)
Definition compose_image (d : disk) (p : plan) : exn + Img :=
  let* imagem := image_open E (p_upload p) in
  let largura_real := fst (image_size E imagem) in
  let altura_real := snd (image_size E imagem) in
  let* fl := PyFloat.float_of_int largura_real in
  let* fa := PyFloat.float_of_int altura_real in
  let* r := to_native (p_x p) (p_y p) (p_w p) (p_h p) (p_canvas_w p) (p_canvas_h p) fl fa in
  let* imagem := draw_rectangle E imagem
                   (ponto_x r, ponto_y r, ponto_x r + ponto_w r, ponto_y r + ponto_h r) in
  let* qr_bytes := read_file d (qr_path p) in
  let* qr_rgba := image_open E qr_bytes in
  let* brasao_bytes := read_file d brasao_path in
  let* brasao0 := image_open E brasao_bytes in
  let brasao := resize E brasao0 (35, 50) in
  let gap_px := 6 in
  let total_icons_w := fst (image_size E qr_rgba) + gap_px + fst (image_size E brasao) in
  let* off := half_trunc (ponto_w r - total_icons_w) in
  let x_icones := ponto_x r + off in
  let y_icones := ponto_y r + 10 in
  let* imagem := paste E imagem qr_rgba (x_icones, y_icones) in
  let* imagem := paste E imagem brasao
                   (x_icones + fst (image_size E qr_rgba) + gap_px, y_icones) in
  let y_texto :=
    y_icones + Z.max (snd (image_size E qr_rgba)) (snd (image_size E brasao)) + 8 in
  let* st := fold_left (image_line r (p_status p)) (p_linhas p) (inr (imagem, y_texto)) in
  inr (fst st).

(** What the [try] block has drawn when it reaches its save. *)
Inductive composed :=
| PdfDoc (doc : Doc)
| Picture (img : Img).

(** The dispatch on the extension; [None] is the unsupported format. *)
Definition compose (d : disk) (p : plan) : option (exn + composed) :=
  if String.eqb (p_extensao p) ".pdf" then
    Some (let* doc := compose_pdf d p in inr (PdfDoc doc))
  else if bool_decide (p_extensao p ∈ [".jpg"; ".jpeg"; ".png"]) then
    Some (let* img := compose_image d p in inr (Picture img))
  else None.

(** The save of either kind of artifact. *)
Definition save (c : composed) (p : plan) : (exn * option (list byte)) + list byte :=
  match c with
  | PdfDoc doc => doc_save E doc
  | Picture img => image_save E img (p_caminho_assinado p)
  end.

(** Lines 475-488 and 549-561: save, drop the QR file, hash, answer. *)
Definition finish (d : disk) (p : plan) (c : composed) : (exn + assinar_response) * disk :=
  match save c p with
  | inl (e, None) => (inl e, d)
  | inl (e, Some partial) => (inl e, write_in d ASSINADOS (p_nome_final p) partial)
  | inr bytes =>
      let d := write_in d ASSINADOS (p_nome_final p) bytes in
      let d := remove_in d "static" (p_qr_name p) in
      match sha256_of_file d (p_caminho_assinado p) with
      | inl e => (inl e, d)
      | inr sha256_hex =>
          (inr (Result (match c with PdfDoc _ => true | Picture _ => false end)
                       ("/static/arquivos/assinados/" +:+ p_nome_final p)
                       (p_nome_final p) sha256_hex), d)
      end
  end.

(** The [try] block of [assinar]. *)
Definition try_body (d : disk) (p : plan) : (exn + assinar_response) * disk :=
  match compose d p with
  | None => (inr (Form (Some ERRO_FORMATO)), remove_in d "static" (p_qr_name p))
  | Some (inl e) => (inl e, d)
  | Some (inr c) => finish d p c
  end.

(** [assinar()]: the answer and the disk it leaves. *)
Definition assinar (d : disk) (r : request) : assinar_response * disk :=
  match prepare E d r with
  | Early resp d => (resp, d)
  | Ready p d =>
      match try_body d p with
      | (inr resp, d) => (resp, d)
      | (inl e, d) => (Form (Some (ERRO_ASSINAR e)), remove_in d "static" (p_qr_name p))
      end
  end.

End Compose.

End App.

(* ===================================================================== *)
(** * [app.py]: the CPF helpers *)
(* ===================================================================== *)

Module Cpf.
Import PyStr.

(** [normalize_cpf(s)] of [app.py]: the same body as the one of [auth.py]. *)
Definition normalize_cpf (s : string) : string := Auth.normalize_cpf s.

(** [s[a:b]]. *)
Definition slice (a b : nat) (s : string) : string := slice_to (b - a) (slice_from a s).

(** The display form built in [mascarar_cpf], [cadastro] and [register_user]:
    [c[:3].c[3:6].c[6:9]-c[9:]]. *)
Definition format_cpf (c : string) : string :=
  slice_to 3 c +:+ "." +:+ slice 3 6 c +:+ "." +:+ slice 6 9 c +:+ "-" +:+ slice_from 9 c.

(** [mascarar_cpf(cpf11)]. *)
Definition mascarar_cpf (cpf11 : string) : string :=
  let c := normalize_cpf cpf11 in
  if (String.length c =? 11)%nat then format_cpf c else c.

(** [hash_cpf(cpf11)], with the salt the environment gives
    ([CPF_HASH_SALT], or its default). *)
Definition hash_cpf (salt : string) (cpf11 : string) : string :=
  let c := normalize_cpf cpf11 in
  SHA256.sha256_hex (list_byte_of_string (salt +:+ c)).

End Cpf.

(* ===================================================================== *)
(** * The user table and its administration ([models.py], [app.py], [auth.py]) *)
(* ===================================================================== *)

Module Users.
Import PyStr Flask.

(** A row of [users]: the columns [login] reads, and [setor]. The primary
    key and the two timestamps are left out: the handlers below neither
    read nor set them. A table is the list of its rows in the order the
    database scans them. *)
Record user_row := UserRow { account : Auth.db_user; setor : option string }.

Definition email_of (u : user_row) : string := Auth.u_email (account u).

(** The errors that escape the handlers. *)
Inductive error :=
| ValueError (msg : string)
| DataError
| DatabaseError.

(** What the handlers take from outside the repository: the salted hash
    werkzeug's [generate_password_hash] returns for a text, and the [ILIKE]
    operator of the database applied to a value and a pattern ([None] when
    it raises). *)
Record admin_env := AdminEnv {
  generate_password_hash : string -> string;
  ilike : string -> string -> option bool
}.

(** The truth test of a query result. *)
Definition found {A : Type} (x : option A) : bool :=
  match x with
  | Some _ => true
  | None => false
  end.

(** [_hash(texto)], imported by [app.py] as [hash_pwd]. *)
Definition _hash (E : admin_env) (texto : string) : string :=
  generate_password_hash E texto.

(** [User.query.filter_by(email=email).first()]: the column is CITEXT, the
    comparison ignores case. *)
Definition find_user (tbl : list user_row) (email : string) : option user_row :=
  List.find (fun u => String.eqb (lower (email_of u)) (lower email)) tbl.

(** The unique constraint of the [email] column. *)
Definition unique_emails (tbl : list user_row) : Prop :=
  NoDup (map (fun u => lower (email_of u)) tbl).

(** The length limits of the columns, checked when a row is written:
    [nome] and [cpf_hash] 255, [cpf_masked] 32, [orgao], [setor] and
    [cargo] 120, [matricula] 50. *)
Definition fits (limit : nat) (v : option string) : bool :=
  match v with
  | None => true
  | Some s => (String.length s <=? limit)%nat
  end.

Definition row_fits (u : user_row) : bool :=
  let a := account u in
  fits 255 (Some (Auth.u_nome a)) && fits 255 (Some (Auth.u_cpf_hash a))
  && fits 32 (Some (Auth.u_cpf_masked a)) && fits 120 (Auth.u_orgao a)
  && fits 120 (setor u) && fits 50 (Auth.u_matricula a) && fits 120 (Auth.u_cargo a).

(** The row [u] found by a case-insensitive query is written back as [u']. *)
Fixpoint update_first (email : string) (u' : user_row) (tbl : list user_row)
  : list user_row :=
  match tbl with
  | [] => []
  | u :: rest =>
      if String.eqb (lower (email_of u)) (lower email) then u' :: rest
      else u :: update_first email u' rest
  end.

Inductive response :=
| Redirect (endpoint : string)
| RenderCadastro (usuario_editar : option user_row)
| MethodNotAllowed
| Abort400 (description : string)
| InternalError (e : error).

Record result := Result {
  resp : response;
  flashes : list (string * string);
  table : list user_row
}.

(** [@admin_required]. *)
Definition admin_required (r : request) (tbl : list user_row) (view : result) : result :=
  match user (sess r) with
  | None => Result (Redirect "auth.login") [("Faça login para continuar.", "warning")] tbl
  | Some usr =>
      if negb (su_is_admin usr)
      then Result (Redirect "assinar") [("Acesso restrito a administradores.", "danger")] tbl
      else view
  end.

(** [flash(msg, cat); return redirect(url_for(cadastro))]. *)
Definition back (tbl : list user_row) (msg cat : string) : result :=
  Result (Redirect "cadastro") [(msg, cat)] tbl.

(** [db.session.commit()] after the row [u] was added or changed, then the
    success message; a value that is too long makes the commit raise and
    leaves the table as it was. *)
Definition commit (old new : list user_row) (u : user_row) (msg : string) : result :=
  if row_fits u then back new msg "success"
  else Result (InternalError DataError) [] old.

(** [(request.form.get(k) or str()).strip()]. *)
Definition field (r : request) (k : string) : string :=
  strip (or_empty (form r !! k)).

(** [cadastro()]. *)
Definition cadastro (E : admin_env) (tbl : list user_row) (r : request) : result :=
  admin_required r tbl
    match method r with
    | POST =>
        if negb (Auth.validate_csrf_from_form r) then back tbl "CSRF inválido." "danger"
        else
          let nome := field r "nome" in
          let email := lower (field r "email") in
          let setor_v := field r "setor" in
          let orgao := field r "orgao" in
          let matricula := field r "matricula" in
          let cargo := field r "cargo" in
          let editar_email := lower (field r "editar_email") in
          let cpf_change :=
            match form r !! "cpf_change" with
            | Some v => String.eqb v "1"
            | None => false
            end in
          let cpf_norm := Cpf.normalize_cpf (or_empty (form r !! "cpf")) in
          if negb (nonempty nome) || negb (nonempty email)
          then back tbl "Preencha nome e e-mail." "danger"
          else if nonempty editar_email
          then
            match find_user tbl editar_email with
            | None => back tbl "Usuário a editar não encontrado." "danger"
            | Some u =>
                if negb (String.eqb email editar_email) && found (find_user tbl email)
                then back tbl "E-mail já cadastrado." "warning"
                else if cpf_change && negb (Auth.is_valid_cpf_digits cpf_norm)
                then back tbl "CPF inválido (11 dígitos)." "danger"
                else
                  let a := account u in
                  let cpf_hash := if cpf_change then _hash E cpf_norm else Auth.u_cpf_hash a in
                  let cpf_masked :=
                    if cpf_change then Cpf.format_cpf cpf_norm else Auth.u_cpf_masked a in
                  let u' :=
                    UserRow (Auth.DbUser email nome cpf_hash cpf_masked (Some orgao)
                               (Some cargo) (Some matricula) (Auth.u_is_admin a))
                            (Some setor_v) in
                  commit tbl (update_first editar_email u' tbl) u' "Usuário atualizado."
            end
          else if found (find_user tbl email)
          then back tbl "E-mail já cadastrado." "warning"
          else if negb (Auth.is_valid_cpf_digits cpf_norm)
          then back tbl "CPF inválido (11 dígitos)." "danger"
          else
            let u :=
              UserRow (Auth.DbUser email nome (_hash E cpf_norm) (Cpf.format_cpf cpf_norm)
                         (Some orgao) (Some cargo) (Some matricula) false)
                      (Some setor_v) in
            commit tbl (tbl ++ [u]) u "Usuário cadastrado."
    | GET =>
        let email_q := lower (strip (or_empty (args r !! "email"))) in
        let usuario_editar := if nonempty email_q then find_user tbl email_q else None in
        Result (RenderCadastro usuario_editar) [] tbl
    end.

(** [User.query.filter(User.email.ilike(email)).first()] followed by the
    deletion of the row found: the rows are tested in the order of the
    scan, up to the first one the operator accepts. *)
Fixpoint take_ilike (E : admin_env) (pattern : string) (tbl : list user_row)
  : error + option (user_row * list user_row) :=
  match tbl with
  | [] => inr None
  | u :: rest =>
      match ilike E (email_of u) pattern with
      | None => inl DatabaseError
      | Some true => inr (Some (u, rest))
      | Some false =>
          match take_ilike E pattern rest with
          | inr (Some (v, rest')) => inr (Some (v, u :: rest'))
          | other => other
          end
      end
  end.

(** [excluir()], a POST-only route. *)
Definition excluir (E : admin_env) (tbl : list user_row) (r : request) : result :=
  match method r with
  | GET => Result MethodNotAllowed [] tbl
  | POST =>
      admin_required r tbl
        (if negb (Auth.validate_csrf_from_form r)
         then Result (Abort400 "CSRF inválido") [] tbl
         else
           let email := lower (field r "email") in
           if negb (nonempty email) then back tbl "E-mail inválido." "danger"
           else
             match take_ilike E email tbl with
             | inl e => Result (InternalError e) [] tbl
             | inr None => back tbl "Usuário não encontrado." "warning"
             | inr (Some (_, rest)) => back rest "Usuário excluído com sucesso." "success"
             end)
  end.

(** [register_user(nome, email, cpf, is_admin)] of [auth.py]: the row it
    returns and the table after the commit. *)
Definition register_user (E : admin_env) (tbl : list user_row)
    (nome email cpf : string) (is_admin : bool) : error + (user_row * list user_row) :=
  let email := lower (strip email) in
  let cpf_digits := Auth.normalize_cpf cpf in
  if negb (Auth.is_valid_email email) then inl (ValueError "E-mail inválido.")
  else if negb (Auth.is_valid_cpf_digits cpf_digits)
  then inl (ValueError "CPF inválido: forneça 11 dígitos.")
  else
    let masked := Cpf.format_cpf cpf_digits in
    match find_user tbl email with
    | None =>
        let u :=
          UserRow (Auth.DbUser email (strip nome) (_hash E cpf_digits) masked
                     None None None is_admin) None in
        if row_fits u then inr (u, tbl ++ [u]) else inl DataError
    | Some u0 =>
        let a := account u0 in
        let u :=
          UserRow (Auth.DbUser (Auth.u_email a) (strip nome) (_hash E cpf_digits) masked
                     (Auth.u_orgao a) (Auth.u_cargo a) (Auth.u_matricula a) is_admin)
                  (setor u0) in
        if row_fits u then inr (u, update_first email u tbl) else inl DataError
    end.

(** [logout()] of [auth.py], a POST-only route: the response, the message
    flashed and the session it leaves. *)
Definition logout (L : Auth.login_env) (r : request)
  : response * list (string * string) * session :=
  match method r with
  | GET => (MethodNotAllowed, [], sess r)
  | POST =>
      if negb (Auth.validate_csrf_from_form r) then (Redirect "assinar", [], sess r)
      else
        (Redirect "auth.login", [("Você saiu com segurança.", "info")],
         Auth.ensure_csrf L (Session None (permanent (sess r)) None))
  end.

(** [home()]. *)
Definition home (r : request) : response :=
  match user (sess r) with
  | Some _ => Redirect "assinar"
  | None => Redirect "auth.login"
  end.

End Users.

(* ===================================================================== *)
(** * Vocabulary of the further properties *)
(* ===================================================================== *)

Module Props.
Import Py PyStr Flask App.

(** The [open] events of the files of a directory, in order. *)
Definition opened (pasta : string) (names : list string) : list event :=
  map (fun n => EvOpen (PosixPath.join pasta [n])) names.

(** The key of the attempt store a login request is counted under. *)
Definition login_key (r : request) : string :=
  Auth._key_for_login r (lower (strip (or_empty (form r !! "email")))).

(** Every stored failure count lies below the threshold 5. *)
Definition counts_below_threshold (attempts : gmap string Auth.attempt) : Prop :=
  forall k e, attempts !! k = Some e -> 0 <= Auth.count e < 5.

(** The attempt store after the same request was posted [n] times. *)
Definition attempts_after (E : Auth.login_env) (db : list Auth.db_user) (r : request)
    (n : nat) (attempts : gmap string Auth.attempt) : gmap string Auth.attempt :=
  Nat.iter n (fun a => Auth.l_attempts (Auth.login E db a r)) attempts.

End Props.

(* ===================================================================== *)
(** * Concrete requests and disks used to run the handlers *)
(* ===================================================================== *)

Module Fixtures.
Import Flask App.

Definition ROOT : string := "/srv/app".
Definition STORE : string := "/srv/app/static/arquivos/assinados".

Definition bytes_of (s : string) : list byte := list_byte_of_string s.

Definition anon_session : session := Session (Some "tok") false None.

(** A POST carrying a valid CSRF token, form fields and one uploaded file. *)
Definition post_with (fields : list (string * string)) (name : string) (data : list byte)
  : request :=
  Request POST ∅ (list_to_map (("csrf_token", "tok") :: fields))
          {[ "arquivo" := FileStorage name data ]} ∅ (Some "10.0.0.7") anon_session.

Definition get_with (query : list (string * string)) : request :=
  Request GET (list_to_map query) ∅ ∅ ∅ (Some "10.0.0.7") anon_session.

(** A store holding one signed file. *)
Definition one_file_disk (name : string) (data : list byte) : disk :=
  Disk {[ PosixPath.join STORE [name] := data ]} {[ STORE := [name] ]}.


(** The scenario of the specification: an A4-like page of 595 x 842 points,
    a canvas of 800 x 1000 and the rectangle (100, 100, 190, 180). *)
Definition F (z : Z) : PyFloat.float := PyFloat.of_Z z.

(** A logged-in user asking for a download. *)
Definition staff : session_user :=
  SessionUser "ana@example.org" "Ana" "123.456.789-09" false "2025-01-01T00:00:00Z"
              (Some "SEMIT") None (Some "1234").

Definition logged_in_get : request :=
  Request GET ∅ ∅ ∅ ∅ (Some "10.0.0.7") (Session (Some "tok") true (Some staff)).

(** A disk with one signed file and, beside the store, a sibling directory
    whose name continues the store's name. *)
Definition sibling_disk : disk :=
  Disk {[ "/srv/app/static/arquivos/assinados/assinado_doc_ba7816bf8f.pdf" := bytes_of "abc";
          "/srv/app/static/arquivos/assinados_backup/private.pdf" := bytes_of "secret" ]}
       {[ STORE := ["assinado_doc_ba7816bf8f.pdf"];
          "/srv/app/static/arquivos/assinados_backup" := ["private.pdf"] ]}.

(** The login environment: passwords are checked by comparing with a
    stand-in hash, the configuration is the one [app.py] builds (it sets
    neither MAX_LOGIN_ATTEMPTS nor LOCKOUT_SECONDS), the clock reads 1000. *)
Definition toy_hash (cpf : string) : string := "pbkdf2:sha256$" +:+ cpf.

Definition login_env_at (t : Z) : Auth.login_env :=
  Auth.LoginEnv (fun h p => String.eqb h (toy_hash p)) ∅ t t t "fresh" "2025-01-01T00:00:00".

Definition users : list Auth.db_user :=
  [Auth.DbUser "ana@example.org" "Ana" (toy_hash "12345678909") "123.456.789-09"
               (Some "SEMIT") None (Some "1234") false].

Definition login_post (email cpf : string) : request :=
  Request POST ∅ (list_to_map [("csrf_token", "tok"); ("email", email); ("cpf", cpf)])
          ∅ ∅ (Some "10.0.0.7") anon_session.

Definition ana_key : string := "ana@example.org|10.0.0.7".

(** A stand-in for the rendering libraries: documents and images are byte
    strings, drawing appends to them, and [broken] makes every text
    insertion raise. Numbers are parsed from plain decimal digits. *)
Fixpoint parse_digits (s : string) (acc : Z) : option Z :=
  match s with
  | EmptyString => Some acc
  | String c r =>
      if Auth.is_digit c
      then parse_digits r (10 * acc + Z.of_nat (nat_of_ascii c) - 48)
      else None
  end.

Definition parse_dec (s : string) : option Z :=
  if PyStr.nonempty s then parse_digits s 0 else None.

Definition toy_env (broken : bool) : sign_env (list byte) (list byte) :=
  let text_len (t : string) : Z := 6 * Z.of_nat (String.length t) in
  let ink (canvas : list byte) (t : string) : Py.exn + list byte :=
    if broken then inl (Py.LibraryError "cannot insert text")
    else inr (canvas ++ bytes_of t) in
  SignEnv (list byte) (list byte)
    (fun v => option_map PyFloat.of_Z (parse_dec v))
    parse_dec
    (fun n => n)
    "03/11/2025 10:00"
    None
    "http://localhost:5000"
    (fun url => bytes_of ("QR " +:+ url))
    (fun l _ => [l])
    (fun b => inr b)
    (fun _ => 3)
    (fun _ _ => inr (F 595, F 842))
    (fun doc _ _ img => inr (doc ++ img))
    (fun t _ => F (text_len t))
    (fun doc _ _ t _ => ink doc t)
    (fun doc => inr doc)
    (fun b => inr b)
    (fun _ => (800, 600))
    (fun img _ => img)
    12
    (fun _ t => (0, 0, text_len t, 12))
    (fun img _ => inr img)
    (fun img icon _ => inr (img ++ icon))
    (fun img _ t _ => ink img t)
    (fun img _ => inr img).

(** The disk of a fresh deployment: only the seal image exists. *)
Definition sign_disk : disk := Disk {[ brasao_path := bytes_of "seal" ]} ∅.

(** The scenario of the specification: page 2, rectangle (100, 100, 190,
    180) on a canvas of 800 x 1000, signed by a logged-in user. *)
Definition sign_post (name : string) (data : list byte) : request :=
  Request POST ∅
    (list_to_map [("csrf_token", "tok"); ("status", "APROVADO"); ("cargo", "Analista");
                  ("processo", "2025/001"); ("x", "100"); ("y", "100"); ("w", "190");
                  ("h", "180"); ("canvas_w", "800"); ("canvas_h", "1000"); ("page", "2")])
    {[ "arquivo" := FileStorage name data ]} ∅ (Some "10.0.0.7")
    (Session (Some "tok") true (Some staff)).

End Fixtures.

(* ===================================================================== *)
(** * Vocabulary of the properties of the user table *)
(* ===================================================================== *)

Module UsersProps.
Import Flask Users.

(** The request comes with the session of an administrator. *)
Definition by_admin (r : request) : bool :=
  match user (sess r) with
  | Some usr => su_is_admin usr
  | None => false
  end.

(** The role of every row, in the order of the table. *)
Definition roles (tbl : list user_row) : list bool :=
  map (fun u => Auth.u_is_admin (account u)) tbl.

(** What signing in depends on, for every row: the hash of the CPF, its
    display form and the role. *)
Definition credentials (tbl : list user_row) : list (string * string * bool) :=
  map (fun u => (Auth.u_cpf_hash (account u), Auth.u_cpf_masked (account u),
                 Auth.u_is_admin (account u))) tbl.

(** The table as [login] reads it. *)
Definition accounts (tbl : list user_row) : list Auth.db_user := map account tbl.

End UsersProps.

(* ===================================================================== *)
(** * A concrete user table and its environment *)
(* ===================================================================== *)

Module UsersFixtures.
Import Flask Users.

(** A stand-in for the pattern operator: [%] stands for any run of
    characters, [_] for any one character, every other character for
    itself; the comparison ignores case. *)
Fixpoint like (pattern s : string) {struct pattern} : bool :=
  match pattern with
  | EmptyString => negb (PyStr.nonempty s)
  | String c p =>
      if Ascii.eqb c "%"
      then (fix any (t : string) : bool :=
              like p t || match t with
                          | EmptyString => false
                          | String _ t' => any t'
                          end) s
      else match s with
           | EmptyString => false
           | String a t => (Ascii.eqb c "_" || Ascii.eqb a c) && like p t
           end
  end.

Definition toy_admin_env : admin_env :=
  AdminEnv Fixtures.toy_hash (fun v p => Some (like (PyStr.lower p) (PyStr.lower v))).

Definition root_user : session_user :=
  SessionUser "root@example.org" "Root" "111.222.333-44" true "2025-01-01T00:00:00Z"
              (Some "SEMIT") None None.

Definition admin_session : session := Session (Some "tok") true (Some root_user).

Definition admin_post (fields : list (string * string)) : request :=
  Request POST ∅ (list_to_map (("csrf_token", "tok") :: fields)) ∅ ∅
          (Some "10.0.0.7") admin_session.

Definition ana : user_row :=
  UserRow (Auth.DbUser "ana@example.org" "Ana" (Fixtures.toy_hash "12345678909")
             "123.456.789-09" (Some "SEMIT") None (Some "1234") false) (Some "TI").

Definition root : user_row :=
  UserRow (Auth.DbUser "root@example.org" "Root" (Fixtures.toy_hash "11122233344")
             "111.222.333-44" (Some "SEMIT") None None true) None.

Definition two_users : list user_row := [root; ana].

End UsersFixtures.
(* ===================================================================== *)
(** * Facts *)
(* ===================================================================== *)

(** ** The constants and test vectors of FIPS 180-4 for the hash model *)

Example sha256_constants :
  List.nth 0 SHA256.K 0 = 0x428a2f98 /\ List.nth 63 SHA256.K 0 = 0xc67178f2
  /\ length SHA256.K = 64%nat
  /\ SHA256.ra SHA256.H0 = 0x6a09e667 /\ SHA256.rh SHA256.H0 = 0x5be0cd19.
Proof. vm_compute. repeat split; reflexivity. Qed.

Example sha256_abc :
  SHA256.sha256_hex (list_byte_of_string "abc")
  = "ba7816bf8f01cfea414140de5dae2223b00361a396177a9cb410ff61f20015ad".
Proof. vm_compute. reflexivity. Qed.

Example sha256_empty :
  SHA256.sha256_hex []
  = "e3b0c44298fc1c149afbf4c8996fb92427ae41e4649b934ca495991b7852b855".
Proof. vm_compute. reflexivity. Qed.

Example sha256_two_blocks :
  SHA256.sha256_hex
    (list_byte_of_string "abcdbcdecdefdefgefghfghighijhijkijkljklmklmnlmnomnopnopq")
  = "248d6a61d20638b8e5c026930c3e6039a33ce45964ff2167f6ecedd419db06c1".
Proof. vm_compute. reflexivity. Qed.

(** ** The content hasher *)

Section Hasher.
Import Py App.

Lemma update_app (h : SHA256.hasher) (a b : list byte) :
  SHA256.update (SHA256.update h a) b = SHA256.update h (a ++ b).
Proof. unfold SHA256.update. now rewrite fold_left_app. Qed.

Lemma read_chunk_rest (n : nat) (l : list byte) :
  drop (length (take n l)) l = drop n l.
Proof.
  rewrite length_take. destruct (Nat.le_gt_cases n (length l)) as [Hle | Hgt].
  - now rewrite Nat.min_l.
  - rewrite Nat.min_r by lia. rewrite !drop_ge; auto; lia.
Qed.

(** The chunked loop feeds exactly the unread bytes, whatever the chunk
    size, as soon as the fuel exceeds their number. *)
Lemma feed_chunks_spec (n : nat) :
  (0 < n)%nat ->
  forall (fuel : nat) (f : file) (h : SHA256.hasher),
    (length (content f) - position f < fuel)%nat ->
    feed_chunks fuel n f h
    = Some (SHA256.update h (drop (position f) (content f))).
Proof.
  intros Hn fuel. induction fuel as [| fuel IH]; intros f h Hfuel; [lia |].
  destruct f as [data pos]. cbn [feed_chunks read content position] in *.
  pose proof (take_drop n (drop pos data)) as Hsplit.
  pose proof (read_chunk_rest n (drop pos data)) as Hrest.
  pose proof (length_drop data pos) as Hlen.
  destruct (take n (drop pos data)) as [| b chunk] eqn:Hchunk.
  - cbn [app] in Hsplit. destruct (drop pos data) as [| x rest'] eqn:Hd; [reflexivity |].
    destruct n; [lia | discriminate].
  - rewrite IH; cbn [content position].
    + f_equal. rewrite update_app. f_equal.
      rewrite <- drop_drop, Hrest. exact Hsplit.
    + assert (Hc : (length (b :: chunk) <= length (drop pos data))%nat).
      { rewrite <- Hchunk, length_take. lia. }
      cbn [length] in *. lia.
Qed.

(** The hasher never runs out of fuel: an open file always yields the
    one-shot digest of its bytes. *)
Lemma hash_open_file_total (data : list byte) :
  hash_open_file data = inr (SHA256.sha256_hex data).
Proof.
  unfold hash_open_file. rewrite feed_chunks_spec.
  - reflexivity.
  - unfold CHUNK. lia.
  - cbn. lia.
Qed.

Lemma sha256_of_file_total (d : disk) (path : string) (data : list byte) :
  files d !! path = Some data ->
  sha256_of_file d path = inr (SHA256.sha256_hex data).
Proof. intros H. unfold sha256_of_file. rewrite H. apply hash_open_file_total. Qed.


End Hasher.

(** C8. The digest [sha256_of_file] streams over 8 KiB chunks is the
    one-shot SHA-256 hex digest of the file's bytes, so it depends on the
    content only: hashing the same content again, on the same or another
    disk and under another name, gives the identical hex digest. *)
Theorem sha256_of_file_is_one_shot_digest
    (d1 d2 : App.disk) (p1 p2 : string) (data : list byte) :
  App.files d1 !! p1 = Some data ->
  App.files d2 !! p2 = Some data ->
  App.sha256_of_file d1 p1 = inr (SHA256.sha256_hex data)
  /\ App.sha256_of_file d2 p2 = App.sha256_of_file d1 p1.
Proof.
  intros H1 H2.
  rewrite (sha256_of_file_total d1 p1 data H1), (sha256_of_file_total d2 p2 data H2).
  split; reflexivity.
Qed.

Lemma sha256_of_file_witness :
  App.sha256_of_file (Fixtures.one_file_disk "a.pdf" (Fixtures.bytes_of "abc"))
                     "/srv/app/static/arquivos/assinados/a.pdf"
  = inr (SHA256.sha256_hex (Fixtures.bytes_of "abc"))
  /\ App.sha256_of_file (Fixtures.one_file_disk "b.pdf" (Fixtures.bytes_of "abc"))
                        "/srv/app/static/arquivos/assinados/b.pdf"
     = App.sha256_of_file (Fixtures.one_file_disk "a.pdf" (Fixtures.bytes_of "abc"))
                          "/srv/app/static/arquivos/assinados/a.pdf".
Proof.
  apply (sha256_of_file_is_one_shot_digest
           (Fixtures.one_file_disk "a.pdf" (Fixtures.bytes_of "abc"))
           (Fixtures.one_file_disk "b.pdf" (Fixtures.bytes_of "abc"))
           "/srv/app/static/arquivos/assinados/a.pdf"
           "/srv/app/static/arquivos/assinados/b.pdf"
           (Fixtures.bytes_of "abc")); vm_compute; reflexivity.
Defined.

(** ** Verification by upload *)

Section VerifyUpload.
Import Py Flask App.

Variables (d : disk) (pasta digest : string).




End VerifyUpload.




(** ** Verification by short code *)

Section VerifyCode.
Import Py PyStr Flask App.

Variables (d : disk) (pasta crc : string).

Lemma scan_crc_skip (pre rest : list string) :
  (forall n, n ∈ pre -> contains ("_" +:+ crc) n = false) ->
  scan_crc d pasta crc (pre ++ rest) = scan_crc d pasta crc rest.
Proof.
  induction pre as [| n pre IH]; intros Hpre; [reflexivity |].
  cbn [app scan_crc]. rewrite (Hpre n) by left.
  apply IH. intros m Hm. apply Hpre. now right.
Qed.


Lemma scan_crc_first (pre post : list string) (nome : string) (data : list byte) :
  (forall n, n ∈ pre -> contains ("_" +:+ crc) n = false) ->
  contains ("_" +:+ crc) nome = true ->
  files d !! PosixPath.join pasta [nome] = Some data ->
  scan_crc d pasta crc (pre ++ nome :: post)
  = (Found nome (SHA256.sha256_hex data), [EvOpen (PosixPath.join pasta [nome])]).
Proof.
  intros Hpre Hhit Hdata. rewrite scan_crc_skip by exact Hpre.
  cbn [scan_crc]. rewrite Hhit. now rewrite (sha256_of_file_total _ _ _ Hdata).
Qed.

Lemma crc_fullmatch_nonempty : crc_fullmatch crc = true -> nonempty crc = true.
Proof.
  unfold crc_fullmatch. destruct crc; [| reflexivity].
  cbn. discriminate.
Qed.

End VerifyCode.




(** ** Binary64 facts used by the coordinate transformer *)

Section FloatFacts.
Import Py PyFloat.


















End FloatFacts.

(** ** The coordinate transformer *)

Section Transformer.
Import Py PyFloat App.




End Transformer.








(** ** Download *)

Example normpath_examples :
  PosixPath.normpath "/srv/app/static/arquivos/assinados/../../../../etc/passwd"
  = "/srv/etc/passwd"
  /\ PosixPath.normpath "/a//b/./c/.." = "/a/b"
  /\ PosixPath.normpath "../x" = "../x"
  /\ PosixPath.normpath "//a/b" = "//a/b"
  /\ PosixPath.normpath "///a/" = "/a"
  /\ PosixPath.normpath "/.." = "/"
  /\ PosixPath.normpath "" = "."
  /\ PosixPath.splitext "report.final.PDF" = ("report.final", ".PDF")
  /\ PosixPath.splitext ".bashrc" = (".bashrc", "")
  /\ PosixPath.splitext "dir.d/name" = ("dir.d/name", "")
  /\ PosixPath.join "static" ["arquivos"; "assinados"] = "static/arquivos/assinados"
  /\ PosixPath.join "/srv/app" ["/etc/passwd"] = "/etc/passwd".
Proof. vm_compute. repeat split; reflexivity. Qed.

(** What the guard does establish: a served path is a regular file whose
    name starts with the store's path. *)
Lemma download_served_prefix
    (d : App.disk) (root : string) (r : Flask.request) (filename p n : string) :
  App.download d root r filename = App.SendFile p n ->
  PyStr.startswith (PosixPath.join root ["static"; "arquivos"; "assinados"]) p = true
  /\ App.isfile d p = true.
Proof.
  unfold App.download. destruct (Flask.user (Flask.sess r)); [| discriminate].
  set (base := PosixPath.join root _).
  set (fp := PosixPath.normpath _).
  destruct (PyStr.startswith base fp) eqn:Hs; cbn [negb orb]; [| discriminate].
  destruct (App.isfile d fp) eqn:Hf; cbn [negb]; [| discriminate].
  intros [= <- _]. auto.
Qed.

(** C9 (code defect). The prefix test has no separator: a request for
    [../assinados_backup/private.pdf] resolves outside the store directory,
    into a sibling directory whose name starts with the store's name, and
    the file is served instead of the 404 the claim promises. Paths that
    leave the prefix altogether are refused. *)
Theorem download_serves_sibling_directory :
  let base := PosixPath.join Fixtures.ROOT ["static"; "arquivos"; "assinados"] in
  let served := "/srv/app/static/arquivos/assinados_backup/private.pdf" in
  App.download Fixtures.sibling_disk Fixtures.ROOT Fixtures.logged_in_get
               "../assinados_backup/private.pdf"
  = App.SendFile served "private.pdf"
  /\ App.strictly_inside base served = false
  /\ App.download Fixtures.sibling_disk Fixtures.ROOT Fixtures.logged_in_get
                  "../../../../../etc/passwd"
     = App.Abort404
  /\ App.download Fixtures.sibling_disk Fixtures.ROOT Fixtures.logged_in_get
                  "assinado_doc_ba7816bf8f.pdf"
     = App.SendFile "/srv/app/static/arquivos/assinados/assinado_doc_ba7816bf8f.pdf"
                    "assinado_doc_ba7816bf8f.pdf".
Proof. vm_compute. repeat split; reflexivity. Qed.

(** ** The login rate limiter *)

Section RateLimit.
Import PyStr Flask Auth.

Variable E : login_env.
Hypothesis Hmax : config E !! "MAX_LOGIN_ATTEMPTS" = None.
Hypothesis Hlock : config E !! "LOCKOUT_SECONDS" = None.

Lemma cfg_defaults : _cfg E "MAX_LOGIN_ATTEMPTS" = 5 /\ _cfg E "LOCKOUT_SECONDS" = 150.
Proof. unfold _cfg. rewrite Hmax, Hlock. split; reflexivity. Qed.

(** A failure below the threshold increments the counter of the key. *)
Lemma register_fail_counts (attempts : gmap string attempt) (key : string) :
  let e := default (Attempt 0 0) (attempts !! key) in
  count e + 1 < 5 ->
  _register_fail E attempts key = <[ key := Attempt (count e + 1) (lock_until e) ]> attempts.
Proof.
  intros e He. unfold _register_fail. destruct cfg_defaults as [-> _].
  fold e. cbn [count lock_until].
  destruct (Z.leb_spec 5 (count e + 1)); [lia | reflexivity].
Qed.

(** The failure that reaches the threshold locks the key and resets it. *)
Lemma register_fail_locks (attempts : gmap string attempt) (key : string) :
  let e := default (Attempt 0 0) (attempts !! key) in
  5 <= count e + 1 ->
  _register_fail E attempts key = <[ key := Attempt 0 (now_fail E + 150) ]> attempts.
Proof.
  intros e He. unfold _register_fail. destruct cfg_defaults as [-> ->].
  fold e. cbn [count lock_until].
  destruct (Z.leb_spec 5 (count e + 1)); [reflexivity | lia].
Qed.

Lemma is_locked_positive (attempts : gmap string attempt) (key : string) (e : attempt) :
  attempts !! key = Some e ->
  now_check E < lock_until e -> now_remaining E < lock_until e ->
  0 < _is_locked E attempts key.
Proof.
  intros He H1 H2. unfold _is_locked. rewrite He.
  destruct (Z.ltb_spec (now_check E) (lock_until e)); lia.
Qed.

Lemma is_locked_zero (attempts : gmap string attempt) (key : string) :
  (forall e, attempts !! key = Some e ->
             lock_until e <= now_check E \/ lock_until e <= now_remaining E) ->
  _is_locked E attempts key = 0.
Proof.
  intros H. unfold _is_locked. destruct (attempts !! key) as [e |]; [| reflexivity].
  destruct (H e eq_refl); destruct (Z.ltb_spec (now_check E) (lock_until e)); lia.
Qed.

End RateLimit.

(** C10. With the configuration of [app.py] (thresholds 5 and 150), on the
    attempt store keyed by (email, client IP): a POST for a key whose lock
    is unexpired is redirected to the login page with no user query, no
    hash check and no change of the store; a processed POST for an unlocked
    key whose credentials fail registers a failure, which increments the
    key's counter below the threshold and, when the counter reaches 5, sets
    the lock to now + 150 and resets the counter to 0; a successful login
    deletes the key's entry. *)
Theorem login_rate_limit
    (E : Auth.login_env) (db : list Auth.db_user)
    (attempts : gmap string Auth.attempt) (r : Flask.request) :
  Auth.config E !! "MAX_LOGIN_ATTEMPTS" = None ->
  Auth.config E !! "LOCKOUT_SECONDS" = None ->
  Flask.method r = Flask.POST ->
  let email := PyStr.lower (PyStr.strip (Flask.or_empty (Flask.form r !! "email"))) in
  let cpf := Auth.normalize_cpf (Flask.or_empty (Flask.form r !! "cpf")) in
  let key := Auth._key_for_login r email in
  let e := default (Auth.Attempt 0 0) (attempts !! key) in
  let out := Auth.login E db attempts r in
  ((exists e0, attempts !! key = Some e0
               /\ Auth.now_check E < Auth.lock_until e0
               /\ Auth.now_remaining E < Auth.lock_until e0) ->
   Auth.l_log out = [] /\ Auth.l_attempts out = attempts
   /\ Auth.l_resp out = Auth.Redirect "auth.login"
   /\ Auth.l_session out = Flask.sess r)
  /\ (Auth.validate_csrf_from_form r = true ->
      Auth.is_valid_email email = true ->
      Auth.is_valid_cpf_digits cpf = true ->
      (forall e0, attempts !! key = Some e0 ->
         Auth.lock_until e0 <= Auth.now_check E
         \/ Auth.lock_until e0 <= Auth.now_remaining E) ->
      ((Auth.query_user db email = None
        \/ exists u, Auth.query_user db email = Some u
                     /\ Auth._check_hash E (Auth.u_cpf_hash u) cpf = false) ->
       Auth.l_resp out = Auth.Redirect "auth.login"
       /\ Auth.l_attempts out = Auth._register_fail E attempts key
       /\ (Auth.count e + 1 < 5 ->
           Auth.l_attempts out
           = <[ key := Auth.Attempt (Auth.count e + 1) (Auth.lock_until e) ]> attempts)
       /\ (5 <= Auth.count e + 1 ->
           Auth.l_attempts out
           = <[ key := Auth.Attempt 0 (Auth.now_fail E + 150) ]> attempts))
      /\ (forall u, Auth.query_user db email = Some u ->
            Auth._check_hash E (Auth.u_cpf_hash u) cpf = true ->
            Auth.l_attempts out = delete key attempts
            /\ Auth.l_attempts out !! key = None
            /\ Auth.l_log out = [Auth.EvUserQuery email; Auth.EvCheckHash email]
            /\ exists su, Flask.user (Auth.l_session out) = Some su)).
Proof.
  intros Hmax Hlock Hpost email cpf key e out. subst out.
  unfold Auth.login. rewrite Hpost. fold email. fold cpf. fold key. split.
  - intros (e0 & He0 & H1 & H2).
    pose proof (is_locked_positive E attempts key e0 He0 H1 H2) as Hpos.
    destruct (Auth.validate_csrf_from_form r); cbn [negb]; [| auto].
    destruct (negb (Auth.is_valid_email email) || negb (Auth.is_valid_cpf_digits cpf));
      [auto |].
    destruct (Z.ltb_spec 0 (Auth._is_locked E attempts key)); [auto | lia].
  - intros -> -> -> Hunlocked. cbn [negb orb].
    rewrite (is_locked_zero E attempts key Hunlocked). cbn [Z.ltb Z.compare].
    split.
    + intros Hfail.
      destruct Hfail as [-> | (u & -> & ->)];
        cbn [negb Auth.l_resp Auth.l_attempts];
        (split; [reflexivity |]; split; [reflexivity |]; split;
         [apply register_fail_counts | apply register_fail_locks]; assumption).
    + intros u -> ->. cbn [negb Auth.l_attempts Auth.l_log Auth.l_session Flask.user].
      unfold Auth._clear_attempts. rewrite lookup_delete_eq. eauto.
Qed.

Lemma login_rate_limit_witness :
  let E := Fixtures.login_env_at 1000 in
  let r := Fixtures.login_post "Ana@Example.org " "000.000.000-00" in
  let attempts : gmap string Auth.attempt := {[ Fixtures.ana_key := Auth.Attempt 4 0 ]} in
  Auth.l_attempts (Auth.login E Fixtures.users attempts r)
  = <[ Fixtures.ana_key := Auth.Attempt 0 1150 ]> attempts
  /\ (let locked : gmap string Auth.attempt :=
        {[ Fixtures.ana_key := Auth.Attempt 0 1150 ]} in
      Auth.l_log (Auth.login E Fixtures.users locked r) = []
      /\ Auth.l_attempts (Auth.login E Fixtures.users locked r) = locked).
Proof.
  intros E r attempts. split.
  - destruct (login_rate_limit E Fixtures.users attempts r eq_refl eq_refl eq_refl)
      as [_ Hproc].
    destruct Hproc as [Hfail _]; [reflexivity | reflexivity | reflexivity | |].
    + intros e0 He0. vm_compute in He0. injection He0 as <-. left. vm_compute. discriminate.
    + destruct Hfail as (_ & _ & _ & Hreach).
      * right. eexists. split; reflexivity.
      * apply Hreach. vm_compute. discriminate.
  - intros locked.
    destruct (login_rate_limit E Fixtures.users locked r eq_refl eq_refl eq_refl)
      as [Hlocked _].
    destruct Hlocked as (Hlog & Hatt & _).
    + exists (Auth.Attempt 0 1150). split; [reflexivity |]. split; reflexivity.
    + split; assumption.
Defined.

(** ** The signing handler *)

Section HexDigest.
Import PyStr.

Lemma hex_digit_lower_hex (n : Z) : is_lower_hex (SHA256.hex_digit (Z.land n 0xf)) = true.
Proof.
  assert (H : 0 <= Z.land n 0xf < 16).
  { change 0xf with (Z.ones 4). rewrite Z.land_ones by lia. apply Z.mod_pos_bound. lia. }
  set (k := Z.land n 0xf) in *. clearbody k.
  assert (Hk : k = 0 \/ k = 1 \/ k = 2 \/ k = 3 \/ k = 4 \/ k = 5 \/ k = 6 \/ k = 7
               \/ k = 8 \/ k = 9 \/ k = 10 \/ k = 11 \/ k = 12 \/ k = 13 \/ k = 14
               \/ k = 15) by lia.
  repeat (destruct Hk as [-> | Hk]; [reflexivity |]). subst k. reflexivity.
Qed.

Lemma all_chars_hex32 (w : Z) (rest : string) :
  all_chars is_lower_hex (SHA256.hex32 w rest) = all_chars is_lower_hex rest.
Proof.
  unfold SHA256.hex32. cbn [all_chars]. now rewrite !hex_digit_lower_hex.
Qed.

(** A hex digest is 64 characters of 0-9a-f. *)
Lemma hexdigest_shape (h : SHA256.hasher) :
  String.length (SHA256.hexdigest h) = 64%nat
  /\ all_chars is_lower_hex (SHA256.hexdigest h) = true.
Proof.
  unfold SHA256.hexdigest. split; [reflexivity |].
  now rewrite !all_chars_hex32.
Qed.

Lemma all_chars_slice_to (p : ascii -> bool) (n : nat) (s : string) :
  all_chars p s = true -> all_chars p (slice_to n s) = true.
Proof.
  revert s. induction n as [| n IH]; intros [| c s]; cbn; auto.
  intros [Hc Hs]%andb_prop. now rewrite Hc, IH.
Qed.

Lemma length_slice_to (n : nat) (s : string) :
  (n <= String.length s)%nat -> String.length (slice_to n s) = n.
Proof.
  revert s. induction n as [| n IH]; intros [| c s]; cbn; auto; try lia.
  intros H. f_equal. apply IH. lia.
Qed.

(** The short code: ten characters of 0-9a-f, accepted by the validation of
    the lookup by code. *)
Lemma short_code_shape (data : list byte) :
  let crc := slice_to 10 (SHA256.sha256_hex data) in
  String.length crc = 10%nat /\ all_chars is_lower_hex crc = true
  /\ App.crc_fullmatch crc = true.
Proof.
  intros crc. subst crc. unfold SHA256.sha256_hex.
  destruct (hexdigest_shape (SHA256.sha256 data)) as [Hlen Hhex].
  assert (H10 : String.length (slice_to 10 (SHA256.hexdigest (SHA256.sha256 data))) = 10%nat)
    by (apply length_slice_to; rewrite Hlen; lia).
  assert (Hall : all_chars is_lower_hex
                   (slice_to 10 (SHA256.hexdigest (SHA256.sha256 data))) = true)
    by (apply all_chars_slice_to, Hhex).
  split; [exact H10 |]. split; [exact Hall |].
  unfold App.crc_fullmatch. now rewrite H10, Hall.
Qed.

End HexDigest.

Section SignPaths.
Import PyStr App.

Lemma caminho_assinado_eq (x : string) :
  PosixPath.join ASSINADOS ["assinado_" +:+ x] = "static/arquivos/assinados/assinado_" +:+ x.
Proof. reflexivity. Qed.

Lemma qr_path_eq (x : string) :
  PosixPath.join "static" ["temp_qr_" +:+ x] = "static/temp_qr_" +:+ x.
Proof. reflexivity. Qed.

Lemma upload_not_assinado (n x : string) :
  PosixPath.join UPLOADS [n] <> "static/arquivos/assinados/assinado_" +:+ x.
Proof.
  unfold PosixPath.join. cbn [fold_left]. unfold PosixPath.join2.
  destruct (startswith "/" n) eqn:Hn.
  - destruct n as [| c n']; [discriminate Hn |].
    cbn [startswith] in Hn. destruct (Ascii.eqb_spec "/" c) as [<- | _]; [| discriminate Hn].
    intros H. apply (f_equal (slice_to 1)) in H. vm_compute in H. discriminate H.
  - intros H. apply (f_equal (fun s => slice_from 16 (slice_to 17 s))) in H.
    vm_compute in H. discriminate H.
Qed.

Lemma qr_not_assinado (c x : string) :
  PosixPath.join "static" ["temp_qr_" +:+ c] <> "static/arquivos/assinados/assinado_" +:+ x.
Proof.
  rewrite qr_path_eq. intros H.
  apply (f_equal (fun s => slice_from 7 (slice_to 8 s))) in H.
  vm_compute in H. discriminate H.
Qed.

End SignPaths.

Section SignFacts.
Import Py PyStr Flask App.
Context {Doc Img : Type} (E : sign_env Doc Img).

Lemma read_back (d : disk) (dir n : string) (data : list byte) :
  read_file (write_in d dir n data) (PosixPath.join dir [n]) = inr data.
Proof. unfold read_file, write_in. cbn [files]. now rewrite lookup_insert_eq. Qed.

(** What a request that reaches the [try] block has fixed. *)
Lemma prepare_ready (d : disk) (r : request) (p : plan) (d2 : disk) :
  prepare E d r = Ready p d2 ->
  exists arquivo,
    Flask.files r !! "arquivo" = Some arquivo
    /\ p_upload p = stream arquivo
    /\ p_crc p = slice_to 10 (SHA256.sha256_hex (stream arquivo))
    /\ p_extensao p
       = lower (snd (PosixPath.splitext (secure_filename E (filename arquivo))))
    /\ p_nome_final p
       = "assinado_" +:+ fst (PosixPath.splitext (secure_filename E (filename arquivo)))
         +:+ "_" +:+ p_crc p +:+ p_extensao p
    /\ p_caminho_assinado p = PosixPath.join ASSINADOS [p_nome_final p]
    /\ p_qr_url p = build_verification_url E (p_crc p)
    /\ p_qr_name p = "temp_qr_" +:+ p_crc p +:+ ".png"
    /\ List.last (p_linhas p) "" = "CRC: " +:+ p_crc p
    /\ d2 = write_in (write_in d UPLOADS (secure_filename E (filename arquivo))
                               (stream arquivo))
                     "static" (p_qr_name p) (make_qr_png E (p_qr_url p)).
Proof.
  unfold prepare.
  destruct (user (sess r)) as [usr |]; [| discriminate].
  destruct (method r); [discriminate |].
  destruct (negb (Auth.validate_csrf_from_form r)); [discriminate |].
  destruct (Flask.files r !! "arquivo") as [arquivo |]; [| discriminate].
  destruct (negb (nonempty (filename arquivo)) || _); [discriminate |].
  destruct (form r !! "processo") as [proc |]; [| discriminate].
  destruct (negb (nonempty (secure_filename E (filename arquivo)))); [discriminate |].
  rewrite read_back. intros [= <- <-]. exists arquivo. cbn.
  repeat (split; [reflexivity |]). reflexivity.
Qed.


Lemma remove_in_lookup (d : disk) (dir n : string) :
  files (remove_in d dir n) !! PosixPath.join dir [n] = None.
Proof. unfold remove_in. cbn [files]. apply lookup_delete_eq. Qed.

Lemma remove_in_other (d : disk) (dir n path : string) :
  PosixPath.join dir [n] <> path ->
  files (remove_in d dir n) !! path = files d !! path.
Proof. intros H. unfold remove_in. cbn [files]. now rewrite lookup_delete_ne. Qed.

End SignFacts.





(* ===================================================================== *)
(** * Further properties of the handlers *)
(* ===================================================================== *)

(** ** Verification: scan order and comparison *)

Section VerifyMore.
Import Py PyStr Flask App.

Variables (d : disk) (pasta : string).

Lemma scan_upload_first (digest : string) (pre post : list string)
    (nome : string) (data : list byte) :
  (forall n, n ∈ pre ->
     exists dt, files d !! PosixPath.join pasta [n] = Some dt
                /\ SHA256.sha256_hex dt <> digest) ->
  files d !! PosixPath.join pasta [nome] = Some data ->
  SHA256.sha256_hex data = digest ->
  scan_upload d pasta digest (pre ++ nome :: post)
  = (Found nome digest, Props.opened pasta (pre ++ [nome])).
Proof.
  intros Hpre Hdata Hsha. induction pre as [| n pre IH]; cbn [app scan_upload].
  - rewrite (sha256_of_file_total _ _ _ Hdata), Hsha, String.eqb_refl. reflexivity.
  - destruct (Hpre n) as (dt & Hdt & Hne); [left |].
    rewrite (sha256_of_file_total _ _ _ Hdt).
    destruct (String.eqb_spec (SHA256.sha256_hex dt) digest) as [Heq | _];
      [contradiction |].
    rewrite IH; [reflexivity |]. intros m Hm. apply Hpre. now right.
Qed.

Lemma scan_crc_some (crc : string) (names : list string) :
  (forall n, n ∈ names -> is_Some (files d !! PosixPath.join pasta [n])) ->
  (exists n, n ∈ names /\ contains ("_" +:+ crc) n = true) ->
  exists nome data log,
    scan_crc d pasta crc names = (Found nome (SHA256.sha256_hex data), log)
    /\ nome ∈ names /\ contains ("_" +:+ crc) nome = true
    /\ files d !! PosixPath.join pasta [nome] = Some data.
Proof.
  induction names as [| n names IH]; intros Hread (m & Hin & Hm).
  - inversion Hin.
  - cbn [scan_crc]. destruct (contains ("_" +:+ crc) n) eqn:Hn.
    + destruct (Hread n) as [data Hdata]; [left |].
      rewrite (sha256_of_file_total _ _ _ Hdata).
      exists n, data. eexists. repeat split; auto. left.
    + destruct IH as (nome & data & log & Hscan & Hnome & Hc & Hf).
      * intros k Hk. apply Hread. now right.
      * exists m. split; [| exact Hm].
        apply elem_of_cons in Hin as [-> | Hin]; [congruence | exact Hin].
      * exists nome, data, log. repeat split; auto. now right.
Qed.

End VerifyMore.

(** X1. Verification by upload hashes the stored files in listing order and
    stops at the first one whose digest equals the upload's: the files
    listed after it are never opened, and the answer names that first file. *)
Theorem validar_upload_first_match
    (d : App.disk) (root : string) (r : Flask.request) (up : Flask.file_storage)
    (pre post : list string) (nome : string) (data : list byte) :
  Flask.method r = Flask.POST ->
  App._validate_csrf_safe r = true ->
  Flask.files_get_truthy r "arquivo" = Some up ->
  let pasta := App._assinados_abs_dir root in
  let digest := SHA256.sha256_hex (Flask.stream up) in
  App.dirs d !! pasta = Some (pre ++ nome :: post) ->
  (forall n, n ∈ pre ->
     exists dt, App.files d !! PosixPath.join pasta [n] = Some dt
                /\ SHA256.sha256_hex dt <> digest) ->
  App.files d !! PosixPath.join pasta [nome] = Some data ->
  SHA256.sha256_hex data = digest ->
  App.validar_upload d root r
  = (inr (App.View "" (Some (App.url_for_static ("arquivos/assinados/" +:+ nome)))
                   (Some digest) (Some true) (Some digest) None),
     App.EvListdir pasta :: Props.opened pasta (pre ++ [nome])).
Proof.
  intros Hm Hcsrf Hup pasta digest Hdir Hpre Hdata Hsha.
  unfold App.validar_upload. rewrite Hm, Hcsrf, Hup. cbn [negb].
  fold pasta. fold digest. rewrite Hdir.
  rewrite (scan_upload_first d pasta digest pre post nome data Hpre Hdata Hsha).
  reflexivity.
Qed.

Lemma validar_upload_first_match_witness :
  let d := App.Disk
             {[ "/srv/app/static/arquivos/assinados/a.pdf" := Fixtures.bytes_of "one";
                "/srv/app/static/arquivos/assinados/b.pdf" := Fixtures.bytes_of "abc";
                "/srv/app/static/arquivos/assinados/c.pdf" := Fixtures.bytes_of "abc" ]}
             {[ Fixtures.STORE := ["a.pdf"; "b.pdf"; "c.pdf"] ]} in
  let r := Fixtures.post_with [] "copy.pdf" (Fixtures.bytes_of "abc") in
  snd (App.validar_upload d Fixtures.ROOT r)
  = [App.EvListdir Fixtures.STORE;
     App.EvOpen "/srv/app/static/arquivos/assinados/a.pdf";
     App.EvOpen "/srv/app/static/arquivos/assinados/b.pdf"].
Proof.
  intros d r.
  rewrite (validar_upload_first_match d Fixtures.ROOT r
             (Flask.FileStorage "copy.pdf" (Fixtures.bytes_of "abc"))
             ["a.pdf"] ["c.pdf"] "b.pdf" (Fixtures.bytes_of "abc")
             eq_refl eq_refl eq_refl).
  - reflexivity.
  - vm_compute. reflexivity.
  - intros n Hn. apply list_elem_of_singleton in Hn as ->.
    exists (Fixtures.bytes_of "one"). split; [vm_compute; reflexivity |].
    vm_compute. discriminate.
  - vm_compute. reflexivity.
  - reflexivity.
Defined.

(** X2. The comparison of verification by code: for a valid code whose
    first matching stored file has bytes D, a POST (passing the CSRF check)
    that uploads bytes B answers with both digests and match = true exactly
    when SHA-256(B) = SHA-256(D), in particular when B = D; without a file
    part it reports that no file was sent and leaves match unset. *)
Theorem validar_crc_compare
    (d : App.disk) (root : string) (r : Flask.request)
    (pre post : list string) (nome : string) (data : list byte) :
  Flask.method r = Flask.POST ->
  App._validate_csrf_safe r = true ->
  let pasta := App._assinados_abs_dir root in
  let crc := PyStr.lower (PyStr.strip (Flask.or_empty (Flask.values_get r "crc"))) in
  App.crc_fullmatch crc = true ->
  App.dirs d !! pasta = Some (pre ++ nome :: post) ->
  (forall n, n ∈ pre -> PyStr.contains ("_" +:+ crc) n = false) ->
  PyStr.contains ("_" +:+ crc) nome = true ->
  App.files d !! PosixPath.join pasta [nome] = Some data ->
  let out := fst (App.validar_crc d root r) in
  (forall up, Flask.files_get_truthy r "arquivo" = Some up ->
     exists w, out = inr w
       /\ App.canonical_sha256 w = Some (SHA256.sha256_hex data)
       /\ App.user_sha256 w = Some (SHA256.sha256_hex (Flask.stream up))
       /\ App.erro w = None
       /\ (App.match_ w = Some true
           <-> SHA256.sha256_hex (Flask.stream up) = SHA256.sha256_hex data)
       /\ (App.match_ w = Some false
           <-> SHA256.sha256_hex (Flask.stream up) <> SHA256.sha256_hex data)
       /\ (Flask.stream up = data -> App.match_ w = Some true))
  /\ (Flask.files_get_truthy r "arquivo" = None ->
      exists w, out = inr w
        /\ App.canonical_sha256 w = Some (SHA256.sha256_hex data)
        /\ App.match_ w = None
        /\ App.erro w = Some App.MSG_SEM_ARQUIVO_COMPARAR).
Proof.
  intros Hm Hcsrf pasta crc Hok Hdir Hpre Hhit Hdata out. subst out.
  unfold App.validar_crc. fold pasta. fold crc. rewrite Hm, Hcsrf. cbn [negb].
  rewrite (crc_fullmatch_nonempty crc Hok), Hok. cbn [negb orb].
  unfold App.lookup_crc. rewrite Hdir.
  rewrite (scan_crc_first d pasta crc pre post nome data Hpre Hhit Hdata).
  split.
  - intros up ->. cbn [fst]. eexists. split; [reflexivity |].
    cbn [App.canonical_sha256 App.user_sha256 App.erro App.match_].
    repeat (split; [reflexivity |]).
    destruct (String.eqb_spec (SHA256.sha256_hex (Flask.stream up))
                              (SHA256.sha256_hex data)) as [Heq | Hne].
    + split; [tauto |]. split; [split; [discriminate | contradiction] | reflexivity].
    + split; [split; [discriminate | contradiction] |].
      split; [tauto |]. intros Hs. exfalso. apply Hne. now rewrite Hs.
  - intros ->. cbn [fst]. eexists. split; [reflexivity |].
    cbn. repeat split; reflexivity.
Qed.

Lemma validar_crc_compare_witness :
  let d := Fixtures.one_file_disk "assinado_doc_ba7816bf8f.pdf" (Fixtures.bytes_of "abc") in
  let r := Fixtures.post_with [("crc", "ba7816bf8f")] "mine.pdf" (Fixtures.bytes_of "abc") in
  exists w, fst (App.validar_crc d Fixtures.ROOT r) = inr w /\ App.match_ w = Some true.
Proof.
  intros d r.
  destruct (validar_crc_compare d Fixtures.ROOT r [] [] "assinado_doc_ba7816bf8f.pdf"
              (Fixtures.bytes_of "abc") eq_refl eq_refl) as [Hfile _].
  - reflexivity.
  - vm_compute. reflexivity.
  - intros n Hn. inversion Hn.
  - reflexivity.
  - vm_compute. reflexivity.
  - destruct (Hfile (Flask.FileStorage "mine.pdf" (Fixtures.bytes_of "abc")) eq_refl)
      as (w & Hw & _ & _ & _ & _ & _ & Hsame).
    exists w. split; [exact Hw | apply Hsame; reflexivity].
Defined.

(** ** From signing to lookup *)

Section StringFacts.
Import PyStr.

Lemma rev_onto_twice (s acc : string) :
  rev_onto (rev_onto s acc) EmptyString = rev_onto acc s.
Proof.
  revert acc. induction s as [| c s IH]; intros acc; cbn [rev_onto]; [reflexivity |].
  now rewrite IH.
Qed.

Lemma rev_involutive (s : string) : rev (rev s) = s.
Proof. unfold rev. now rewrite rev_onto_twice. Qed.

Lemma all_chars_rev_onto (p : ascii -> bool) (s acc : string) :
  all_chars p (rev_onto s acc) = all_chars p s && all_chars p acc.
Proof.
  revert acc. induction s as [| c s IH]; intros acc; cbn [rev_onto all_chars];
    [reflexivity |].
  rewrite IH. cbn [all_chars]. destruct (p c), (all_chars p s); reflexivity.
Qed.

Lemma all_chars_rev (p : ascii -> bool) (s : string) :
  all_chars p (rev s) = all_chars p s.
Proof. unfold rev. rewrite all_chars_rev_onto. cbn. apply andb_true_r. Qed.

Lemma lstrip_no_space (s : string) :
  all_chars (fun c => negb (is_space c)) s = true -> lstrip s = s.
Proof.
  destruct s as [| c s]; [reflexivity |]. cbn [all_chars lstrip].
  destruct (is_space c); [discriminate | reflexivity].
Qed.

(** Stripping changes nothing in a string without white space. *)
Lemma strip_no_space (s : string) :
  all_chars (fun c => negb (is_space c)) s = true -> strip s = s.
Proof.
  intros H. unfold strip. rewrite (lstrip_no_space s H).
  rewrite lstrip_no_space by now rewrite all_chars_rev.
  apply rev_involutive.
Qed.

Lemma all_chars_impl (p q : ascii -> bool) (s : string) :
  (forall c, p c = true -> q c = true) ->
  all_chars p s = true -> all_chars q s = true.
Proof.
  intros Hpq. induction s as [| c s IH]; cbn [all_chars]; [reflexivity |].
  intros [Hc Hs]%andb_prop. now rewrite (Hpq c Hc), IH.
Qed.

Lemma lower_hex_char (c : ascii) :
  is_lower_hex c = true -> lower_ascii c = c /\ is_space c = false.
Proof.
  unfold is_lower_hex, lower_ascii, is_space.
  set (n := nat_of_ascii c). intros H.
  apply orb_prop in H as [H | H]; apply andb_prop in H as [H1 H2];
    apply Nat.leb_le in H1; apply Nat.leb_le in H2; split.
  - destruct (Nat.leb_spec 65 n); [lia | reflexivity].
  - destruct (Nat.leb_spec 9 n), (Nat.leb_spec n 13), (Nat.leb_spec 28 n),
      (Nat.leb_spec n 32); cbn; auto; lia.
  - destruct (Nat.leb_spec 65 n), (Nat.leb_spec n 90); cbn; auto; lia.
  - destruct (Nat.leb_spec 9 n), (Nat.leb_spec n 13), (Nat.leb_spec 28 n),
      (Nat.leb_spec n 32); cbn; auto; lia.
Qed.

(** The normalisation of the lookup leaves a lowercase hex code as it is. *)
Lemma normalise_hex (s : string) :
  all_chars is_lower_hex s = true -> lower (strip s) = s.
Proof.
  intros H. rewrite strip_no_space.
  - induction s as [| c s IH]; cbn [lower]; [reflexivity |].
    cbn [all_chars] in H. apply andb_prop in H as [Hc Hs].
    destruct (lower_hex_char c Hc) as [-> _]. now rewrite IH.
  - apply (all_chars_impl is_lower_hex); [| exact H].
    intros c Hc. destruct (lower_hex_char c Hc) as [_ ->]. reflexivity.
Qed.

Lemma length_slice_to_min (n : nat) (s : string) :
  String.length (slice_to n s) = Nat.min n (String.length s).
Proof.
  revert s. induction n as [| n IH]; intros [| c s]; cbn; auto.
Qed.

Lemma append_cons (c : ascii) (a s : string) : String c a +:+ s = String c (a +:+ s).
Proof. reflexivity. Qed.

Lemma startswith_slice_to (k : nat) (c e : string) :
  startswith (slice_to k c) (c +:+ e) = true.
Proof.
  revert c. induction k as [| k IH]; intros [| a c]; cbn [slice_to startswith];
    try reflexivity.
  rewrite append_cons. cbn [startswith]. rewrite Ascii.eqb_refl. apply IH.
Qed.

Lemma contains_here (n s : string) : startswith n s = true -> contains n s = true.
Proof. intros H. destruct s; cbn [contains]; now rewrite H. Qed.

Lemma contains_skip (n a s : string) :
  contains n s = true -> contains n (a +:+ s) = true.
Proof.
  intros H. induction a as [| c a IH]; [exact H |].
  rewrite append_cons. cbn [contains]. rewrite IH. apply orb_true_r.
Qed.

End StringFacts.

(** X3. The name [assinar] gives an artifact can be found again by its short
    code, and by any prefix of it of at least 8 characters: the code passes
    the validation of the lookup, the name contains _<code>, and a lookup
    by that code in a store that lists the artifact returns a canonical
    hash and no error (the hash of the first listed name containing the
    code). *)
Theorem signed_name_found_by_code
    {Doc Img : Type} (E : App.sign_env Doc Img)
    (d : App.disk) (r : Flask.request) (p : App.plan) (d2 : App.disk) (k : nat) :
  App.prepare E d r = App.Ready p d2 ->
  (8 <= k)%nat ->
  let code := PyStr.slice_to k (App.p_crc p) in
  App.crc_fullmatch code = true
  /\ PyStr.contains ("_" +:+ code) (App.p_nome_final p) = true
  /\ forall (store : App.disk) (root : string) (q : Flask.request) (names : list string),
       Flask.method q = Flask.GET ->
       Flask.values_get q "crc" = Some code ->
       App.dirs store !! App._assinados_abs_dir root = Some names ->
       App.p_nome_final p ∈ names ->
       (forall n, n ∈ names ->
          is_Some (App.files store !! PosixPath.join (App._assinados_abs_dir root) [n])) ->
       exists w, fst (App.validar_crc store root q) = inr w
                 /\ is_Some (App.canonical_sha256 w) /\ App.erro w = None.
Proof.
  intros Hprep Hk code.
  destruct (prepare_ready E d r p d2 Hprep)
    as (arquivo & _ & _ & Hcrc & _ & Hnome & _).
  destruct (short_code_shape (Flask.stream arquivo)) as (Hlen & Hhex & _).
  rewrite <- Hcrc in Hlen, Hhex.
  assert (Hchex : PyStr.all_chars PyStr.is_lower_hex code = true)
    by (apply all_chars_slice_to, Hhex).
  assert (Hok : App.crc_fullmatch code = true).
  { unfold App.crc_fullmatch. rewrite Hchex. subst code.
    rewrite length_slice_to_min, Hlen.
    destruct (Nat.leb_spec 8 (Nat.min k 10)), (Nat.leb_spec (Nat.min k 10) 64);
      cbn; auto; lia. }
  assert (Hin : PyStr.contains ("_" +:+ code) (App.p_nome_final p) = true).
  { rewrite Hnome.
    apply (contains_skip _ "assinado_"), contains_skip, contains_here.
    change (PyStr.startswith (String "_" code)
              (String "_" (App.p_crc p +:+ App.p_extensao p)) = true).
    cbn [PyStr.startswith]. rewrite Ascii.eqb_refl.
    apply startswith_slice_to. }
  split; [exact Hok |]. split; [exact Hin |].
  intros store root q names Hget Hval Hdir Hlisted Hread.
  unfold App.validar_crc. rewrite Hget, Hval.
  change (Flask.or_empty (Some code)) with code.
  rewrite (normalise_hex code Hchex).
  rewrite (crc_fullmatch_nonempty code Hok), Hok. cbn [negb].
  unfold App.lookup_crc. rewrite Hdir.
  destruct (scan_crc_some store (App._assinados_abs_dir root) code names Hread)
    as (nome & data & log & -> & _).
  { exists (App.p_nome_final p). split; assumption. }
  cbn [fst]. eexists. split; [reflexivity |]. cbn. split; [eauto | reflexivity].
Qed.

Lemma signed_name_found_by_code_witness :
  let d := Fixtures.one_file_disk "assinado_report_ba7816bf8f.pdf" (Fixtures.bytes_of "x") in
  let q := Fixtures.get_with [("crc", "ba7816bf")] in
  exists w, fst (App.validar_crc d Fixtures.ROOT q) = inr w
            /\ is_Some (App.canonical_sha256 w) /\ App.erro w = None.
Proof.
  intros d q.
  set (E := Fixtures.toy_env false).
  set (r := Fixtures.sign_post "report.pdf" (Fixtures.bytes_of "abc")).
  assert (Hc : match App.prepare E Fixtures.sign_disk r with
               | App.Ready p _ =>
                   App.p_crc p = "ba7816bf8f"
                   /\ App.p_nome_final p = "assinado_report_ba7816bf8f.pdf"
               | App.Early _ _ => False
               end).
  { vm_compute. split; reflexivity. }
  destruct (App.prepare E Fixtures.sign_disk r) as [resp d0 | p d2] eqn:Hprep;
    [contradiction |].
  destruct Hc as [Hcrc Hnome].
  destruct (signed_name_found_by_code E Fixtures.sign_disk r p d2 8 Hprep (le_n 8))
    as (_ & _ & Hfind).
  apply (Hfind d Fixtures.ROOT q ["assinado_report_ba7816bf8f.pdf"]).
  - reflexivity.
  - rewrite Hcrc. reflexivity.
  - vm_compute. reflexivity.
  - rewrite Hnome. apply list_elem_of_singleton. reflexivity.
  - intros n Hn. apply list_elem_of_singleton in Hn as ->. vm_compute. eauto.
Defined.

(** ** Download *)

(** X4. The guarantee the download guard does give: a request without a
    logged-in user is redirected and nothing is served; a path that is
    served is an existing regular file whose normalised path starts with
    the store directory's path, and the attachment name is its last
    component. *)
Theorem download_guard
    (d : App.disk) (root : string) (r : Flask.request) (filename : string) :
  (Flask.user (Flask.sess r) = None ->
   App.download d root r filename = App.RedirectLogin)
  /\ forall p n,
       App.download d root r filename = App.SendFile p n ->
       is_Some (Flask.user (Flask.sess r))
       /\ p = PosixPath.normpath
                (PosixPath.join (PosixPath.join root ["static"; "arquivos"; "assinados"])
                                [filename])
       /\ PyStr.startswith (PosixPath.join root ["static"; "arquivos"; "assinados"]) p = true
       /\ is_Some (App.files d !! p)
       /\ n = PosixPath.basename p.
Proof.
  split.
  - intros H. unfold App.download. now rewrite H.
  - intros p n. unfold App.download.
    destruct (Flask.user (Flask.sess r)) as [u |]; [| discriminate].
    set (base := PosixPath.join root _).
    set (fp := PosixPath.normpath _).
    destruct (PyStr.startswith base fp) eqn:Hs; cbn [negb orb]; [| discriminate].
    unfold App.isfile. destruct (App.files d !! fp) as [data |] eqn:Hf;
      cbn [negb]; [| discriminate].
    intros [= <- <-]. rewrite Hf. repeat split; eauto.
Qed.

Lemma download_guard_witness :
  App.download Fixtures.sibling_disk Fixtures.ROOT Fixtures.logged_in_get
               "./assinado_doc_ba7816bf8f.pdf"
  = App.SendFile "/srv/app/static/arquivos/assinados/assinado_doc_ba7816bf8f.pdf"
                 "assinado_doc_ba7816bf8f.pdf"
  /\ is_Some (App.files Fixtures.sibling_disk
              !! "/srv/app/static/arquivos/assinados/assinado_doc_ba7816bf8f.pdf").
Proof.
  assert (Hrun : App.download Fixtures.sibling_disk Fixtures.ROOT Fixtures.logged_in_get
                   "./assinado_doc_ba7816bf8f.pdf"
                 = App.SendFile
                     "/srv/app/static/arquivos/assinados/assinado_doc_ba7816bf8f.pdf"
                     "assinado_doc_ba7816bf8f.pdf") by (vm_compute; reflexivity).
  destruct (download_guard Fixtures.sibling_disk Fixtures.ROOT Fixtures.logged_in_get
              "./assinado_doc_ba7816bf8f.pdf") as [_ Hserved].
  destruct (Hserved _ _ Hrun) as (_ & _ & _ & Hfile & _).
  split; [exact Hrun | exact Hfile].
Defined.

(** ** Login: what changes the attempt store *)

Section LoginFacts.
Import PyStr Flask Auth.

Variables (E : login_env) (db : list db_user).
Hypothesis Hmax : config E !! "MAX_LOGIN_ATTEMPTS" = None.
Hypothesis Hlock : config E !! "LOCKOUT_SECONDS" = None.

(** The store a login leaves is the given one, the one with a failure
    registered under the request's key, or the one without that key. *)
Lemma login_attempts_cases (attempts : gmap string attempt) (r : request) :
  l_attempts (login E db attempts r) = attempts
  \/ l_attempts (login E db attempts r) = _register_fail E attempts (Props.login_key r)
  \/ l_attempts (login E db attempts r) = delete (Props.login_key r) attempts.
Proof.
  unfold login, Props.login_key.
  destruct (method r); [now left |].
  destruct (negb (validate_csrf_from_form r)); [now left |].
  destruct (negb (is_valid_email _) || negb (is_valid_cpf_digits _)); [now left |].
  destruct (0 <? _is_locked E attempts _); [now left |].
  destruct (query_user db _) as [u |]; [| right; now left].
  destruct (negb (_check_hash E (u_cpf_hash u) _)); [right; now left |].
  right. now right.
Qed.

Lemma register_fail_entry (attempts : gmap string attempt) (key : string) :
  exists e, _register_fail E attempts key = <[ key := e ]> attempts
            /\ ((count e = count (default (Attempt 0 0) (attempts !! key)) + 1
                 /\ count e < 5
                 /\ lock_until e = lock_until (default (Attempt 0 0) (attempts !! key)))
                \/ (e = Attempt 0 (now_fail E + 150)
                    /\ 5 <= count (default (Attempt 0 0) (attempts !! key)) + 1)).
Proof.
  set (e0 := default (Attempt 0 0) (attempts !! key)).
  destruct (Z.lt_ge_cases (count e0 + 1) 5) as [Hlt | Hge].
  - exists (Attempt (count e0 + 1) (lock_until e0)). split.
    + now apply register_fail_counts.
    + left. cbn. auto.
  - exists (Attempt 0 (now_fail E + 150)). split.
    + now apply register_fail_locks.
    + right. auto.
Qed.

(** A processed POST for an unlocked key with failing credentials
    registers one failure. *)
Lemma login_failure_registers (attempts : gmap string attempt) (r : request) :
  method r = POST ->
  validate_csrf_from_form r = true ->
  let email := lower (strip (or_empty (form r !! "email"))) in
  let cpf := normalize_cpf (or_empty (form r !! "cpf")) in
  is_valid_email email = true ->
  is_valid_cpf_digits cpf = true ->
  _is_locked E attempts (Props.login_key r) = 0 ->
  (query_user db email = None
   \/ exists u, query_user db email = Some u /\ _check_hash E (u_cpf_hash u) cpf = false) ->
  l_attempts (login E db attempts r) = _register_fail E attempts (Props.login_key r)
  /\ l_session (login E db attempts r) = sess r.
Proof.
  intros Hpost Hcsrf email cpf Hemail Hcpf Hunlocked Hfail.
  unfold login, Props.login_key in *. fold email in Hunlocked |- *. fold cpf.
  rewrite Hpost, Hcsrf, Hemail, Hcpf, Hunlocked. cbn [negb orb Z.ltb Z.compare].
  destruct Hfail as [-> | (u & -> & ->)]; cbn; auto.
Qed.

(** A POST for a locked key changes nothing and queries nothing. *)
Lemma login_locked_rejects (attempts : gmap string attempt) (r : request) :
  method r = POST ->
  0 < _is_locked E attempts (Props.login_key r) ->
  l_log (login E db attempts r) = []
  /\ l_attempts (login E db attempts r) = attempts
  /\ l_session (login E db attempts r) = sess r
  /\ l_resp (login E db attempts r) = Redirect "auth.login".
Proof.
  intros Hpost Hlocked. unfold login, Props.login_key in *. rewrite Hpost.
  destruct (negb (validate_csrf_from_form r)); [auto |].
  destruct (negb (is_valid_email _) || negb (is_valid_cpf_digits _)); [auto |].
  destruct (Z.ltb_spec 0 (_is_locked E attempts
              (_key_for_login r (lower (strip (or_empty (form r !! "email")))))));
    [auto | lia].
Qed.

End LoginFacts.

(** X5. Invariant of the attempt store: with the thresholds of [app.py],
    if every stored failure count lies in [0, 5), it still does after any
    login request whatever (GET or POST, accepted or rejected), and the
    entries of all keys other than the request's own are left as they
    were. *)
Theorem login_keeps_counts_below_threshold
    (E : Auth.login_env) (db : list Auth.db_user)
    (attempts : gmap string Auth.attempt) (r : Flask.request) :
  Auth.config E !! "MAX_LOGIN_ATTEMPTS" = None ->
  Auth.config E !! "LOCKOUT_SECONDS" = None ->
  Props.counts_below_threshold attempts ->
  Props.counts_below_threshold (Auth.l_attempts (Auth.login E db attempts r))
  /\ forall k, k <> Props.login_key r ->
       Auth.l_attempts (Auth.login E db attempts r) !! k = attempts !! k.
Proof.
  intros Hmax Hlock Hinv.
  destruct (register_fail_entry E Hmax Hlock attempts (Props.login_key r))
    as (e & Hreg & He).
  destruct (login_attempts_cases E db attempts r) as [-> | [-> | ->]].
  - split; [exact Hinv | reflexivity].
  - rewrite Hreg. split.
    + intros k e' Hk. destruct (decide (k = Props.login_key r)) as [-> | Hne].
      * rewrite lookup_insert_eq in Hk. injection Hk as <-.
        destruct He as [(Hc & Hlt & _) | [-> _]]; [| cbn; lia].
        rewrite Hc.
        destruct (attempts !! Props.login_key r) as [e0 |] eqn:H0; cbn in *.
        -- pose proof (Hinv _ _ H0). lia.
        -- lia.
      * rewrite lookup_insert_ne in Hk by congruence. exact (Hinv k e' Hk).
    + intros k Hk. now rewrite lookup_insert_ne by congruence.
  - split.
    + intros k e' Hk. apply lookup_delete_Some in Hk as [_ Hk]. exact (Hinv k e' Hk).
    + intros k Hk. now rewrite lookup_delete_ne by congruence.
Qed.

Lemma login_keeps_counts_below_threshold_witness :
  let E := Fixtures.login_env_at 1000 in
  let r := Fixtures.login_post "Ana@Example.org " "000.000.000-00" in
  let attempts : gmap string Auth.attempt :=
    {[ Fixtures.ana_key := Auth.Attempt 4 0; "bob@example.org|10.0.0.9" := Auth.Attempt 2 0 ]} in
  Props.counts_below_threshold (Auth.l_attempts (Auth.login E Fixtures.users attempts r))
  /\ Auth.l_attempts (Auth.login E Fixtures.users attempts r) !! "bob@example.org|10.0.0.9"
     = Some (Auth.Attempt 2 0).
Proof.
  intros E r attempts.
  destruct (login_keeps_counts_below_threshold E Fixtures.users attempts r eq_refl eq_refl)
    as [Hinv Hframe].
  - intros k e Hk. subst attempts.
    apply lookup_insert_Some in Hk as [[_ <-] | [_ Hk]]; [cbn; lia |].
    apply lookup_singleton_Some in Hk as [_ <-]. cbn. lia.
  - split; [exact Hinv |]. rewrite Hframe; [reflexivity |].
    vm_compute. discriminate.
Defined.

Section Lockout.
Import PyStr Flask Auth.

Variables (E : login_env) (db : list db_user) (r : request).
Hypothesis Hmax : config E !! "MAX_LOGIN_ATTEMPTS" = None.
Hypothesis Hlock : config E !! "LOCKOUT_SECONDS" = None.
Hypothesis Hpost : method r = POST.
Hypothesis Hcsrf : validate_csrf_from_form r = true.
Hypothesis Hemail :
  is_valid_email (lower (strip (or_empty (form r !! "email")))) = true.
Hypothesis Hcpf : is_valid_cpf_digits (normalize_cpf (or_empty (form r !! "cpf"))) = true.
Hypothesis Hfail :
  query_user db (lower (strip (or_empty (form r !! "email")))) = None
  \/ exists u, query_user db (lower (strip (or_empty (form r !! "email")))) = Some u
               /\ _check_hash E (u_cpf_hash u) (normalize_cpf (or_empty (form r !! "cpf")))
                  = false.
Hypothesis Hclock : 0 <= now_check E.

(** One more failure on a store whose entry for the key counts [c] and is
    not locked. *)
Lemma failure_step (attempts : gmap string attempt) (c : Z) :
  attempts !! Props.login_key r = Some (Attempt c 0) ->
  l_attempts (login E db attempts r)
  = <[ Props.login_key r :=
         if 5 <=? c + 1 then Attempt 0 (now_fail E + 150) else Attempt (c + 1) 0 ]> attempts.
Proof.
  intros Hentry.
  destruct (login_failure_registers E db attempts r Hpost Hcsrf Hemail Hcpf) as [-> _].
  - apply is_locked_zero. intros e He. rewrite Hentry in He. injection He as <-.
    left. exact Hclock.
  - exact Hfail.
  - destruct (Z.leb_spec 5 (c + 1)).
    + rewrite register_fail_locks; auto. now rewrite Hentry.
    + rewrite register_fail_counts; auto; now rewrite Hentry.
Qed.

Lemma failures_count (attempts : gmap string attempt) (n : nat) :
  attempts !! Props.login_key r = None ->
  (n < 4)%nat ->
  Props.attempts_after E db r (S n) attempts
  = <[ Props.login_key r := Attempt (Z.of_nat (S n)) 0 ]> attempts.
Proof.
  intros Hfresh. induction n as [| n IH]; intros Hn.
  - change (Props.attempts_after E db r 1 attempts)
      with (l_attempts (login E db attempts r)).
    destruct (login_failure_registers E db attempts r Hpost Hcsrf Hemail Hcpf) as [-> _].
    + apply is_locked_zero. intros e He. rewrite Hfresh in He. discriminate He.
    + exact Hfail.
    + rewrite register_fail_counts; auto; rewrite Hfresh; cbn; [reflexivity | lia].
  - change (Props.attempts_after E db r (S (S n)) attempts)
      with (l_attempts (login E db (Props.attempts_after E db r (S n) attempts) r)).
    rewrite IH by lia.
    rewrite (failure_step _ (Z.of_nat (S n))) by apply lookup_insert_eq.
    rewrite insert_insert_eq.
    destruct (Z.leb_spec 5 (Z.of_nat (S n) + 1)); [lia |].
    do 2 f_equal. lia.
Qed.

Lemma fifth_failure_locks (attempts : gmap string attempt) :
  attempts !! Props.login_key r = None ->
  Props.attempts_after E db r 5 attempts
  = <[ Props.login_key r := Attempt 0 (now_fail E + 150) ]> attempts.
Proof.
  intros Hfresh.
  change (Props.attempts_after E db r 5 attempts)
    with (l_attempts (login E db (Props.attempts_after E db r 4 attempts) r)).
  rewrite (failures_count attempts 3 Hfresh) by lia.
  rewrite (failure_step _ 4) by apply lookup_insert_eq.
  now rewrite insert_insert_eq.
Qed.

End Lockout.

(** X6. Five consecutive failed logins lock a fresh key. Posting the same
    failing request repeatedly (clock readings as given by the environment,
    thresholds of [app.py]) leaves the counter at n after n <= 4 failures
    and, at the fifth, sets the lock to now + 150 with the counter back at
    0; while that lock is unexpired every POST counted under the same key,
    even one with the right credentials, is redirected to the login page
    without any user query or hash check and without changing the store or
    the session. *)
Theorem five_failures_lock
    (E : Auth.login_env) (db : list Auth.db_user)
    (attempts : gmap string Auth.attempt) (r : Flask.request) :
  Auth.config E !! "MAX_LOGIN_ATTEMPTS" = None ->
  Auth.config E !! "LOCKOUT_SECONDS" = None ->
  Flask.method r = Flask.POST ->
  Auth.validate_csrf_from_form r = true ->
  let email := PyStr.lower (PyStr.strip (Flask.or_empty (Flask.form r !! "email"))) in
  let cpf := Auth.normalize_cpf (Flask.or_empty (Flask.form r !! "cpf")) in
  Auth.is_valid_email email = true ->
  Auth.is_valid_cpf_digits cpf = true ->
  (Auth.query_user db email = None
   \/ exists u, Auth.query_user db email = Some u
                /\ Auth._check_hash E (Auth.u_cpf_hash u) cpf = false) ->
  attempts !! Props.login_key r = None ->
  0 <= Auth.now_check E ->
  (forall n, (1 <= n <= 4)%nat ->
     Props.attempts_after E db r n attempts
     = <[ Props.login_key r := Auth.Attempt (Z.of_nat n) 0 ]> attempts)
  /\ Props.attempts_after E db r 5 attempts
     = <[ Props.login_key r := Auth.Attempt 0 (Auth.now_fail E + 150) ]> attempts
  /\ (Auth.now_check E < Auth.now_fail E + 150 ->
      Auth.now_remaining E < Auth.now_fail E + 150 ->
      forall r', Flask.method r' = Flask.POST ->
        Props.login_key r' = Props.login_key r ->
        let locked := Props.attempts_after E db r 5 attempts in
        Auth.l_log (Auth.login E db locked r') = []
        /\ Auth.l_attempts (Auth.login E db locked r') = locked
        /\ Auth.l_session (Auth.login E db locked r') = Flask.sess r'
        /\ Auth.l_resp (Auth.login E db locked r') = Auth.Redirect "auth.login").
Proof.
  intros Hmax Hlock Hpost Hcsrf email cpf Hemail Hcpf Hfail Hfresh Hclock.
  split; [| split].
  - intros [| n] Hn; [lia |].
    apply (failures_count E db r Hmax Hlock Hpost Hcsrf Hemail Hcpf Hfail Hclock);
      [exact Hfresh | lia].
  - apply (fifth_failure_locks E db r Hmax Hlock Hpost Hcsrf Hemail Hcpf Hfail Hclock).
    exact Hfresh.
  - intros Hc Hr r' Hpost' Hkey locked. subst locked.
    rewrite (fifth_failure_locks E db r Hmax Hlock Hpost Hcsrf Hemail Hcpf Hfail Hclock)
      by exact Hfresh.
    apply login_locked_rejects; [exact Hpost' |].
    rewrite Hkey.
    apply (is_locked_positive E _ _ (Auth.Attempt 0 (Auth.now_fail E + 150)));
      [apply lookup_insert_eq | exact Hc | exact Hr].
Qed.

Lemma five_failures_lock_witness :
  let E := Fixtures.login_env_at 1000 in
  let wrong := Fixtures.login_post "Ana@Example.org " "000.000.000-00" in
  let right := Fixtures.login_post "ana@example.org" "123.456.789-09" in
  Props.attempts_after E Fixtures.users wrong 5 ∅
  = {[ Fixtures.ana_key := Auth.Attempt 0 1150 ]}
  /\ Auth.l_log (Auth.login E Fixtures.users
                   (Props.attempts_after E Fixtures.users wrong 5 ∅) right) = []
  /\ Auth.l_resp (Auth.login E Fixtures.users ∅ right) = Auth.Redirect "assinar".
Proof.
  intros E wrong right.
  destruct (five_failures_lock E Fixtures.users ∅ wrong
              eq_refl eq_refl eq_refl eq_refl eq_refl eq_refl)
    as (_ & Hfive & Hlocked).
  - right. eexists. split; reflexivity.
  - reflexivity.
  - vm_compute. discriminate.
  - split; [rewrite Hfive; reflexivity |].
    split; [| reflexivity].
    destruct (Hlocked ltac:(vm_compute; reflexivity) ltac:(vm_compute; reflexivity)
                right eq_refl eq_refl) as (Hlog & _).
    exact Hlog.
Defined.

(** X7. A successful login never keeps the session it was posted in: the
    new session is permanent, carries a fresh CSRF token and the user read
    from the table, no message is flashed and the key's entry is gone. An
    administrator is sent to the registration page even when a next
    address is given; any other user is sent to the next address, taken
    verbatim from the query string, when it is not empty, and to the
    signing page otherwise. *)
Theorem login_success_session
    (E : Auth.login_env) (db : list Auth.db_user)
    (attempts : gmap string Auth.attempt) (r : Flask.request) (u : Auth.db_user) :
  Flask.method r = Flask.POST ->
  Auth.validate_csrf_from_form r = true ->
  let email := PyStr.lower (PyStr.strip (Flask.or_empty (Flask.form r !! "email"))) in
  let cpf := Auth.normalize_cpf (Flask.or_empty (Flask.form r !! "cpf")) in
  Auth.is_valid_email email = true ->
  Auth.is_valid_cpf_digits cpf = true ->
  Auth._is_locked E attempts (Props.login_key r) = 0 ->
  Auth.query_user db email = Some u ->
  Auth._check_hash E (Auth.u_cpf_hash u) cpf = true ->
  let out := Auth.login E db attempts r in
  Auth.l_session out
  = Flask.Session (Some (Auth.fresh_token E)) true
      (Some (Flask.SessionUser (Auth.u_email u) (Auth.u_nome u) (Auth.u_cpf_masked u)
               (Auth.u_is_admin u) (Auth.utcnow_iso E +:+ "Z")
               (Auth.u_orgao u) (Auth.u_cargo u) (Auth.u_matricula u)))
  /\ Auth.l_flashes out = []
  /\ Auth.l_attempts out !! Props.login_key r = None
  /\ (Auth.u_is_admin u = true -> Auth.l_resp out = Auth.Redirect "cadastro")
  /\ (Auth.u_is_admin u = false ->
      forall next, Flask.args r !! "next" = Some next -> PyStr.nonempty next = true ->
        Auth.l_resp out = Auth.Redirect next)
  /\ (Auth.u_is_admin u = false ->
      Flask.args r !! "next" = None \/ Flask.args r !! "next" = Some "" ->
      Auth.l_resp out = Auth.Redirect "assinar").
Proof.
  intros Hpost Hcsrf email cpf Hemail Hcpf Hunlocked Hq Hh out. subst out.
  unfold Auth.login, Props.login_key in *. fold email in Hunlocked |- *. fold cpf.
  rewrite Hpost, Hcsrf, Hemail, Hcpf, Hunlocked, Hq, Hh.
  cbn [negb orb Z.ltb Z.compare Auth.l_session Auth.l_flashes Auth.l_attempts Auth.l_resp].
  split; [reflexivity |]. split; [reflexivity |].
  split; [apply lookup_delete_eq |].
  split; [| split].
  - intros ->. destruct (Flask.args r !! "next"); reflexivity.
  - intros -> next -> ->. reflexivity.
  - intros -> [-> | ->]; reflexivity.
Qed.

Lemma login_success_session_witness :
  let E := Fixtures.login_env_at 1000 in
  let r := Fixtures.login_post "ana@example.org" "123.456.789-09" in
  Flask.csrf_token (Auth.l_session (Auth.login E Fixtures.users ∅ r)) = Some "fresh"
  /\ Auth.l_resp (Auth.login E Fixtures.users ∅ r) = Auth.Redirect "assinar".
Proof.
  intros E r.
  destruct (login_success_session E Fixtures.users ∅ r
              (Auth.DbUser "ana@example.org" "Ana" (Fixtures.toy_hash "12345678909")
                           "123.456.789-09" (Some "SEMIT") None (Some "1234") false))
    as (Hs & _ & _ & _ & _ & Hplain); try (vm_compute; reflexivity).
  split; [rewrite Hs; reflexivity |].
  apply Hplain; [reflexivity | left; reflexivity].
Defined.

(** ** The CPF helpers *)

Section CpfFacts.
Import PyStr Cpf.

Lemma normalize_app (a b : string) :
  Auth.normalize_cpf (a +:+ b) = Auth.normalize_cpf a +:+ Auth.normalize_cpf b.
Proof.
  induction a as [| c a IH]; [reflexivity |].
  rewrite append_cons. cbn [Auth.normalize_cpf].
  destruct (Auth.is_digit c); [rewrite append_cons |]; now rewrite IH.
Qed.

Lemma normalize_digits (s : string) :
  all_chars Auth.is_digit (Auth.normalize_cpf s) = true.
Proof.
  induction s as [| c s IH]; [reflexivity |]. cbn [Auth.normalize_cpf].
  destruct (Auth.is_digit c) eqn:Hc; [cbn [all_chars]; now rewrite Hc |]; exact IH.
Qed.

Lemma normalize_fixes_digits (s : string) :
  all_chars Auth.is_digit s = true -> Auth.normalize_cpf s = s.
Proof.
  induction s as [| c s IH]; [reflexivity |]. cbn [all_chars Auth.normalize_cpf].
  intros [Hc Hs]%andb_prop. now rewrite Hc, IH.
Qed.

Lemma all_chars_slice_from (p : ascii -> bool) (n : nat) (s : string) :
  all_chars p s = true -> all_chars p (slice_from n s) = true.
Proof.
  revert s. induction n as [| n IH]; intros [| c s]; cbn [slice_from all_chars]; auto.
  intros [_ Hs]%andb_prop. now apply IH.
Qed.

Lemma slice_to_from (n : nat) (s : string) : slice_to n s +:+ slice_from n s = s.
Proof.
  revert s. induction n as [| n IH]; intros [| c s]; cbn [slice_to slice_from];
    try reflexivity.
  rewrite append_cons. now rewrite IH.
Qed.

Lemma slice_from_from (a b : nat) (s : string) :
  slice_from b (slice_from a s) = slice_from (a + b) s.
Proof.
  revert s. induction a as [| a IH]; intros s; [reflexivity |].
  destruct s as [| c s]; cbn [slice_from Nat.add]; [now destruct b | apply IH].
Qed.

(** Cutting a string at 3, 6 and 9 and gluing the pieces gives it back. *)
Lemma pieces_glue (c : string) :
  slice_to 3 c +:+ slice 3 6 c +:+ slice 6 9 c +:+ slice_from 9 c = c.
Proof.
  unfold slice. change (6 - 3)%nat with 3%nat. change (9 - 6)%nat with 3%nat.
  replace (slice_from 9 c) with (slice_from 3 (slice_from 6 c))
    by apply (slice_from_from 6 3 c).
  rewrite (slice_to_from 3 (slice_from 6 c)).
  replace (slice_from 6 c) with (slice_from 3 (slice_from 3 c))
    by apply (slice_from_from 3 3 c).
  rewrite (slice_to_from 3 (slice_from 3 c)).
  apply slice_to_from.
Qed.

Lemma append_empty (s : string) : s +:+ "" = s.
Proof. induction s as [| c s IH]; [reflexivity |]. rewrite append_cons. now rewrite IH. Qed.

Lemma length_app (a b : string) :
  String.length (a +:+ b) = (String.length a + String.length b)%nat.
Proof. induction a as [| c a IH]; [reflexivity |]. rewrite append_cons. cbn. now rewrite IH. Qed.

Lemma length_slice_from (n : nat) (s : string) :
  String.length (slice_from n s) = (String.length s - n)%nat.
Proof. revert s. induction n as [| n IH]; intros [| c s]; cbn; auto. Qed.

End CpfFacts.

(** X8. The display form of a CPF is a faithful mask of its digits: for any
    input, normalising the masked form gives the normalised input back
    (and normalising twice changes nothing), so the keyed hash of a CPF does
    not depend on its punctuation; when the input holds exactly 11 digits
    the mask is the 14-character form ddd.ddd.ddd-dd, and this is the only
    case in which the digits pass [is_valid_cpf_digits]. *)
Theorem mascarar_cpf_round_trip (salt s : string) :
  Cpf.normalize_cpf (Cpf.mascarar_cpf s) = Cpf.normalize_cpf s
  /\ Cpf.normalize_cpf (Cpf.normalize_cpf s) = Cpf.normalize_cpf s
  /\ Cpf.hash_cpf salt (Cpf.mascarar_cpf s) = Cpf.hash_cpf salt s
  /\ (Auth.is_valid_cpf_digits (Cpf.normalize_cpf s) = true
      <-> String.length (Cpf.normalize_cpf s) = 11%nat)
  /\ (String.length (Cpf.normalize_cpf s) = 11%nat ->
      Cpf.mascarar_cpf s = Cpf.format_cpf (Cpf.normalize_cpf s)
      /\ String.length (Cpf.mascarar_cpf s) = 14%nat)
  /\ (String.length (Cpf.normalize_cpf s) <> 11%nat ->
      Cpf.mascarar_cpf s = Cpf.normalize_cpf s).
Proof.
  unfold Cpf.normalize_cpf.
  set (c := Auth.normalize_cpf s).
  pose proof (normalize_digits s) as Hdig. fold c in Hdig.
  assert (Hidem : Auth.normalize_cpf c = c) by apply normalize_fixes_digits, Hdig.
  assert (Hmask : Auth.normalize_cpf (Cpf.mascarar_cpf s) = c).
  { unfold Cpf.mascarar_cpf, Cpf.normalize_cpf. fold c.
    destruct (String.length c =? 11)%nat; [| exact Hidem].
    unfold Cpf.format_cpf. rewrite !normalize_app.
    change (Auth.normalize_cpf ".") with "". change (Auth.normalize_cpf "-") with "".
    unfold Cpf.slice.
    rewrite !normalize_fixes_digits
      by (repeat first [apply all_chars_slice_to | apply all_chars_slice_from]; exact Hdig).
    apply (pieces_glue c). }
  split; [exact Hmask |]. split; [exact Hidem |].
  split; [unfold Cpf.hash_cpf, Cpf.normalize_cpf; now rewrite Hmask |].
  split; [| split].
  - unfold Auth.is_valid_cpf_digits. split.
    + intros H. apply andb_prop in H as [H Ht]. apply andb_prop in H as [Hl _].
      apply Nat.eqb_eq in Hl. rewrite length_slice_to_min in Hl.
      assert (Hge : (11 <= String.length c)%nat) by lia.
      pose proof (length_slice_from 11 c) as Hlt.
      apply orb_prop in Ht as [Ht | Ht]; apply String.eqb_eq in Ht; rewrite Ht in Hlt.
      * cbn in Hlt. lia.
      * exfalso. pose proof (all_chars_slice_from Auth.is_digit 11 c Hdig) as Hd.
        rewrite Ht in Hd. discriminate Hd.
    + intros Hl.
      assert (Ht : PyStr.slice_from 11 c = "").
      { pose proof (length_slice_from 11 c) as H. rewrite Hl in H.
        destruct (PyStr.slice_from 11 c); [reflexivity | discriminate H]. }
      assert (Hb : PyStr.slice_to 11 c = c).
      { pose proof (slice_to_from 11 c) as H. rewrite Ht, append_empty in H. exact H. }
      rewrite Hb, Ht, Hl, Hdig. reflexivity.
  - intros Hl. unfold Cpf.mascarar_cpf, Cpf.normalize_cpf. fold c. rewrite Hl.
    cbn [Nat.eqb]. split; [reflexivity |].
    unfold Cpf.format_cpf, Cpf.slice. rewrite !length_app, !length_slice_to_min,
      !length_slice_from, Hl. reflexivity.
  - intros Hl. unfold Cpf.mascarar_cpf, Cpf.normalize_cpf. fold c.
    destruct (Nat.eqb_spec (String.length c) 11); [contradiction | reflexivity].
Qed.

Lemma mascarar_cpf_round_trip_witness :
  Cpf.mascarar_cpf "123 456 789 09" = "123.456.789-09"
  /\ String.length (Cpf.mascarar_cpf "123 456 789 09") = 14%nat
  /\ Auth.is_valid_cpf_digits (Cpf.normalize_cpf "123.456.789-09") = true.
Proof.
  destruct (mascarar_cpf_round_trip "salt" "123 456 789 09")
    as (_ & _ & _ & _ & Hmask & _).
  destruct (mascarar_cpf_round_trip "salt" "123.456.789-09")
    as (_ & _ & _ & Hvalid & _).
  destruct (Hmask eq_refl) as [Hform Hlen].
  split; [rewrite Hform; reflexivity |]. split; [exact Hlen |].
  apply Hvalid. reflexivity.
Defined.

(** ** Signing: what the handler leaves on the disk *)

Section SignDisk.
Import Py PyStr Flask App.
Context {Doc Img : Type} (E : sign_env Doc Img).

Lemma upload_not_qr (n x : string) :
  PosixPath.join UPLOADS [n] <> PosixPath.join "static" ["temp_qr_" +:+ x].
Proof.
  rewrite qr_path_eq.
  unfold PosixPath.join. cbn [fold_left]. unfold PosixPath.join2.
  destruct (startswith "/" n) eqn:Hn.
  - destruct n as [| c n']; [discriminate Hn |].
    cbn [startswith] in Hn. destruct (Ascii.eqb_spec "/" c) as [<- | _]; [| discriminate Hn].
    intros H. apply (f_equal (slice_to 1)) in H. vm_compute in H. discriminate H.
  - intros H. apply (f_equal (fun s => slice_from 7 (slice_to 8 s))) in H.
    vm_compute in H. discriminate H.
Qed.

Lemma write_in_other (d : disk) (dir n q : string) (data : list byte) :
  q <> PosixPath.join dir [n] -> files (write_in d dir n data) !! q = files d !! q.
Proof. intros H. unfold write_in. cbn [files]. now rewrite lookup_insert_ne by congruence. Qed.

Lemma write_in_here (d : disk) (dir n : string) (data : list byte) :
  files (write_in d dir n data) !! PosixPath.join dir [n] = Some data.
Proof. unfold write_in. cbn [files]. apply lookup_insert_eq. Qed.


(** The paths and the disk of a request that reaches the [try] block. *)
Lemma prepare_ready_paths (d : disk) (r : request) (p : plan) (d2 : disk) :
  prepare E d r = Ready p d2 ->
  exists arquivo rest,
    Flask.files r !! "arquivo" = Some arquivo
    /\ p_upload p = stream arquivo
    /\ p_extensao p
       = lower (snd (PosixPath.splitext (secure_filename E (filename arquivo))))
    /\ p_caminho_upload p
       = PosixPath.join UPLOADS [secure_filename E (filename arquivo)]
    /\ p_qr_name p = "temp_qr_" +:+ p_crc p +:+ ".png"
    /\ p_nome_final p = "assinado_" +:+ rest
    /\ p_caminho_assinado p = PosixPath.join ASSINADOS [p_nome_final p]
    /\ d2 = write_in (write_in d UPLOADS (secure_filename E (filename arquivo))
                               (stream arquivo))
                     "static" (p_qr_name p) (make_qr_png E (p_qr_url p)).
Proof.
  unfold prepare.
  destruct (user (sess r)) as [usr |]; [| discriminate].
  destruct (method r); [discriminate |].
  destruct (negb (Auth.validate_csrf_from_form r)); [discriminate |].
  destruct (Flask.files r !! "arquivo") as [arquivo |]; [| discriminate].
  destruct (negb (nonempty (filename arquivo)) || _); [discriminate |].
  destruct (form r !! "processo") as [proc |]; [| discriminate].
  destruct (negb (nonempty (secure_filename E (filename arquivo)))); [discriminate |].
  rewrite read_back. intros [= <- <-]. exists arquivo. eexists. cbn.
  repeat (split; [reflexivity |]). reflexivity.
Qed.

(** The three paths a prepared request may write are pairwise distinct. *)
Lemma prepared_paths_distinct (d : disk) (r : request) (p : plan) (d2 : disk) :
  prepare E d r = Ready p d2 ->
  p_caminho_upload p <> qr_path p
  /\ p_caminho_upload p <> p_caminho_assinado p
  /\ qr_path p <> p_caminho_assinado p.
Proof.
  intros H. destruct (prepare_ready_paths d r p d2 H)
    as (arquivo & rest & _ & _ & _ & Hup & Hqr & Hnome & Hcam & _).
  unfold qr_path. rewrite Hup, Hqr, Hcam, Hnome, caminho_assinado_eq.
  split; [apply upload_not_qr |]. split; [apply upload_not_assinado | apply qr_not_assinado].
Qed.

(** The disk a prepared request starts its [try] block on. *)
Lemma prepared_disk (d : disk) (r : request) (p : plan) (d2 : disk) :
  prepare E d r = Ready p d2 ->
  files d2 !! p_caminho_upload p = Some (p_upload p)
  /\ (forall q, q <> p_caminho_upload p -> q <> qr_path p ->
        files d2 !! q = files d !! q).
Proof.
  intros H. destruct (prepared_paths_distinct d r p d2 H) as (Huq & _ & _).
  destruct (prepare_ready_paths d r p d2 H)
    as (arquivo & rest & _ & Hdata & _ & Hup & _ & _ & _ & ->).
  split.
  - rewrite write_in_other by exact Huq. rewrite Hup, Hdata. apply write_in_here.
  - intros q Hq1 Hq2. rewrite write_in_other by exact Hq2.
    rewrite write_in_other by (rewrite <- Hup; exact Hq1). reflexivity.
Qed.

End SignDisk.



(** X10. An upload whose extension is not .pdf, .jpg, .jpeg or .png is
    rejected only after it was saved: the answer is the unsupported-format
    message, the temporary QR image is removed, nothing is written at the
    artifact's final path, and the uploaded file stays in the uploads
    directory. *)
Theorem assinar_unsupported_format
    {Doc Img : Type} (E : App.sign_env Doc Img)
    (d : App.disk) (r : Flask.request) (p : App.plan) (d2 : App.disk) :
  App.prepare E d r = App.Ready p d2 ->
  App.p_extensao p ∉ [".pdf"; ".jpg"; ".jpeg"; ".png"] ->
  exists d',
    App.assinar E d r = (App.Form (Some App.ERRO_FORMATO), d')
    /\ App.files d' !! App.p_caminho_upload p = Some (App.p_upload p)
    /\ App.files d' !! App.qr_path p = None
    /\ App.files d' !! App.p_caminho_assinado p = App.files d !! App.p_caminho_assinado p.
Proof.
  intros Hprep Hext.
  destruct (prepared_paths_distinct E d r p d2 Hprep) as (Huq & Huf & Hqf).
  destruct (prepared_disk E d r p d2 Hprep) as [Hup Hframe].
  assert (Hnone : App.compose E d2 p = None).
  { unfold App.compose.
    destruct (String.eqb_spec (App.p_extensao p) ".pdf") as [Heq | _].
    - exfalso. apply Hext. rewrite Heq. left.
    - rewrite bool_decide_eq_false_2; [reflexivity |].
      intros Hin. apply Hext. now right. }
  unfold App.assinar, App.try_body. rewrite Hprep, Hnone.
  eexists. split; [reflexivity |].
  split; [| split].
  - rewrite remove_in_other by (intros Heq; apply Huq; symmetry; exact Heq). exact Hup.
  - apply remove_in_lookup.
  - rewrite remove_in_other by exact Hqf.
    apply Hframe; intros Heq; [apply Huf | apply Hqf]; now symmetry.
Qed.

Lemma assinar_unsupported_format_witness :
  let E := Fixtures.toy_env false in
  let r := Fixtures.sign_post "notes.txt" (Fixtures.bytes_of "abc") in
  exists d',
    App.assinar E Fixtures.sign_disk r = (App.Form (Some App.ERRO_FORMATO), d')
    /\ App.files d' !! "static/arquivos/uploads/notes.txt" = Some (Fixtures.bytes_of "abc")
    /\ App.files d' !! "static/temp_qr_ba7816bf8f.png" = None.
Proof.
  intros E r.
  assert (Hc : match App.prepare E Fixtures.sign_disk r with
               | App.Ready p _ =>
                   App.p_extensao p = ".txt"
                   /\ App.p_caminho_upload p = "static/arquivos/uploads/notes.txt"
                   /\ App.qr_path p = "static/temp_qr_ba7816bf8f.png"
                   /\ App.p_upload p = Fixtures.bytes_of "abc"
               | App.Early _ _ => False
               end).
  { vm_compute. repeat split; reflexivity. }
  destruct (App.prepare E Fixtures.sign_disk r) as [resp d0 | p d2] eqn:Hprep;
    [contradiction |].
  destruct Hc as (Hext & Hup & Hqr & Hdata).
  destruct (assinar_unsupported_format E Fixtures.sign_disk r p d2 Hprep)
    as (d' & Hrun & Hkept & Hgone & _).
  - rewrite Hext. intros Hin. repeat (apply elem_of_cons in Hin as [Hin | Hin];
      [discriminate Hin |]). inversion Hin.
  - exists d'. rewrite Hup, Hdata in Hkept. rewrite Hqr in Hgone. auto.
Defined.

(** X11. A signing request succeeds only on a supported format, matched on
    the lowercased extension of the secured file name: the answer is marked
    as PDF exactly when that extension is .pdf, and otherwise the extension
    is .jpg, .jpeg or .png. After a success the temporary QR image is gone
    and the uploaded original is still stored, unchanged, in the uploads
    directory. *)
Theorem assinar_success_disk
    {Doc Img : Type} (E : App.sign_env Doc Img)
    (d d' : App.disk) (r : Flask.request) (is_pdf : bool) (url arq sha : string) :
  App.assinar E d r = (App.Result is_pdf url arq sha, d') ->
  exists arquivo,
    Flask.files r !! "arquivo" = Some arquivo
    /\ let n := App.secure_filename E (Flask.filename arquivo) in
       let ext := PyStr.lower (snd (PosixPath.splitext n)) in
       (is_pdf = true <-> ext = ".pdf")
       /\ (is_pdf = false -> ext ∈ [".jpg"; ".jpeg"; ".png"])
       /\ App.files d' !! PosixPath.join App.UPLOADS [n] = Some (Flask.stream arquivo)
       /\ exists p d2, App.prepare E d r = App.Ready p d2
                       /\ App.files d' !! App.qr_path p = None.
Proof.
  unfold App.assinar.
  destruct (App.prepare E d r) as [resp d0 | p d2] eqn:Hprep.
  { intros [= -> _]. exfalso. revert Hprep. unfold App.prepare.
    repeat match goal with
           | |- context [match ?x with _ => _ end] => destruct x
           end; discriminate. }
  destruct (prepare_ready_paths E d r p d2 Hprep)
    as (arquivo & rest & Hfile & Hdata & Hext & Hup & _ & _ & Hcam & _).
  destruct (prepared_paths_distinct E d r p d2 Hprep) as (Huq & Huf & Hqf).
  destruct (prepared_disk E d r p d2 Hprep) as [Hkept _].
  unfold App.try_body.
  destruct (App.compose E d2 p) as [[e | c] |] eqn:Hcomp; [discriminate | | discriminate].
  unfold App.finish.
  destruct (App.save E c p) as [[e [partial |]] | bytes]; [discriminate | discriminate |].
  destruct (App.sha256_of_file _ _); [discriminate |].
  intros [= <- _ _ _ <-].
  exists arquivo. split; [exact Hfile |]. cbn zeta. rewrite <- Hext, <- Hup, <- Hdata.
  assert (Hkind : match c with
                  | App.PdfDoc _ => App.p_extensao p = ".pdf"
                  | App.Picture _ =>
                      App.p_extensao p <> ".pdf"
                      /\ App.p_extensao p ∈ [".jpg"; ".jpeg"; ".png"]
                  end).
  { revert Hcomp. unfold App.compose.
    destruct (String.eqb_spec (App.p_extensao p) ".pdf") as [Heq | Hne].
    - destruct (App.compose_pdf E d2 p); cbn [Py.bind]; intros [= <-]. exact Heq.
    - destruct (bool_decide (App.p_extensao p ∈ [".jpg"; ".jpeg"; ".png"])) eqn:Hin;
        [| discriminate].
      apply bool_decide_eq_true_1 in Hin.
      destruct (App.compose_image E d2 p); cbn [Py.bind]; intros [= <-]. auto. }
  split; [| split; [| split]].
  - destruct c; [tauto |]. destruct Hkind as [Hne _].
    split; [discriminate | contradiction].
  - destruct c; [discriminate |]. intros _. apply Hkind.
  - rewrite remove_in_other by (intros Heq; apply Huq; symmetry; exact Heq).
    rewrite write_in_other by (rewrite <- Hcam; exact Huf). exact Hkept.
  - exists p, d2. split; [reflexivity | apply remove_in_lookup].
Qed.

Lemma assinar_success_disk_witness :
  let E := Fixtures.toy_env false in
  let r := Fixtures.sign_post "Photo.PNG" (Fixtures.bytes_of "abc") in
  let d' := snd (App.assinar E Fixtures.sign_disk r) in
  App.files d' !! "static/arquivos/uploads/Photo.PNG" = Some (Fixtures.bytes_of "abc").
Proof.
  intros E r d'.
  let v := eval vm_compute in (fst (App.assinar E Fixtures.sign_disk r)) in
  match v with
  | App.Result ?b ?u ?a ?s =>
      assert (Hfst : fst (App.assinar E Fixtures.sign_disk r) = App.Result b u a s)
        by (vm_compute; reflexivity);
      assert (Hrun : App.assinar E Fixtures.sign_disk r = (App.Result b u a s, d'))
        by (subst d'; rewrite <- Hfst; apply surjective_pairing);
      destruct (assinar_success_disk E Fixtures.sign_disk d' r b u a s Hrun)
        as (arquivo & Hfile & _ & _ & Hkept & _)
  end.
  vm_compute in Hfile. injection Hfile as <-. exact Hkept.
Defined.

(** ** Verification: a store that changes under the scan *)



(* ===================================================================== *)
(** * The user table *)
(* ===================================================================== *)

Section UserTable.
Import PyStr Flask Users UsersProps.

Lemma lower_ascii_idem (c : ascii) : lower_ascii (lower_ascii c) = lower_ascii c.
Proof. destruct c as [[] [] [] [] [] [] [] []]; reflexivity. Qed.

Lemma lower_idem (s : string) : lower (lower s) = lower s.
Proof.
  induction s as [| c s IH]; cbn [lower]; [reflexivity |].
  now rewrite lower_ascii_idem, IH.
Qed.

Lemma find_user_none (tbl : list user_row) (e : string) :
  find_user tbl e = None <-> lower e ∉ map (fun u => lower (email_of u)) tbl.
Proof.
  unfold find_user. induction tbl as [| u tbl IH]; cbn [List.find map].
  - split; [intros _ H; inversion H | reflexivity].
  - destruct (String.eqb_spec (lower (email_of u)) (lower e)) as [Heq | Hne].
    + split; [discriminate |]. intros H. exfalso. apply H. rewrite Heq. left.
    + rewrite IH. rewrite not_elem_of_cons. split; [intros H; split; congruence | tauto].
Qed.

Lemma find_user_some (tbl : list user_row) (e : string) (u : user_row) :
  find_user tbl e = Some u -> u ∈ tbl /\ lower (email_of u) = lower e.
Proof.
  unfold find_user. induction tbl as [| v tbl IH]; cbn [List.find]; [discriminate |].
  destruct (String.eqb_spec (lower (email_of v)) (lower e)) as [Heq | Hne].
  - intros [= <-]. split; [left | exact Heq].
  - intros H. destruct (IH H) as [Hin Hk]. split; [now right | exact Hk].
Qed.

Lemma find_user_snoc (tbl : list user_row) (e : string) (u : user_row) :
  find_user tbl e = None ->
  find_user (tbl ++ [u]) e
  = if String.eqb (lower (email_of u)) (lower e) then Some u else None.
Proof.
  unfold find_user. induction tbl as [| v tbl IH]; cbn [List.find app]; [reflexivity |].
  destruct (String.eqb (lower (email_of v)) (lower e)); [discriminate | exact IH].
Qed.

Lemma find_user_accounts (tbl : list user_row) (e : string) :
  Auth.query_user (accounts tbl) e = option_map account (find_user tbl e).
Proof.
  unfold Auth.query_user, find_user, accounts.
  induction tbl as [| v tbl IH]; cbn [List.find map]; [reflexivity |].
  unfold email_of at 1.
  destruct (String.eqb (lower (Auth.u_email (account v))) (lower e)); [reflexivity | exact IH].
Qed.

(** Writing a row back leaves every column the new row shares with the old
    one as it was. *)
Lemma map_update_first {A : Type} (f : user_row -> A) (tbl : list user_row)
    (e : string) (u u' : user_row) :
  find_user tbl e = Some u -> f u' = f u ->
  map f (update_first e u' tbl) = map f tbl.
Proof.
  unfold find_user. intros Hfind Hf.
  induction tbl as [| v tbl IH]; cbn [List.find update_first map] in *; [reflexivity |].
  destruct (String.eqb (lower (email_of v)) (lower e)).
  - injection Hfind as ->. cbn [map]. now rewrite Hf.
  - cbn [map]. now rewrite (IH Hfind).
Qed.

Lemma update_first_keys (tbl : list user_row) (e : string) (u' : user_row) (k : string) :
  k ∈ map (fun u => lower (email_of u)) (update_first e u' tbl) ->
  k ∈ map (fun u => lower (email_of u)) tbl \/ k = lower (email_of u').
Proof.
  induction tbl as [| v tbl IH]; cbn [update_first map]; [intros H; inversion H |].
  destruct (String.eqb (lower (email_of v)) (lower e)); cbn [map];
    rewrite !elem_of_cons; intros [H | H]; auto.
  destruct (IH H); auto.
Qed.

Lemma update_first_unique (tbl : list user_row) (e : string) (u' : user_row) :
  unique_emails tbl ->
  lower (email_of u') = lower e
  \/ lower (email_of u') ∉ map (fun u => lower (email_of u)) tbl ->
  unique_emails (update_first e u' tbl).
Proof.
  unfold unique_emails. intros Hnd Hk.
  induction tbl as [| v tbl IH]; cbn [update_first map] in *; [constructor |].
  apply NoDup_cons in Hnd as [Hv Hnd].
  destruct (String.eqb_spec (lower (email_of v)) (lower e)) as [Heq | Hne]; cbn [map].
  - apply NoDup_cons. split; [| exact Hnd].
    destruct Hk as [Hk | Hk]; [now rewrite Hk, <- Heq |].
    intros Hin. apply Hk. now right.
  - apply NoDup_cons. split.
    + intros Hin. apply update_first_keys in Hin as [Hin | Hin]; [contradiction |].
      destruct Hk as [Hk | Hk]; [congruence |]. apply Hk. rewrite <- Hin. left.
    + apply IH; [exact Hnd |]. destruct Hk as [Hk | Hk]; [now left | right].
      intros Hin. apply Hk. now right.
Qed.

Lemma snoc_unique (tbl : list user_row) (u : user_row) :
  unique_emails tbl -> find_user tbl (email_of u) = None -> unique_emails (tbl ++ [u]).
Proof.
  unfold unique_emails. intros Hnd Hnone. apply find_user_none in Hnone.
  rewrite map_app. apply NoDup_app. split; [exact Hnd |]. split.
  - intros k Hk Hin. cbn [map] in Hin. apply list_elem_of_singleton in Hin. congruence.
  - cbn [map]. apply NoDup_singleton.
Qed.

(** The row the pattern scan takes out of the table. *)
Lemma take_ilike_some (E : admin_env) (pat : string) (tbl rest : list user_row)
    (v : user_row) :
  take_ilike E pat tbl = inr (Some (v, rest)) ->
  exists pre post, tbl = pre ++ v :: post /\ rest = pre ++ post
                   /\ (forall u, u ∈ pre -> ilike E (email_of u) pat = Some false)
                   /\ ilike E (email_of v) pat = Some true.
Proof.
  revert rest. induction tbl as [| u tbl IH]; intros rest; cbn [take_ilike]; [discriminate |].
  destruct (ilike E (email_of u) pat) as [[] |] eqn:Hu; [| | discriminate].
  - intros [= <- <-]. exists [], tbl. repeat split; auto. intros w Hw. inversion Hw.
  - destruct (take_ilike E pat tbl) as [e | [[w rest'] |]] eqn:Ht; [discriminate | | discriminate].
    intros [= <- <-]. destruct (IH rest' eq_refl) as (pre & post & -> & -> & Hpre & Hv).
    exists (u :: pre), post. split; [reflexivity |]. split; [reflexivity |]. split; [| exact Hv].
    intros x Hx. apply elem_of_cons in Hx as [-> | Hx]; auto.
Qed.

Lemma take_ilike_first (E : admin_env) (pat : string) (pre post : list user_row)
    (v : user_row) :
  (forall u, u ∈ pre -> ilike E (email_of u) pat = Some false) ->
  ilike E (email_of v) pat = Some true ->
  take_ilike E pat (pre ++ v :: post) = inr (Some (v, pre ++ post)).
Proof.
  intros Hpre Hv. induction pre as [| u pre IH]; cbn [app take_ilike].
  - now rewrite Hv.
  - rewrite (Hpre u); [| left]. rewrite IH; [reflexivity |].
    intros w Hw. apply Hpre. now right.
Qed.

Lemma take_ilike_none (E : admin_env) (pat : string) (tbl : list user_row) :
  (forall u, u ∈ tbl -> ilike E (email_of u) pat = Some false) ->
  take_ilike E pat tbl = inr None.
Proof.
  intros Hall. induction tbl as [| u tbl IH]; cbn [take_ilike]; [reflexivity |].
  rewrite (Hall u); [| left]. rewrite IH; [reflexivity |].
  intros w Hw. apply Hall. now right.
Qed.

End UserTable.

(** X13. The user table is changed only by an administrator's POST that
    carries the session's CSRF token: whenever [cadastro] or [excluir]
    returns a table that differs from the one it was given, the request is a
    POST, its session holds an administrator and the form token validates. *)
Theorem user_table_guard (E : Users.admin_env) (tbl : list Users.user_row)
    (r : Flask.request) :
  Users.table (Users.cadastro E tbl r) <> tbl
  \/ Users.table (Users.excluir E tbl r) <> tbl ->
  Flask.method r = Flask.POST
  /\ UsersProps.by_admin r = true
  /\ Auth.validate_csrf_from_form r = true.
Proof.
  unfold Users.cadastro, Users.excluir, Users.admin_required, UsersProps.by_admin.
  intros H.
  destruct (Flask.method r); [exfalso |].
  - destruct H as [H | H]; apply H; [| reflexivity].
    destruct (Flask.user (Flask.sess r)) as [usr |]; [| reflexivity].
    destruct (Flask.su_is_admin usr); reflexivity.
  - split; [reflexivity |].
    destruct (Flask.user (Flask.sess r)) as [usr |];
      [| exfalso; destruct H as [H | H]; apply H; reflexivity].
    destruct (Flask.su_is_admin usr);
      [| exfalso; destruct H as [H | H]; apply H; reflexivity].
    split; [reflexivity |].
    destruct (Auth.validate_csrf_from_form r); [reflexivity |].
    exfalso; destruct H as [H | H]; apply H; reflexivity.
Qed.

Lemma user_table_guard_witness :
  let r := UsersFixtures.admin_post [("email", "ana@example.org")] in
  Users.table (Users.excluir UsersFixtures.toy_admin_env UsersFixtures.two_users r)
  = [UsersFixtures.root]
  /\ Flask.method r = Flask.POST
  /\ UsersProps.by_admin r = true
  /\ Auth.validate_csrf_from_form r = true.
Proof.
  intros r. split; [vm_compute; reflexivity |].
  apply (user_table_guard UsersFixtures.toy_admin_env UsersFixtures.two_users r).
  right. vm_compute. discriminate.
Defined.

(** X14. [cadastro] never changes a role: after any request the roles of
    the table are the ones before, followed by one non-administrator when a
    user was created. And an edit that does not carry [cpf_change = 1]
    leaves the credentials alone: hash, display form and role of every row
    stay as they were, whatever the [cpf] field holds. *)
Theorem cadastro_keeps_roles (E : Users.admin_env) (tbl : list Users.user_row)
    (r : Flask.request) :
  let tbl' := Users.table (Users.cadastro E tbl r) in
  (UsersProps.roles tbl' = UsersProps.roles tbl
   \/ UsersProps.roles tbl' = UsersProps.roles tbl ++ [false])
  /\ (PyStr.nonempty (PyStr.lower (Users.field r "editar_email")) = true ->
      Flask.form r !! "cpf_change" <> Some "1" ->
      UsersProps.credentials tbl' = UsersProps.credentials tbl).
Proof.
  intros tbl'. subst tbl'.
  unfold Users.cadastro, Users.admin_required, Users.commit, Users.back.
  destruct (Flask.user (Flask.sess r)) as [usr |]; [| cbn; auto].
  destruct (negb (Flask.su_is_admin usr)); [cbn; auto |].
  destruct (Flask.method r); [cbn; auto |].
  destruct (negb (Auth.validate_csrf_from_form r)); [cbn; auto |].
  destruct (negb (PyStr.nonempty (Users.field r "nome"))
            || negb (PyStr.nonempty (PyStr.lower (Users.field r "email"))));
    [cbn; auto |].
  destruct (PyStr.nonempty (PyStr.lower (Users.field r "editar_email"))) eqn:Hed.
  - destruct (Users.find_user tbl (PyStr.lower (Users.field r "editar_email")))
      as [u |] eqn:Hu; [| cbn; auto].
    destruct (negb _ && Users.found _); [cbn; auto |].
    destruct (match Flask.form r !! "cpf_change" with
              | Some v => String.eqb v "1"
              | None => false
              end) eqn:Hchg.
    + assert (Hone : Flask.form r !! "cpf_change" = Some "1").
      { destruct (Flask.form r !! "cpf_change") as [v |]; [| discriminate Hchg].
        apply String.eqb_eq in Hchg. now subst. }
      destruct (negb (Auth.is_valid_cpf_digits _)); cbn [andb].
      * cbn. split; [auto |]. intros _ Hne. contradiction.
      * destruct (Users.row_fits _); cbn [Users.table]; [| split; auto].
        split; [| intros _ Hne; contradiction].
        left. apply (map_update_first _ _ _ u); [exact Hu | reflexivity].
    + cbn [andb]. destruct (Users.row_fits _); cbn [Users.table]; [| split; auto].
      split.
      * left. apply (map_update_first _ _ _ u); [exact Hu | reflexivity].
      * intros _ _. apply (map_update_first _ _ _ u); [exact Hu | reflexivity].
  - destruct (Users.found _); [cbn; split; [auto | discriminate] |].
    destruct (negb (Auth.is_valid_cpf_digits _)); [cbn; split; [auto | discriminate] |].
    destruct (Users.row_fits _); cbn [Users.table]; [| split; [auto | discriminate]].
    split; [| discriminate]. right. unfold UsersProps.roles. now rewrite map_app.
Qed.

Lemma cadastro_keeps_roles_witness :
  let r := UsersFixtures.admin_post
             [("nome", "Ana Lima"); ("email", "ana@example.org");
              ("editar_email", "ana@example.org"); ("cpf", "000.000.000-00")] in
  let tbl' := Users.table (Users.cadastro UsersFixtures.toy_admin_env
                             UsersFixtures.two_users r) in
  option_map (fun u => Auth.u_nome (Users.account u))
             (Users.find_user tbl' "ana@example.org") = Some "Ana Lima"
  /\ UsersProps.credentials tbl' = UsersProps.credentials UsersFixtures.two_users.
Proof.
  intros r tbl'. split; [vm_compute; reflexivity |].
  apply (cadastro_keeps_roles UsersFixtures.toy_admin_env UsersFixtures.two_users r).
  - vm_compute; reflexivity.
  - vm_compute. discriminate.
Defined.

Section UserTableMore.
Import PyStr Flask Users UsersProps.

Lemma take_ilike_unique (E : admin_env) (pat : string) (tbl rest : list user_row)
    (v : user_row) :
  take_ilike E pat tbl = inr (Some (v, rest)) -> unique_emails tbl -> unique_emails rest.
Proof.
  intros Ht. destruct (take_ilike_some _ _ _ _ _ Ht) as (pre & post & -> & -> & _).
  unfold unique_emails. intros Hnd. eapply sublist_NoDup; [exact Hnd |].
  apply (fmap_sublist (fun u => lower (email_of u))). apply sublist_app; [reflexivity |]. now apply sublist_cons.
Qed.

Lemma find_user_split (tbl : list user_row) (e : string) (v : user_row) :
  find_user tbl e = Some v ->
  exists pre post, tbl = pre ++ v :: post
                   /\ (forall u, u ∈ pre -> lower (email_of u) <> lower e)
                   /\ lower (email_of v) = lower e.
Proof.
  unfold find_user. induction tbl as [| u tbl IH]; cbn [List.find]; [discriminate |].
  destruct (String.eqb_spec (lower (email_of u)) (lower e)) as [Heq | Hne].
  - intros [= <-]. exists [], tbl. split; [reflexivity |]. split; [| exact Heq].
    intros w Hw. inversion Hw.
  - intros H. destruct (IH H) as (pre & post & -> & Hpre & Hv).
    exists (u :: pre), post. split; [reflexivity |]. split; [| exact Hv].
    intros w Hw. apply elem_of_cons in Hw as [-> | Hw]; auto.
Qed.

Lemma find_user_skip (pre post : list user_row) (v : user_row) (e : string) :
  lower (email_of v) <> lower e ->
  find_user (pre ++ v :: post) e = find_user (pre ++ post) e.
Proof.
  unfold find_user. intros Hne. induction pre as [| u pre IH]; cbn [app List.find].
  - destruct (String.eqb_spec (lower (email_of v)) (lower e)); [contradiction | reflexivity].
  - now rewrite IH.
Qed.

Lemma find_user_update_other (tbl : list user_row) (e e' : string) (u' : user_row) :
  lower (email_of u') = lower e -> lower e' <> lower e ->
  find_user (update_first e u' tbl) e' = find_user tbl e'.
Proof.
  unfold find_user. intros Hk Hne.
  induction tbl as [| u tbl IH]; cbn [update_first List.find]; [reflexivity |].
  destruct (String.eqb_spec (lower (email_of u)) (lower e)) as [Heq | Hneq]; cbn [List.find].
  - destruct (String.eqb_spec (lower (email_of u')) (lower e')); [congruence |].
    destruct (String.eqb_spec (lower (email_of u)) (lower e')); [congruence | reflexivity].
  - now rewrite IH.
Qed.

Lemma find_user_update_here (tbl : list user_row) (e : string) (u u' : user_row) :
  lower (email_of u') = lower e -> find_user tbl e = Some u ->
  find_user (update_first e u' tbl) e = Some u'.
Proof.
  unfold find_user. intros Hk.
  induction tbl as [| v tbl IH]; cbn [update_first List.find]; [discriminate |].
  destruct (String.eqb_spec (lower (email_of v)) (lower e)) as [Heq | Hneq]; cbn [List.find].
  - intros _. now rewrite Hk, String.eqb_refl.
  - destruct (String.eqb_spec (lower (email_of v)) (lower e)); [contradiction | exact IH].
Qed.

Lemma found_false {A : Type} (x : option A) : found x = false -> x = None.
Proof. destruct x; [discriminate | reflexivity]. Qed.

Lemma cadastro_unique (E : admin_env) (tbl : list user_row) (r : request) :
  unique_emails tbl -> unique_emails (table (cadastro E tbl r)).
Proof.
  intros Hnd. unfold cadastro, admin_required, commit, back.
  destruct (user (sess r)) as [usr |]; [| exact Hnd].
  destruct (negb (su_is_admin usr)); [exact Hnd |].
  destruct (method r); [exact Hnd |].
  destruct (negb (Auth.validate_csrf_from_form r)); [exact Hnd |].
  destruct (negb (nonempty (field r "nome")) || negb (nonempty (lower (field r "email"))));
    [exact Hnd |].
  destruct (nonempty (lower (field r "editar_email"))).
  - destruct (find_user tbl (lower (field r "editar_email"))) as [u |] eqn:Hu; [| exact Hnd].
    destruct (negb (String.eqb _ _) && found _) eqn:Hdup; [exact Hnd |].
    destruct (_ && negb (Auth.is_valid_cpf_digits _)); [exact Hnd |].
    destruct (row_fits _); [| exact Hnd]. cbn [table].
    apply update_first_unique; [exact Hnd |].
    unfold email_of at 1. cbn [account Auth.u_email].
    apply andb_false_iff in Hdup as [Hsame | Hfree].
    + left. apply negb_false_iff, String.eqb_eq in Hsame. now rewrite Hsame.
    + right. apply found_false in Hfree. now apply find_user_none.
  - destruct (found _) eqn:Hfree; [exact Hnd |].
    destruct (negb (Auth.is_valid_cpf_digits _)); [exact Hnd |].
    destruct (row_fits _); [| exact Hnd]. cbn [table].
    apply snoc_unique; [exact Hnd |]. apply found_false in Hfree. exact Hfree.
Qed.

Lemma excluir_unique (E : admin_env) (tbl : list user_row) (r : request) :
  unique_emails tbl -> unique_emails (table (excluir E tbl r)).
Proof.
  intros Hnd. unfold excluir, admin_required, back.
  destruct (method r); [exact Hnd |].
  destruct (user (sess r)) as [usr |]; [| exact Hnd].
  destruct (negb (su_is_admin usr)); [exact Hnd |].
  destruct (negb (Auth.validate_csrf_from_form r)); [exact Hnd |].
  destruct (negb (nonempty _)); [exact Hnd |].
  destruct (take_ilike E _ tbl) as [e | [[v rest] |]] eqn:Ht; [exact Hnd | | exact Hnd].
  cbn [table]. exact (take_ilike_unique _ _ _ _ _ Ht Hnd).
Qed.

Lemma register_user_unique (E : admin_env) (tbl tbl' : list user_row)
    (nome email cpf : string) (a : bool) (u : user_row) :
  register_user E tbl nome email cpf a = inr (u, tbl') ->
  unique_emails tbl -> unique_emails tbl'.
Proof.
  unfold register_user. intros H Hnd.
  destruct (negb (Auth.is_valid_email _)); [discriminate |].
  destruct (negb (Auth.is_valid_cpf_digits _)); [discriminate |].
  destruct (find_user tbl (lower (strip email))) as [u0 |] eqn:Hu.
  - destruct (row_fits _); [| discriminate]. injection H as <- <-.
    apply update_first_unique; [exact Hnd |]. left.
    unfold email_of at 1. cbn [account Auth.u_email].
    exact (proj2 (find_user_some _ _ _ Hu)).
  - destruct (row_fits _); [| discriminate]. injection H as <- <-.
    apply snoc_unique; [exact Hnd | exact Hu].
Qed.

(** The stand-in pattern operator compares a pattern without [%] and [_]
    character by character. *)
Lemma like_literal (p s : string) :
  all_chars (fun c => negb (Ascii.eqb c "%") && negb (Ascii.eqb c "_")) p = true ->
  UsersFixtures.like p s = String.eqb s p.
Proof.
  revert s. induction p as [| c p IH]; intros s; cbn [all_chars UsersFixtures.like].
  - intros _. destruct s; reflexivity.
  - intros H. apply andb_true_iff in H as [Hc Hp].
    apply andb_true_iff in Hc as [H1 H2].
    apply negb_true_iff in H1. apply negb_true_iff in H2. rewrite H1.
    destruct s as [| a s]; [reflexivity |].
    rewrite H2, (IH s Hp). cbn [orb String.eqb].
    destruct (Ascii.eqb a c); reflexivity.
Qed.

End UserTableMore.

(** X15. The handlers keep the unique constraint of the [email] column
    without relying on the database to refuse a duplicate: from a table in
    which no two rows share an e-mail address (case ignored), [cadastro] and
    [excluir] return such a table on every request, and so does every
    successful call of [register_user]. *)
Theorem user_emails_stay_unique (E : Users.admin_env) (tbl : list Users.user_row) :
  Users.unique_emails tbl ->
  (forall r, Users.unique_emails (Users.table (Users.cadastro E tbl r)))
  /\ (forall r, Users.unique_emails (Users.table (Users.excluir E tbl r)))
  /\ (forall nome email cpf a u tbl',
        Users.register_user E tbl nome email cpf a = inr (u, tbl') ->
        Users.unique_emails tbl').
Proof.
  intros Hnd. split; [| split].
  - intros r. now apply cadastro_unique.
  - intros r. now apply excluir_unique.
  - intros nome email cpf a u tbl' H. exact (register_user_unique _ _ _ _ _ _ _ _ H Hnd).
Qed.

Lemma user_emails_stay_unique_witness :
  Users.unique_emails
    (Users.table (Users.cadastro UsersFixtures.toy_admin_env UsersFixtures.two_users
                    (UsersFixtures.admin_post
                       [("nome", "Ana Lima"); ("email", "ROOT@example.org");
                        ("editar_email", "ana@example.org")]))).
Proof.
  apply (user_emails_stay_unique UsersFixtures.toy_admin_env UsersFixtures.two_users).
  unfold Users.unique_emails. vm_compute.
  apply NoDup_cons. split; [| apply NoDup_singleton].
  intros H. apply list_elem_of_singleton in H. discriminate H.
Defined.

(** X16. [excluir] hands the submitted text to the pattern operator of the
    database: the row deleted is the first one, in the order of the scan,
    the operator accepts for the stripped and lowercased text, whatever the
    e-mail address of that row is. With the pattern [%] it is the first row
    of the table. *)
Theorem excluir_deletes_first_accepted (E : Users.admin_env) (r : Flask.request)
    (pre post : list Users.user_row) (v : Users.user_row) :
  Flask.method r = Flask.POST ->
  UsersProps.by_admin r = true ->
  Auth.validate_csrf_from_form r = true ->
  let pattern := PyStr.lower (Users.field r "email") in
  PyStr.nonempty pattern = true ->
  (forall u, u ∈ pre -> Users.ilike E (Users.email_of u) pattern = Some false) ->
  Users.ilike E (Users.email_of v) pattern = Some true ->
  Users.excluir E (pre ++ v :: post) r
  = Users.Result (Users.Redirect "cadastro")
                 [("Usuário excluído com sucesso.", "success")] (pre ++ post).
Proof.
  intros Hm Hadm Hcsrf pattern Hne Hpre Hv.
  unfold Users.excluir, Users.admin_required, UsersProps.by_admin in *.
  rewrite Hm. destruct (Flask.user (Flask.sess r)) as [usr |]; [| discriminate Hadm].
  rewrite Hadm, Hcsrf. cbn [negb]. fold pattern. rewrite Hne. cbn [negb].
  now rewrite (take_ilike_first E pattern pre post v Hpre Hv).
Qed.

Lemma excluir_deletes_first_accepted_witness :
  Users.excluir UsersFixtures.toy_admin_env UsersFixtures.two_users
                (UsersFixtures.admin_post [("email", " % ")])
  = Users.Result (Users.Redirect "cadastro")
                 [("Usuário excluído com sucesso.", "success")] [UsersFixtures.ana].
Proof.
  apply (excluir_deletes_first_accepted UsersFixtures.toy_admin_env
           (UsersFixtures.admin_post [("email", " % ")])
           [] [UsersFixtures.ana] UsersFixtures.root); try (vm_compute; reflexivity).
  intros u Hu. inversion Hu.
Defined.

(** X17. When the database matches the submitted address literally (it
    holds none of the pattern characters) and addresses are unique,
    [excluir] removes exactly the account with that address, case ignored:
    afterwards no row answers to it, and a query for any other address finds
    what it found before. When no row has the address, the table is left as
    it is and the answer is that the user was not found. *)
Theorem excluir_removes_account (E : Users.admin_env) (tbl : list Users.user_row)
    (r : Flask.request) :
  Flask.method r = Flask.POST ->
  UsersProps.by_admin r = true ->
  Auth.validate_csrf_from_form r = true ->
  let email := PyStr.lower (Users.field r "email") in
  PyStr.nonempty email = true ->
  (forall s, Users.ilike E s email = Some (String.eqb (PyStr.lower s) email)) ->
  Users.unique_emails tbl ->
  let res := Users.excluir E tbl r in
  match Users.find_user tbl email with
  | None =>
      res = Users.Result (Users.Redirect "cadastro")
                         [("Usuário não encontrado.", "warning")] tbl
  | Some v =>
      Users.resp res = Users.Redirect "cadastro"
      /\ Users.flashes res = [("Usuário excluído com sucesso.", "success")]
      /\ Users.find_user (Users.table res) email = None
      /\ (forall e, PyStr.lower e <> email ->
                    Users.find_user (Users.table res) e = Users.find_user tbl e)
      /\ length tbl = S (length (Users.table res))
  end.
Proof.
  intros Hm Hadm Hcsrf email Hne Hlit Hnd res.
  assert (Hlow : PyStr.lower email = email) by apply lower_idem.
  assert (Hres : res = match Users.take_ilike E email tbl with
                       | inl e => Users.Result (Users.InternalError e) [] tbl
                       | inr None => Users.back tbl "Usuário não encontrado." "warning"
                       | inr (Some (_, rest)) =>
                           Users.back rest "Usuário excluído com sucesso." "success"
                       end).
  { subst res. unfold Users.excluir, Users.admin_required, UsersProps.by_admin in *.
    rewrite Hm. destruct (Flask.user (Flask.sess r)) as [usr |]; [| discriminate Hadm].
    rewrite Hadm, Hcsrf. cbn [negb]. fold email. now rewrite Hne. }
  destruct (Users.find_user tbl email) as [v |] eqn:Hfind.
  - destruct (find_user_split _ _ _ Hfind) as (pre & post & -> & Hpre & Hv).
    rewrite Hlow in Hv.
    rewrite (take_ilike_first E email pre post v) in Hres.
    + rewrite Hres. cbn [Users.back Users.resp Users.flashes Users.table].
      split; [reflexivity |]. split; [reflexivity |].
      split; [| split].
      * apply find_user_none. rewrite Hlow. unfold Users.unique_emails in Hnd.
        rewrite map_app in Hnd |- *. cbn [map] in Hnd.
        apply NoDup_app in Hnd as (_ & Hcross & Hpost).
        apply NoDup_cons in Hpost as [Hv' _].
        rewrite Hv in Hcross, Hv'.
        intros Hin. apply elem_of_app in Hin as [Hin | Hin]; [| contradiction].
        apply (Hcross _ Hin). left.
      * intros e He. symmetry. apply find_user_skip. congruence.
      * rewrite !List.length_app. cbn [length]. lia.
    + intros u Hu. rewrite Hlit. f_equal. apply String.eqb_neq.
      rewrite <- Hlow. now apply Hpre.
    + rewrite Hlit. f_equal. now apply String.eqb_eq.
  - rewrite (take_ilike_none E email tbl) in Hres; [exact Hres |].
    intros u Hu. rewrite Hlit. f_equal. apply String.eqb_neq.
    apply find_user_none in Hfind. rewrite Hlow in Hfind.
    intros Hk. apply Hfind. rewrite <- Hk.
    apply (list_elem_of_fmap_2 (fun u => PyStr.lower (Users.email_of u))). exact Hu.
Qed.

Lemma excluir_removes_account_witness :
  let res := Users.excluir UsersFixtures.toy_admin_env UsersFixtures.two_users
               (UsersFixtures.admin_post [("email", " Ana@Example.org ")]) in
  Users.table res = [UsersFixtures.root]
  /\ Users.find_user (Users.table res) "ana@example.org" = None.
Proof.
  intros res. subst res. split; [vm_compute; reflexivity |].
  set (r := UsersFixtures.admin_post [("email", " Ana@Example.org ")]).
  assert (Hnd : Users.unique_emails UsersFixtures.two_users).
  { unfold Users.unique_emails. vm_compute.
    apply NoDup_cons. split; [| apply NoDup_singleton].
    intros H. apply list_elem_of_singleton in H. discriminate H. }
  assert (He : PyStr.lower (Users.field r "email") = "ana@example.org")
    by (vm_compute; reflexivity).
  assert (Hlit : forall s,
             Users.ilike UsersFixtures.toy_admin_env s (PyStr.lower (Users.field r "email"))
             = Some (String.eqb (PyStr.lower s) (PyStr.lower (Users.field r "email")))).
  { intros s. rewrite He. cbn [Users.ilike UsersFixtures.toy_admin_env]. f_equal.
    change (PyStr.lower "ana@example.org") with "ana@example.org".
    apply like_literal. reflexivity. }
  assert (Hm : Flask.method r = Flask.POST) by reflexivity.
  assert (Hadm : UsersProps.by_admin r = true) by reflexivity.
  assert (Hcsrf : Auth.validate_csrf_from_form r = true) by (vm_compute; reflexivity).
  assert (Hne : PyStr.nonempty (PyStr.lower (Users.field r "email")) = true)
    by (rewrite He; reflexivity).
  pose proof (excluir_removes_account UsersFixtures.toy_admin_env UsersFixtures.two_users
                r Hm Hadm Hcsrf Hne Hlit Hnd) as H.
  cbv zeta in H. rewrite He in H.
  assert (Hf : Users.find_user UsersFixtures.two_users "ana@example.org"
               = Some UsersFixtures.ana) by (vm_compute; reflexivity).
  rewrite Hf in H. exact (proj1 (proj2 (proj2 H))).
Defined.

(** X18. A user created through [cadastro] is appended as a
    non-administrator whose password is the CPF: a later login with the
    same address and CPF, from an unlocked key, opens a session for exactly
    that user, provided the password checker accepts the hash the
    registration stored. [cadastro] does not check the form of the address,
    though: when it is not a valid e-mail address the account is created all
    the same and the login is refused with the format message before the
    table is read. *)
Theorem created_user_signs_in (E : Users.admin_env) (L : Auth.login_env)
    (tbl : list Users.user_row) (r : Flask.request) :
  Flask.method r = Flask.POST ->
  UsersProps.by_admin r = true ->
  Auth.validate_csrf_from_form r = true ->
  let nome := Users.field r "nome" in
  let email := PyStr.lower (Users.field r "email") in
  let cpf := Cpf.normalize_cpf (Flask.or_empty (Flask.form r !! "cpf")) in
  let u := Users.UserRow
             (Auth.DbUser email nome (Users._hash E cpf) (Cpf.format_cpf cpf)
                (Some (Users.field r "orgao")) (Some (Users.field r "cargo"))
                (Some (Users.field r "matricula")) false)
             (Some (Users.field r "setor")) in
  PyStr.nonempty nome = true ->
  PyStr.nonempty email = true ->
  PyStr.nonempty (PyStr.lower (Users.field r "editar_email")) = false ->
  Users.find_user tbl email = None ->
  Auth.is_valid_cpf_digits cpf = true ->
  Users.row_fits u = true ->
  Users.cadastro E tbl r
  = Users.Result (Users.Redirect "cadastro") [("Usuário cadastrado.", "success")]
                 (tbl ++ [u])
  /\ forall (attempts : gmap string Auth.attempt) (r' : Flask.request),
       Flask.method r' = Flask.POST ->
       Auth.validate_csrf_from_form r' = true ->
       PyStr.lower (PyStr.strip (Flask.or_empty (Flask.form r' !! "email"))) = email ->
       Auth.normalize_cpf (Flask.or_empty (Flask.form r' !! "cpf")) = cpf ->
       Auth.check_password_hash L (Users._hash E cpf) cpf = true ->
       Auth._is_locked L attempts (Auth._key_for_login r' email) = 0 ->
       let out := Auth.login L (UsersProps.accounts (tbl ++ [u])) attempts r' in
       if Auth.is_valid_email email
       then Flask.user (Auth.l_session out)
            = Some (Flask.SessionUser email nome (Cpf.format_cpf cpf) false
                      (Auth.utcnow_iso L +:+ "Z") (Some (Users.field r "orgao"))
                      (Some (Users.field r "cargo")) (Some (Users.field r "matricula")))
            /\ Auth.l_flashes out = []
            /\ Auth.l_log out = [Auth.EvUserQuery email; Auth.EvCheckHash email]
       else Auth.l_resp out = Auth.Redirect "auth.login"
            /\ Auth.l_flashes out = [(Auth.MSG_FORMATO, "danger")]
            /\ Auth.l_session out = Flask.sess r'
            /\ Auth.l_log out = [].
Proof.
  intros Hm Hadm Hcsrf nome email cpf u Hnome Hemail Hed Hfree Hcpf Hfits.
  split.
  - unfold Users.cadastro, Users.admin_required, Users.commit, UsersProps.by_admin in *.
    rewrite Hm. destruct (Flask.user (Flask.sess r)) as [usr |]; [| discriminate Hadm].
    rewrite Hadm, Hcsrf. cbn [negb]. fold nome email cpf.
    rewrite Hnome, Hemail, Hed, Hfree, Hcpf. cbn [negb orb Users.found].
    fold u. now rewrite Hfits.
  - intros attempts r' Hm' Hcsrf' He' Hc' Hcheck Hunlocked out. subst out.
    unfold Auth.login. rewrite Hm', Hcsrf', He', Hc'. cbn [negb].
    unfold Cpf.normalize_cpf in cpf. fold cpf. rewrite Hcpf. cbn [negb].
    destruct (Auth.is_valid_email email); cbn [negb orb];
      [| repeat (split; [reflexivity |]); reflexivity].
    rewrite Hunlocked. cbn [Z.ltb Z.compare].
    subst u. rewrite find_user_accounts, find_user_snoc by exact Hfree.
    unfold Users.email_of. cbn [Users.account Auth.u_email].
    rewrite String.eqb_refl. cbn [option_map Users.account Auth.u_cpf_hash].
    unfold Auth._check_hash. rewrite Hcheck. cbn [negb].
    split; [reflexivity |]. split; reflexivity.
Qed.

Lemma created_user_signs_in_witness :
  let r := UsersFixtures.admin_post
             [("nome", "Bia Reis"); ("email", " Bia@Example.org"); ("cpf", "987.654.321-00");
              ("orgao", "SEMIT")] in
  let tbl := Users.table (Users.cadastro UsersFixtures.toy_admin_env
                            UsersFixtures.two_users r) in
  length tbl = 3%nat
  /\ option_map Flask.su_cpf
       (Flask.user (Auth.l_session
          (Auth.login (Fixtures.login_env_at 1000) (UsersProps.accounts tbl) ∅
             (Fixtures.login_post "bia@example.org" "98765432100"))))
     = Some "987.654.321-00".
Proof.
  intros r tbl. subst tbl.
  destruct (created_user_signs_in UsersFixtures.toy_admin_env (Fixtures.login_env_at 1000)
              UsersFixtures.two_users r) as [Hcad Hlogin]; try (vm_compute; reflexivity).
  rewrite Hcad. cbn [Users.table]. split; [reflexivity |].
  specialize (Hlogin ∅ (Fixtures.login_post "bia@example.org" "98765432100")
                ltac:(reflexivity) ltac:(vm_compute; reflexivity)
                ltac:(vm_compute; reflexivity) ltac:(vm_compute; reflexivity)
                ltac:(vm_compute; reflexivity) ltac:(vm_compute; reflexivity)).
  cbv zeta in Hlogin.
  assert (Hv : Auth.is_valid_email (PyStr.lower (Users.field r "email")) = true)
    by (vm_compute; reflexivity).
  rewrite Hv in Hlogin. destruct Hlogin as (Hs & _). rewrite Hs. reflexivity.
Defined.

Section RegisterFacts.
Import PyStr Flask Users.

Lemma find_user_snoc_other (tbl : list user_row) (e : string) (u : user_row) :
  lower (email_of u) <> lower e -> find_user (tbl ++ [u]) e = find_user tbl e.
Proof.
  unfold find_user. intros Hne. induction tbl as [| v tbl IH]; cbn [app List.find].
  - destruct (String.eqb_spec (lower (email_of u)) (lower e)); [contradiction | reflexivity].
  - now rewrite IH.
Qed.

Lemma length_update_first (tbl : list user_row) (e : string) (u' : user_row) :
  length (update_first e u' tbl) = length tbl.
Proof.
  induction tbl as [| v tbl IH]; cbn [update_first]; [reflexivity |].
  destruct (String.eqb _ _); cbn [length]; [reflexivity | now rewrite IH].
Qed.

End RegisterFacts.

(** X19. [register_user] is an upsert keyed by the stripped, lowercased
    address. Whenever it returns, address and CPF were valid, the row
    returned is the one a query for the address now finds, it carries the
    stripped name, the new hash, the display form of the CPF and the role
    that was passed (so registering an existing administrator again without
    the flag takes the role away), and a query for any other address finds
    what it found before. A new row is appended with no organisation data;
    an existing row keeps its address, organisation data and position. *)
Theorem register_user_upsert (E : Users.admin_env) (tbl tbl' : list Users.user_row)
    (nome email cpf : string) (a : bool) (u : Users.user_row) :
  Users.register_user E tbl nome email cpf a = inr (u, tbl') ->
  let key := PyStr.lower (PyStr.strip email) in
  let digits := Auth.normalize_cpf cpf in
  let acc := Users.account u in
  Auth.is_valid_email key = true
  /\ Auth.is_valid_cpf_digits digits = true
  /\ Users.find_user tbl' key = Some u
  /\ (Auth.u_nome acc, Auth.u_cpf_hash acc, Auth.u_cpf_masked acc, Auth.u_is_admin acc)
     = (PyStr.strip nome, Users._hash E digits, Cpf.format_cpf digits, a)
  /\ (forall e, PyStr.lower e <> key -> Users.find_user tbl' e = Users.find_user tbl e)
  /\ match Users.find_user tbl key with
     | None =>
         tbl' = tbl ++ [u]
         /\ Auth.u_email acc = key
         /\ (Auth.u_orgao acc, Auth.u_cargo acc, Auth.u_matricula acc, Users.setor u)
            = (None, None, None, None)
     | Some u0 =>
         length tbl' = length tbl
         /\ Auth.u_email acc = Users.email_of u0
         /\ (Auth.u_orgao acc, Auth.u_cargo acc, Auth.u_matricula acc, Users.setor u)
            = (Auth.u_orgao (Users.account u0), Auth.u_cargo (Users.account u0),
               Auth.u_matricula (Users.account u0), Users.setor u0)
     end.
Proof.
  intros H key digits acc. subst acc. unfold Users.register_user in H.
  fold key digits in H.
  assert (Hlow : PyStr.lower key = key) by apply lower_idem.
  destruct (Auth.is_valid_email key); [| discriminate H].
  destruct (Auth.is_valid_cpf_digits digits); [| discriminate H].
  cbn [negb] in H. split; [reflexivity |]. split; [reflexivity |].
  destruct (Users.find_user tbl key) as [u0 |] eqn:Hfind.
  - destruct (Users.row_fits _); [| discriminate H]. injection H as <- <-.
    pose proof (proj2 (find_user_some _ _ _ Hfind)) as Hk.
    cbn [Users.account Users.setor Auth.u_nome Auth.u_cpf_hash Auth.u_cpf_masked
         Auth.u_is_admin Auth.u_email Auth.u_orgao Auth.u_cargo Auth.u_matricula].
    split; [| split; [reflexivity | split]].
    + apply (find_user_update_here tbl key u0); [exact Hk | exact Hfind].
    + intros e He. apply find_user_update_other; [exact Hk | congruence].
    + split; [apply length_update_first |]. split; reflexivity.
  - destruct (Users.row_fits _); [| discriminate H]. injection H as <- <-.
    cbn [Users.account Users.setor Auth.u_nome Auth.u_cpf_hash Auth.u_cpf_masked
         Auth.u_is_admin Auth.u_email Auth.u_orgao Auth.u_cargo Auth.u_matricula].
    split; [| split; [reflexivity | split]].
    + rewrite (find_user_snoc tbl key _ Hfind).
      unfold Users.email_of. cbn [Users.account Auth.u_email].
      now rewrite String.eqb_refl.
    + intros e He. apply find_user_snoc_other.
      unfold Users.email_of. cbn [Users.account Auth.u_email]. congruence.
    + split; [reflexivity |]. split; reflexivity.
Qed.

Lemma register_user_upsert_witness :
  exists u tbl',
    Users.register_user UsersFixtures.toy_admin_env UsersFixtures.two_users
                        " Root " "ROOT@example.org" "111.222.333-44" false = inr (u, tbl')
    /\ Users.find_user tbl' "root@example.org" = Some u
    /\ Auth.u_is_admin (Users.account u) = false
    /\ UsersProps.roles tbl' = [false; false].
Proof.
  destruct (Users.register_user UsersFixtures.toy_admin_env UsersFixtures.two_users
              " Root " "ROOT@example.org" "111.222.333-44" false)
    as [e | [u tbl']] eqn:Hreg; [vm_compute in Hreg; discriminate Hreg |].
  exists u, tbl'. split; [reflexivity |].
  destruct (register_user_upsert _ _ _ _ _ _ _ _ Hreg) as (_ & _ & Hfind & Hrow & _).
  split; [exact Hfind |]. split; [now injection Hrow |].
  vm_compute in Hreg. injection Hreg as <- <-. reflexivity.
Defined.

(** X20. [logout] ends the session only for a POST whose form token
    validates: then the session keeps neither the user nor the old token (a
    fresh token is stored), one message is flashed, and with the session it
    leaves, the signing page, the download route, the user administration
    and the deletion route all send the visitor to the login page without
    touching the disk or the table. Without a valid token the session is
    returned as it was. *)
Theorem logout_ends_session (L : Auth.login_env) (r : Flask.request) :
  Flask.method r = Flask.POST ->
  let out := Users.logout L r in
  if Auth.validate_csrf_from_form r
  then out = (Users.Redirect "auth.login", [("Você saiu com segurança.", "info")],
              Flask.Session (Some (Auth.fresh_token L))
                            (Flask.permanent (Flask.sess r)) None)
       /\ forall r', Flask.sess r' = snd out ->
            Users.home r' = Users.Redirect "auth.login"
            /\ (forall Doc Img (E : App.sign_env Doc Img) d,
                  App.assinar E d r' = (App.ToLogin, d))
            /\ (forall d root name, App.download d root r' name = App.RedirectLogin)
            /\ (forall A tbl,
                  Users.table (Users.cadastro A tbl r') = tbl
                  /\ Users.resp (Users.cadastro A tbl r') = Users.Redirect "auth.login"
                  /\ (Flask.method r' = Flask.POST ->
                      Users.excluir A tbl r'
                      = Users.Result (Users.Redirect "auth.login")
                          [("Faça login para continuar.", "warning")] tbl))
  else out = (Users.Redirect "assinar", [], Flask.sess r).
Proof.
  intros Hm out. subst out. unfold Users.logout. rewrite Hm.
  destruct (Auth.validate_csrf_from_form r); cbn [negb]; [| reflexivity].
  split; [reflexivity |].
  cbn [snd]. unfold Auth.ensure_csrf.
  cbn [Flask.csrf_token Flask.or_empty default PyStr.nonempty Flask.permanent Flask.user].
  intros r' Hs.
  assert (Hu : Flask.user (Flask.sess r') = None) by now rewrite Hs.
  split; [unfold Users.home; now rewrite Hu |].
  split; [| split].
  - intros Doc Img E d. unfold App.assinar, App.prepare. now rewrite Hu.
  - intros d root name. unfold App.download. now rewrite Hu.
  - intros A tbl. unfold Users.cadastro, Users.excluir, Users.admin_required.
    rewrite Hu. split; [reflexivity |]. split; [reflexivity |].
    intros ->. reflexivity.
Qed.

Lemma logout_ends_session_witness :
  let r := Flask.Request Flask.POST ∅ {[ "csrf_token" := "tok" ]} ∅ ∅ (Some "10.0.0.7")
                   UsersFixtures.admin_session in
  Users.logout (Fixtures.login_env_at 1000) r
  = (Users.Redirect "auth.login", [("Você saiu com segurança.", "info")],
     Flask.Session (Some "fresh") true None).
Proof.
  intros r.
  pose proof (logout_ends_session (Fixtures.login_env_at 1000) r eq_refl) as H.
  cbv zeta in H.
  assert (Hc : Auth.validate_csrf_from_form r = true) by (vm_compute; reflexivity).
  rewrite Hc in H. exact (proj1 H).
Defined.
